(** * zctor documentation tooling: extraction engine and book assembly

    A shallow embedding of [docs/generate_docs.py] (class [DocGenerator]) and
    [docs/generate_book.py] (class [BookGenerator]), followed by the
    properties of the extraction engine and of the chapter assembler.

    Python [str] values are sequences of Unicode code points; they are
    modelled as lists of code points ([N]).  String constants of the source
    are written with [py "..."]. *)

From Stdlib Require Import Ascii String DecimalString.
From Stdlib Require Import List NArith ZArith Bool Arith Lia Sorted.
Import ListNotations.

Set Implicit Arguments.

(** ** Text *)

Module Text.

Definition char := N.
Definition str := list char.

Definition py (s : string) : str :=
  List.map N_of_ascii (list_ascii_of_string s).
Arguments py s%_string.

Definition chr (a : ascii) : char := N_of_ascii a.
Arguments chr a%_char.

(** The line feed, ['\n']. *)
Definition nl : char := 10%N.

Definition str_eqb (a b : str) : bool :=
  if list_eq_dec N.eq_dec a b then true else false.

(** [str.isspace] on one code point: the characters Python treats as
    whitespace ([_PyUnicode_IsWhitespace]); also the class [\s] of [re]. *)
Definition is_space (c : char) : bool :=
  ((9 <=? c) && (c <=? 13) || (28 <=? c) && (c <=? 32)
   || (c =? 133) || (c =? 160) || (c =? 5760)
   || (8192 <=? c) && (c <=? 8202)
   || (c =? 8232) || (c =? 8233) || (c =? 8239) || (c =? 8287)
   || (c =? 12288))%N.

Fixpoint lstrip (s : str) : str :=
  match s with
  | c :: s' => if is_space c then lstrip s' else s
  | [] => []
  end.

Definition rstrip (s : str) : str := rev (lstrip (rev s)).

(** [s.strip()] *)
Definition strip (s : str) : str := rstrip (lstrip s).

(** [s.startswith(p)] *)
Fixpoint startswith (s p : str) {struct p} : bool :=
  match p, s with
  | [], _ => true
  | a :: p', b :: s' => (a =? b)%N && startswith s' p'
  | _ :: _, [] => false
  end.

(** [sub in s] *)
Fixpoint contains (sub s : str) : bool :=
  startswith s sub ||
  match s with
  | [] => false
  | _ :: s' => contains sub s'
  end.

(** [s.split('\n')]: never empty, [''.split('\n') == ['']]. *)
Fixpoint split_nl (s : str) : list str :=
  match s with
  | [] => [[]]
  | c :: s' =>
      if (c =? nl)%N then [] :: split_nl s'
      else match split_nl s' with
           | l :: ls => (c :: l) :: ls
           | [] => [[c]]
           end
  end.

(** ['\n'.join(ls)] *)
Fixpoint join_nl (ls : list str) : str :=
  match ls with
  | [] => []
  | [l] => l
  | l :: ls' => l ++ nl :: join_nl ls'
  end.

(** [str(n)] for a non-negative integer. *)
Definition str_of_nat (n : nat) : str :=
  py (NilZero.string_of_uint (Nat.to_uint n)).

End Text.
Import Text.

(** ** Regular expressions

    The two patterns of the source are matched with [re.match], a
    backtracking matcher anchored at the start of the string.  The fragment
    below covers what the patterns use: literals, character classes,
    greedy and lazy repetition of a class, capturing groups (not nested, so
    they close in the order they are numbered), alternation and [$]. *)

Module Re.

Inductive regex : Type :=
| Chr (c : char)
| Rep (greedy : bool) (atleast : nat) (cls : char -> bool)
| Grp (r : regex)
| Cat (r1 r2 : regex)
| Alt (r1 r2 : regex)
| Eos
| Eps.

(** What a repetition consumed: [s] minus its suffix [rest]. *)
Definition consumed (s rest : str) : str :=
  firstn (length s - length rest) s.

Definition orelse {A} (x y : option A) : option A :=
  match x with Some _ => x | None => y end.

Section Matcher.
Variable R : Type.

(** Greedy [cls{atleast,}]: take one more while possible, give back on
    failure of the continuation. *)
Fixpoint rep_greedy (cls : char -> bool) (atleast : nat) (s : str)
         (k : str -> option R) : option R :=
  let stop := match atleast with O => k s | S _ => None end in
  match s with
  | c :: s' =>
      if cls c then orelse (rep_greedy cls (pred atleast) s' k) stop
      else stop
  | [] => stop
  end.

(** Lazy [cls{atleast,}?]: stop as soon as the continuation succeeds. *)
Fixpoint rep_lazy (cls : char -> bool) (atleast : nat) (s : str)
         (k : str -> option R) : option R :=
  let more :=
    match s with
    | c :: s' => if cls c then rep_lazy cls (pred atleast) s' k else None
    | [] => None
    end in
  match atleast with
  | O => orelse (k s) more
  | S _ => more
  end.

Fixpoint run (r : regex) (s : str) (groups : list str)
         (k : str -> list str -> option R) : option R :=
  match r with
  | Chr c =>
      match s with
      | c' :: s' => if (c' =? c)%N then k s' groups else None
      | [] => None
      end
  | Rep true n cls => rep_greedy cls n s (fun s' => k s' groups)
  | Rep false n cls => rep_lazy cls n s (fun s' => k s' groups)
  | Grp r1 => run r1 s groups (fun s' g => k s' (g ++ [consumed s s']))
  | Cat r1 r2 => run r1 s groups (fun s' g => run r2 s' g k)
  | Alt r1 r2 => orelse (run r1 s groups k) (run r2 s groups k)
  | Eos =>
      match s with
      | [] => k s groups
      | [c] => if (c =? nl)%N then k s groups else None
      | _ => None
      end
  | Eps => k s groups
  end.
End Matcher.

(** [re.match(r, s)]: the groups of the first match in backtracking order. *)
Definition rmatch (r : regex) (s : str) : option (list str) :=
  run r s [] (fun _ g => Some g).

Fixpoint lit (s : str) : regex :=
  match s with
  | [] => Eps
  | c :: s' => Cat (Chr c) (lit s')
  end.

Definition seq (rs : list regex) : regex := fold_right Cat Eps rs.

(** [m.group(n)], groups being numbered from 1. *)
Definition group (m : list str) (n : nat) : str := nth (pred n) m [].

(** [.] matches anything but a line feed. *)
Definition dot (c : char) : bool := negb (c =? nl)%N.

(** *** Declarative reading of a match *)

(** [matches r w rest gs]: [r] matches the text [w] when [rest] follows it,
    and its groups capture [gs]. *)
Inductive matches : regex -> str -> str -> list str -> Prop :=
| MChr c rest : matches (Chr c) [c] rest []
| MRep greedy n cls w rest :
    Forall (fun c => cls c = true) w -> n <= length w ->
    matches (Rep greedy n cls) w rest []
| MGrp r w rest gs : matches r w rest gs -> matches (Grp r) w rest (gs ++ [w])
| MCat r1 r2 w1 w2 rest g1 g2 :
    matches r1 w1 (w2 ++ rest) g1 -> matches r2 w2 rest g2 ->
    matches (Cat r1 r2) (w1 ++ w2) rest (g1 ++ g2)
| MAltL r1 r2 w rest gs : matches r1 w rest gs -> matches (Alt r1 r2) w rest gs
| MAltR r1 r2 w rest gs : matches r2 w rest gs -> matches (Alt r1 r2) w rest gs
| MEos rest : rest = [] \/ rest = [nl] -> matches Eos [] rest []
| MEps rest : matches Eps [] rest [].

End Re.
Import Re.

(** ** [generate_docs.py]: class [DocGenerator] *)

Module DocGenerator.

(** The documentation markers and declaration prefixes of the source. *)
Definition module_doc_marker : str := py "//!".
Definition item_doc_marker : str := py "///".
Definition pub_fn : str := py "pub fn ".
Definition pub_const : str := py "pub const ".

(** The entries of the dictionaries built by the two extractors. *)
Record FunctionSignature := {
  fn_name : str;
  fn_params : str;
  fn_return_type : str;
  fn_documentation : str;
  fn_line : nat
}.

Record TypeDefinition := {
  ty_name : str;
  ty_type : str;
  ty_documentation : str;
  ty_line : nat
}.

(** The dictionary returned by [process_source_file]. *)
Record FileRecord := {
  fr_file : str;
  fr_module_docs : list str;
  fr_functions : list FunctionSignature;
  fr_types : list TypeDefinition
}.

(** *** [extract_doc_comments] *)

(** [stripped[3:].strip()] *)
Definition after_marker (stripped : str) : str := strip (skipn 3 stripped).

Fixpoint doc_comments_loop (lines : list str) (doc_comments : list str)
  : list str :=
  match lines with
  | [] => doc_comments
  | line :: rest =>
      let stripped := strip line in
      doc_comments_loop rest
        (if startswith stripped module_doc_marker
         then doc_comments ++ [after_marker stripped]
         else if startswith stripped item_doc_marker
         then doc_comments ++ [after_marker stripped]
         else doc_comments)
  end.

Definition extract_doc_comments (content : str) : list str :=
  doc_comments_loop (split_nl content) [].

(** The lines the loop keeps: those whose trimmed form begins with one of
    the two markers. *)
Definition doc_comment_line (line : str) : bool :=
  startswith (strip line) module_doc_marker
  || startswith (strip line) item_doc_marker.

(** *** The backward scan for preceding comments

    [j = i - 1; while j >= 0 and lines[j].strip().startswith('///'): ...]
    as a state machine over the integer [j]; the state also records the
    indices at which [lines] was subscripted (once by the loop test, once
    more by the loop body). *)

(** [lines[j].strip().startswith('///')] *)
Definition item_doc_line (line : str) : bool :=
  startswith (strip line) item_doc_marker.

(** [lines[j].strip()[3:].strip()] *)
Definition doc_text (line : str) : str := after_marker (strip line).

Record scan_state := {
  sc_j : Z;
  sc_doc_lines : list str;
  sc_reads : list Z
}.

Inductive step_result :=
| Continue (st : scan_state)
| Exit (st : scan_state)
| IndexError (st : scan_state).

(** [lines[j]]: a negative index counts from the end of the list. *)
Definition getitem (lines : list str) (j : Z) : option str :=
  let n := Z.of_nat (length lines) in
  if (j <? - n)%Z || (n <=? j)%Z then None
  else if (j <? 0)%Z then nth_error lines (Z.to_nat (n + j))
  else nth_error lines (Z.to_nat j).

Definition scan_step (lines : list str) (st : scan_state) : step_result :=
  let j := sc_j st in
  if (0 <=? j)%Z then
    let tested := {| sc_j := j; sc_doc_lines := sc_doc_lines st;
                     sc_reads := sc_reads st ++ [j] |} in
    match getitem lines j with
    | None => IndexError tested
    | Some line =>
        if item_doc_line line
        then Continue {| sc_j := j - 1;
                         sc_doc_lines := doc_text line :: sc_doc_lines st;
                         sc_reads := sc_reads st ++ [j; j] |}
        else Exit tested
    end
  else Exit st.

Inductive scan_status := Exited | Raised | Running.

(** At most [fuel] iterations of the loop. *)
Fixpoint scan_loop (fuel : nat) (lines : list str) (st : scan_state)
  : scan_status * scan_state :=
  match fuel with
  | O => (Running, st)
  | S fuel' =>
      match scan_step lines st with
      | Continue st' => scan_loop fuel' lines st'
      | Exit st' => (Exited, st')
      | IndexError st' => (Raised, st')
      end
  end.

(** The scan started above line index [i]; [i + 1] iterations suffice. *)
Definition scan_above (lines : list str) (i : nat)
  : scan_status * scan_state :=
  scan_loop (S i) lines
    {| sc_j := Z.of_nat i - 1; sc_doc_lines := []; sc_reads := [] |}.

Definition doc_lines_above (lines : list str) (i : nat) : list str :=
  sc_doc_lines (snd (scan_above lines i)).

(** ['\n'.join(doc_lines) if doc_lines else ''] *)
Definition documentation_of (doc_lines : list str) : str :=
  match doc_lines with
  | [] => []
  | _ => join_nl doc_lines
  end.

(** Nothing, or a line that is not an item-doc line, ends [above]. *)
Definition run_starts_after (above : list str) : Prop :=
  above = [] \/ exists a l, above = a ++ [l] /\ item_doc_line l = false.

(** *** Files, outcomes and the generator state *)

(** What [open(file_path, 'r', encoding='utf-8')] and [f.read()] do on
    one path: they return the text, or raise [UnicodeDecodeError], or
    raise another error ([OSError]: permissions, a vanished file, ...). *)
Inductive read_outcome :=
| ReadText (content : str)
| UnicodeDecodeError
| OSError.

(** One path yielded by [self.src_dir.glob('**/*.zig')]. *)
Record SourceFile := {
  sf_path : str;          (* str(zig_file) *)
  sf_relative : str;      (* str(zig_file.relative_to(self.src_dir)) *)
  sf_is_file : bool;      (* zig_file.is_file() *)
  sf_read : read_outcome
}.

Inductive outcome (A : Type) :=
| Returned (a : A)
| Raises.
Arguments Raises {A}.

(** [self.api_docs], a dictionary in insertion order, and what was
    printed. *)
Record Generator := {
  api_docs : list (str * FileRecord);
  console : list str
}.

(** [d[k] = v] *)
Fixpoint dict_set (d : list (str * FileRecord)) (k : str) (v : FileRecord)
  : list (str * FileRecord) :=
  match d with
  | [] => [(k, v)]
  | (k', v') :: d' =>
      if str_eqb k' k then (k', v) :: d' else (k', v') :: dict_set d' k v
  end.

Definition warning (file_path : str) : str :=
  py "Warning: Could not read " ++ file_path ++ py " as UTF-8".

Section Extractors.

(** [str.isalnum] on one code point of the Unicode database; it is
    consulted outside ASCII only. *)
Variable unicode_isalnum : char -> bool.

(** The class [\w]: alphanumeric or underscore. *)
Definition is_word (c : char) : bool :=
  if (c <? 128)%N then
    ((48 <=? c) && (c <=? 57) || (65 <=? c) && (c <=? 90)
     || (97 <=? c) && (c <=? 122) || (c =? 95))%N
  else unicode_isalnum c.

(** [pub fn\s+(\w+)\s*\((.*?)\)\s*(.*?)(?:\{|$)] *)
Definition func_re : regex :=
  seq [ lit (py "pub fn"); Rep true 1 is_space; Grp (Rep true 1 is_word);
        Rep true 0 is_space; Chr (chr "("); Grp (Rep false 0 dot);
        Chr (chr ")"); Rep true 0 is_space; Grp (Rep false 0 dot);
        Alt (Chr (chr "{")) Eos ].

(** [pub const\s+(\w+)\s*=\s*(.*?)(?:\{|$)] *)
Definition type_re : regex :=
  seq [ lit (py "pub const"); Rep true 1 is_space;
        Grp (Rep true 1 is_word); Rep true 0 is_space; Chr (chr "=");
        Rep true 0 is_space; Grp (Rep false 0 dot);
        Alt (Chr (chr "{")) Eos ].

(** *** [extract_function_signatures] *)

Definition function_record (lines : list str) (i : nat) (m : list str)
  : FunctionSignature :=
  {| fn_name := group m 1;
     fn_params := group m 2;
     fn_return_type := strip (group m 3);
     fn_documentation := documentation_of (doc_lines_above lines i);
     fn_line := i + 1 |}.

(** The body of [for i, line in enumerate(lines)], from index [i] on. *)
Fixpoint functions_loop (lines : list str) (i : nat) (rest : list str)
         (functions : list FunctionSignature) : list FunctionSignature :=
  match rest with
  | [] => functions
  | line :: rest' =>
      let stripped := strip line in
      functions_loop lines (S i) rest'
        (if startswith stripped pub_fn then
           match rmatch func_re stripped with
           | Some m => functions ++ [function_record lines i m]
           | None => functions
           end
         else functions)
  end.

Definition extract_function_signatures (content : str)
  : list FunctionSignature :=
  let lines := split_nl content in
  functions_loop lines 0 lines [].

(** *** [extract_structs_and_enums] *)

Definition type_record (lines : list str) (i : nat) (m : list str)
  : TypeDefinition :=
  {| ty_name := group m 1;
     ty_type := strip (group m 2);
     ty_documentation := documentation_of (doc_lines_above lines i);
     ty_line := i + 1 |}.

Definition type_candidate (stripped : str) : bool :=
  startswith stripped pub_const
  && (contains (py "struct") stripped || contains (py "union") stripped
      || contains (py "enum") stripped).

Fixpoint types_loop (lines : list str) (i : nat) (rest : list str)
         (types : list TypeDefinition) : list TypeDefinition :=
  match rest with
  | [] => types
  | line :: rest' =>
      let stripped := strip line in
      types_loop lines (S i) rest'
        (if type_candidate stripped then
           match rmatch type_re stripped with
           | Some m => types ++ [type_record lines i m]
           | None => types
           end
         else types)
  end.

Definition extract_structs_and_enums (content : str)
  : list TypeDefinition :=
  let lines := split_nl content in
  types_loop lines 0 lines [].

(** *** [process_source_file] and [scan_source_files] *)

(** The dictionary returned for a file that was read. *)
Definition file_info_of (f : SourceFile) (content : str) : FileRecord :=
  {| fr_file := sf_relative f;
     fr_module_docs := extract_doc_comments content;
     fr_functions := extract_function_signatures content;
     fr_types := extract_structs_and_enums content |}.

(** The empty dictionary of the [except] branch is [None]. *)
Definition process_source_file (f : SourceFile) (g : Generator)
  : outcome (option FileRecord * Generator) :=
  match sf_read f with
  | ReadText content => Returned (Some (file_info_of f content), g)
  | UnicodeDecodeError =>
      Returned
        (None, {| api_docs := api_docs g;
                  console := console g ++ [warning (sf_path f)] |})
  | OSError => Raises
  end.

Fixpoint scan_source_files (files : list SourceFile) (g : Generator)
  : outcome Generator :=
  match files with
  | [] => Returned g
  | zig_file :: rest =>
      if sf_is_file zig_file then
        match process_source_file zig_file g with
        | Returned (Some file_info, g') =>
            scan_source_files rest
              {| api_docs := dict_set (api_docs g') (sf_path zig_file)
                               file_info;
                 console := console g' |}
        | Returned (None, g') => scan_source_files rest g'
        | Raises => Raises
        end
      else scan_source_files rest g
  end.

(** The regular files of a batch that were read, with the dictionary
    built for each, under the key it is stored at. *)
Definition read_files (files : list SourceFile) : list (str * FileRecord) :=
  flat_map
    (fun f =>
       if sf_is_file f then
         match sf_read f with
         | ReadText content => [(sf_path f, file_info_of f content)]
         | _ => []
         end
       else [])
    files.

End Extractors.

(** The regular files of a batch whose bytes are not valid UTF-8. *)
Definition decode_failed (f : SourceFile) : bool :=
  sf_is_file f
  && match sf_read f with UnicodeDecodeError => true | _ => false end.

(** The regular files of a batch whose reading fails otherwise. *)
Definition read_raises (f : SourceFile) : bool :=
  sf_is_file f && match sf_read f with OSError => true | _ => false end.

(** The shape the pattern of [extract_function_signatures] accepts on a
    stripped line that begins with [pub fn ], with the three texts it
    captures: a name of word characters, the text between the parenthesis
    after the name and the first closing parenthesis behind it, and the
    text from there to the first opening brace, or to the end of the line
    when there is none. *)
Definition single_line_shape (unicode_isalnum : char -> bool)
           (stripped name params after : str) : Prop :=
  exists ws1 ws2 tail,
    stripped = py "pub fn " ++ ws1 ++ name ++ ws2
               ++ chr "(" :: params ++ chr ")" :: after ++ tail
    /\ Forall (fun c => is_space c = true) ws1
    /\ name <> []
    /\ Forall (fun c => is_word unicode_isalnum c = true) name
    /\ Forall (fun c => is_space c = true) ws2
    /\ ~ In (chr ")") params
    /\ ~ In (chr "{") after
    /\ (tail = [] \/ exists t, tail = chr "{" :: t).

(** A batch of three files: one that is not UTF-8, one that reads, one
    that cannot be opened; and a generator that has scanned nothing. *)
Definition latin1_file : SourceFile :=
  {| sf_path := py "src/legacy.zig"; sf_relative := py "legacy.zig";
     sf_is_file := true; sf_read := UnicodeDecodeError |}.

Definition actor_file : SourceFile :=
  {| sf_path := py "src/actor.zig"; sf_relative := py "actor.zig";
     sf_is_file := true;
     sf_read :=
       ReadText (py "//! Actors." ++ nl :: py "pub fn spawn() void {") |}.

Definition locked_file : SourceFile :=
  {| sf_path := py "src/locked.zig"; sf_relative := py "locked.zig";
     sf_is_file := true; sf_read := OSError |}.

Definition fresh : Generator := {| api_docs := []; console := [] |}.

(** The file of the documented-function scenario. *)
Definition adds_two_numbers : str :=
  py "/// Adds two numbers" ++ nl :: py "pub fn add(a: i32, b: i32) i32 {".

(** *** [generate_api_reference] *)

Definition nlnl : str := [nl; nl].

Definition api_header : str :=
  py "# API Reference" ++ nlnl
  ++ py "This is the complete API reference for zctor, "
  ++ py "automatically generated from source code."
  ++ nlnl.

Definition render_module_doc (markdown doc : str) : str :=
  match doc with
  | [] => markdown
  | _ => markdown ++ doc ++ nlnl
  end.

Definition code_block (body : str) : str :=
  py "```zig" ++ [nl] ++ body ++ [nl] ++ py "```" ++ nlnl.

Definition render_type (markdown : str) (type_info : TypeDefinition) : str :=
  let markdown :=
    markdown ++ py "#### `" ++ ty_name type_info ++ py "`" ++ nlnl in
  let markdown :=
    match ty_documentation type_info with
    | [] => markdown
    | d => markdown ++ d ++ nlnl
    end in
  markdown ++ code_block (ty_type type_info).

Definition render_function (markdown : str) (func : FunctionSignature)
  : str :=
  let markdown :=
    markdown ++ py "#### `" ++ fn_name func ++ py "`" ++ nlnl in
  let markdown :=
    match fn_documentation func with
    | [] => markdown
    | d => markdown ++ d ++ nlnl
    end in
  let signature :=
    py "pub fn " ++ fn_name func ++ py "(" ++ fn_params func ++ py ")" in
  let signature :=
    match fn_return_type func with
    | [] => signature
    | r => signature ++ py " " ++ r
    end in
  markdown ++ code_block signature.

Definition is_empty {A} (l : list A) : bool :=
  match l with [] => true | _ => false end.

Definition render_file (markdown : str) (file_info : FileRecord) : str :=
  if is_empty (fr_module_docs file_info)
     && is_empty (fr_functions file_info)
     && is_empty (fr_types file_info)
  then markdown
  else
    let markdown := markdown ++ py "## " ++ fr_file file_info ++ nlnl in
    let markdown :=
      if is_empty (fr_module_docs file_info) then markdown
      else fold_left render_module_doc (fr_module_docs file_info)
             (markdown ++ py "### Module Documentation" ++ nlnl) in
    let markdown :=
      if is_empty (fr_types file_info) then markdown
      else fold_left render_type (fr_types file_info)
             (markdown ++ py "### Types" ++ nlnl) in
    let markdown :=
      if is_empty (fr_functions file_info) then markdown
      else fold_left render_function (fr_functions file_info)
             (markdown ++ py "### Functions" ++ nlnl) in
    markdown ++ py "---" ++ nlnl.

(** [self.api_docs.values()] *)
Definition values (d : list (str * FileRecord)) : list FileRecord :=
  map snd d.

Definition generate_api_reference (g : Generator) : str :=
  fold_left render_file (values (api_docs g)) api_header.

(** The texts of a record that the renderer reads: the line numbers are
    not among them. *)
Definition record_texts (r : FileRecord) : list str :=
  fr_file r :: fr_module_docs r
  ++ flat_map (fun t => [ty_name t; ty_documentation t; ty_type t])
       (fr_types r)
  ++ flat_map (fun f => [fn_name f; fn_documentation f; fn_params f;
                         fn_return_type f])
       (fr_functions r).

(** A character that occurs in a text of the record. *)
Definition from_record (r : FileRecord) (c : char) : Prop :=
  exists text, In text (record_texts r) /\ In c text.

(** The string constants of [generate_api_reference], one after the
    other. *)
Definition boilerplate : str :=
  api_header ++ py "## " ++ nlnl ++ py "### Module Documentation"
  ++ py "### Types" ++ py "### Functions" ++ py "#### `" ++ py "`"
  ++ py "```zig" ++ [nl] ++ py "```" ++ py "pub fn " ++ py "(" ++ py ")"
  ++ py " " ++ py "---".

(** Two paths of two runs that yield the same file: the same path
    relative to the source directory and the same result of reading. *)
Definition same_source (f1 f2 : SourceFile) : Prop :=
  sf_relative f1 = sf_relative f2
  /\ sf_is_file f1 = sf_is_file f2
  /\ sf_read f1 = sf_read f2.

End DocGenerator.
Import DocGenerator.

(** ** [generate_book.py]: class [BookGenerator] *)

Module BookGenerator.

(** [self.chapters] as set by the constructor. *)
Definition default_chapters : list (str * str) :=
  [ (py "README.md", py "Introduction to the Documentation");
    (py "01-introduction.md", py "Introduction");
    (py "02-installation.md", py "Installation");
    (py "03-quick-start.md", py "Quick Start");
    (py "04-architecture.md", py "Architecture");
    (py "05-api-reference.md", py "API Reference");
    (py "06-examples.md", py "Examples");
    (py "07-best-practices.md", py "Best Practices");
    (py "08-advanced-topics.md", py "Advanced Topics");
    (py "09-contributing.md", py "Contributing");
    (py "10-appendix.md", py "Appendix") ].

(** What the assembler meets at [self.docs_dir / filename]: nothing
    ([exists()] is false), a file whose text can be read, a path that
    exists and cannot be read as text (a directory, no permission, bytes
    that do not decode: [open] or [read] raises), or a path whose
    existence cannot be checked ([exists()] itself raises, as below a
    directory that may not be searched). *)
Inductive chapter_file :=
| Missing
| Chapter (content : str)
| Unreadable
| Inaccessible.

Definition directory := str -> chapter_file.

(** The paths at which an exception leaves the assembler: there is no
    [try] in [generate_combined_markdown]. *)
Definition stops (c : chapter_file) : bool :=
  match c with
  | Unreadable | Inaccessible => true
  | Missing | Chapter _ => false
  end.

(** The text written to the output file, and whether the call returned. *)
Inductive written :=
| Completed (f : str)
| Aborted (f : str).

(** What the output file holds after the call, returned or not. *)
Definition text_written (w : written) : str :=
  match w with Completed f | Aborted f => f end.

Definition replace (c : char) (by_ : str) (s : str) : str :=
  flat_map (fun x => if (x =? c)%N then by_ else [x]) s.

Definition heading (i : nat) (title : str) : str :=
  py "# " ++ str_of_nat i ++ py ". " ++ title ++ nlnl.

Definition separator : str := nlnl ++ py "---" ++ nlnl.

(** The text kept from an existing chapter. *)
Definition chapter_body (content : str) : str :=
  let lines := split_nl content in
  match lines with
  | first :: others =>
      if startswith first (py "#") then join_nl others else content
  | [] => content
  end.

(** [f"# {i}. {title}\n\n*Chapter not found: {filename}*\n\n---\n\n"] *)
Definition not_found (i : nat) (filename title : str) : str :=
  heading i title
  ++ py "*Chapter not found: " ++ filename ++ py "*" ++ nlnl
  ++ py "---" ++ nlnl.

(** The section written for the chapter [(filename, title)] of ordinal
    [i], by what is found at its path. *)
Definition is_section (dir : str -> chapter_file) (i : nat)
           (chapter : str * str) (section : str) : Prop :=
  match dir (fst chapter) with
  | Chapter content =>
      section = heading i (snd chapter) ++ chapter_body content ++ separator
  | Missing => section = not_found i (fst chapter) (snd chapter)
  | Unreadable | Inaccessible => False
  end.

Section Assembler.

(** [str.lower], from the Python runtime. *)
Variable lower : str -> str.

Definition anchor (title : str) : str :=
  replace (chr ")") [] (replace (chr "(") []
    (replace (chr " ") (py "-") (lower title))).

Definition book_header (timestamp : str) : str :=
  py "# zctor Documentation Book" ++ nlnl
  ++ py "A comprehensive guide to the zctor actor framework for Zig."
  ++ nlnl
  ++ py "*Generated on " ++ timestamp ++ py "*" ++ nlnl
  ++ py "---" ++ nlnl.

Fixpoint toc_loop (i : nat) (chapters : list (str * str)) (f : str) : str :=
  match chapters with
  | [] => f
  | (filename, title) :: rest =>
      toc_loop (S i) rest
        (f ++ str_of_nat i ++ py ". [" ++ title ++ py "](#"
           ++ anchor title ++ py ")" ++ [nl])
  end.

(** The loop over the chapters.  [exists()] is called first and may
    raise; the heading of an existing chapter is written before the
    chapter is opened and read. *)
Fixpoint chapters_loop (dir : directory) (i : nat)
         (chapters : list (str * str)) (f : str) : written :=
  match chapters with
  | [] => Completed f
  | (filename, title) :: rest =>
      match dir filename with
      | Inaccessible => Aborted f
      | Chapter content =>
          let f := f ++ heading i title in
          let f := f ++ chapter_body content in
          chapters_loop dir (S i) rest (f ++ separator)
      | Unreadable => Aborted (f ++ heading i title)
      | Missing =>
          chapters_loop dir (S i) rest (f ++ not_found i filename title)
      end
  end.

(** The title block and the table of contents; [timestamp] is the
    reading of the clock, [datetime.now().strftime(...)]. *)
Definition front_matter (timestamp : str) (chapters : list (str * str))
  : str :=
  let f := book_header timestamp in
  let f := f ++ py "## Table of Contents" ++ nlnl in
  let f := toc_loop 1 chapters f in
  f ++ [nl] ++ py "---" ++ nlnl.

Definition generate_combined_markdown (dir : directory) (timestamp : str)
           (chapters : list (str * str)) : written :=
  chapters_loop dir 1 chapters (front_matter timestamp chapters).

End Assembler.

(** [str.lower] on text whose letters are ASCII. *)
Definition ascii_lower (s : str) : str :=
  map (fun c => if (65 <=? c) && (c <=? 90) then c + 32 else c)%N s.

(** The scenario of two chapters of which the first exists. *)
Definition scenario_chapters : list (str * str) :=
  [ (py "a.md", py "Intro"); (py "b.md", py "Setup") ].

Definition scenario_dir : directory :=
  fun filename =>
    if str_eqb filename (py "a.md")
    then Chapter (py "# A" ++ nl :: py "Hello")
    else Missing.

(** A documentation directory without any file. *)
Definition empty_dir : directory := fun _ => Missing.

End BookGenerator.
Import BookGenerator.

(** ** The specification's wording *)

Module Claimed.

(** The stored text of a doc-comment line as the specification words it:
    the trimmed line without the matched marker and without one following
    space, if there is one, nothing else being altered. *)
Definition marker_prefix_removed (stripped : str) : str :=
  match skipn 3 stripped with
  | c :: rest => if (c =? chr " ")%N then rest else c :: rest
  | [] => []
  end.

(** A declaration in the single-line shape of the specification has its
    parameter list on its line: the parenthesis that opens the list is
    closed on the line by the parenthesis that matches it.  [depth] counts
    the parentheses that are open. *)
Fixpoint parentheses_close (depth : nat) (s : str) : bool :=
  match s with
  | [] => false
  | c :: s' =>
      if (c =? chr "(")%N then parentheses_close (S depth) s'
      else if (c =? chr ")")%N then
        match depth with
        | 0 => false
        | 1 => true
        | S d => parentheses_close d s'
        end
      else parentheses_close depth s'
  end.

Definition parameter_list_on_line (line : str) : bool :=
  parentheses_close 0 line.

(** The API reference as the specification describes it (4.4), a text
    laid out from the records: for each record that is not empty a file
    heading, the module documentation with each non-empty line as a
    paragraph, for each type a heading with its name, its documentation
    paragraph if any and its definition as a code block, for each
    function a heading with its name, its documentation paragraph if any
    and the signature put together again as a code block, then a
    separator line. *)
Definition paragraph_of (text : str) : str :=
  match text with
  | [] => []
  | _ => text ++ nlnl
  end.

Definition zig_block (body : str) : str :=
  py "```zig" ++ [nl] ++ body ++ [nl] ++ py "```" ++ nlnl.

Definition type_block (t : TypeDefinition) : str :=
  py "#### `" ++ ty_name t ++ py "`" ++ nlnl
  ++ paragraph_of (ty_documentation t) ++ zig_block (ty_type t).

Definition signature_of (f : FunctionSignature) : str :=
  py "pub fn " ++ fn_name f ++ py "(" ++ fn_params f ++ py ")"
  ++ match fn_return_type f with
     | [] => []
     | r => py " " ++ r
     end.

Definition function_block (f : FunctionSignature) : str :=
  py "#### `" ++ fn_name f ++ py "`" ++ nlnl
  ++ paragraph_of (fn_documentation f) ++ zig_block (signature_of f).

Definition subsection {A} (title : str) (block : A -> str)
           (items : list A) : str :=
  match items with
  | [] => []
  | _ => title ++ nlnl ++ concat (map block items)
  end.

Definition file_block (r : FileRecord) : str :=
  match fr_module_docs r, fr_functions r, fr_types r with
  | [], [], [] => []
  | _, _, _ =>
      py "## " ++ fr_file r ++ nlnl
      ++ subsection (py "### Module Documentation") paragraph_of
           (fr_module_docs r)
      ++ subsection (py "### Types") type_block (fr_types r)
      ++ subsection (py "### Functions") function_block (fr_functions r)
      ++ py "---" ++ nlnl
  end.

Definition reference (records : list FileRecord) : str :=
  py "# API Reference" ++ nlnl
  ++ py "This is the complete API reference for zctor, "
  ++ py "automatically generated from source code." ++ nlnl
  ++ concat (map file_block records).

End Claimed.

(** ** Files written by the tools *)

Module Disk.

(** *** Encodings

    But for the source files, [open] is called without [encoding]: text
    is written to a file in the encoding of the locale, and printed in the
    encoding of the standard output.  An encoding is given by the code
    points it can encode outside ASCII; ASCII itself is encoded by every
    one of them. *)
Definition encodes (table : char -> bool) (c : char) : bool :=
  (c <? 128)%N || table c.

Definition encodable (table : char -> bool) (s : str) : bool :=
  forallb (encodes table) s.

(** [print(line)] on a standard output of encoding [table]: the line is
    printed, or [UnicodeEncodeError] is raised and nothing of the line
    is. *)
Definition print_line (table : char -> bool) (out : list str) (line : str)
  : option (list str) :=
  if encodable table line then Some (out ++ [line]) else None.

(** *** Files

    A path names a file, and two spellings may name the same one
    ([temp_book.md] and [./temp_book.md]).  The state of the files the
    tools write: the file each path names, the text of each file that
    exists, the files that [open(path, 'w')] can open, and the files that
    [os.remove] can remove.  The chapter files and the source files are
    read through [directory], [tree] and [SourceFile]; the output paths
    are taken not to name one of them. *)
Definition file := N.

Record disk := {
  file_of : str -> file;
  content_at : file -> option str;
  writable : file -> bool;
  removable : file -> bool
}.

Definition put (d : disk) (f : file) (content : option str) : disk :=
  {| file_of := file_of d;
     content_at := fun q => if (q =? f)%N then content else content_at d q;
     writable := writable d;
     removable := removable d |}.

(** [with open(path, 'w') as f: f.write(content)] in the encoding
    [table]: [open] raises and the file is as it was; or the file is
    emptied by [open] and [f.write] raises [UnicodeEncodeError]; or the
    text is written. *)
Inductive write_result :=
| Written (d : disk)
| OpenError
| EncodeError (d : disk).

Definition write_file (table : char -> bool) (d : disk)
           (path content : str) : write_result :=
  let f := file_of d path in
  if writable d f then
    if encodable table content then Written (put d f (Some content))
    else EncodeError (put d f (Some []))
  else OpenError.

(** [os.remove(path)]; [None] when it raises. *)
Definition remove_file (d : disk) (path : str) : option disk :=
  let f := file_of d path in
  match content_at d f with
  | Some _ => if removable d f then Some (put d f None) else None
  | None => None
  end.

(** How a call ends: it returns, or an exception leaves it; with what was
    printed and the files as they are then. *)
Inductive ended :=
| Finished (out : list str) (d : disk)
| Failed (out : list str) (d : disk).

End Disk.
Import Disk.

(** ** [generate_book.py]: listing, validation and HTML *)

Module BookTools.

(** The check mark, the ballot cross and the warning sign of the reports. *)
Definition check_mark : char := 10003%N.
Definition cross_mark : char := 10007%N.
Definition warning_sign : char := 9888%N.
Definition dq : char := 34%N.

(** What [open] and [f.read()] give on a path that exists: the text, or
    an exception with its message. *)
Inductive read_result :=
| ReadOk (content : str)
| ReadError (message : str).

(** A path of the documentation directory: absent ([exists()] is false);
    present, a regular file or not ([is_file()]), with what reading it
    gives; a path on which [exists()] raises (below a directory that may
    not be searched); a path on which [exists()] is true and [is_file()]
    raises. *)
Inductive path_state :=
| NoPath
| Path (is_file : bool) (read : read_result)
| NoAccess
| KindError (read : read_result).

Definition tree := str -> path_state.

(** The same path as the assembler meets it. *)
Definition chapter_of (p : path_state) : chapter_file :=
  match p with
  | NoPath => Missing
  | NoAccess => Inaccessible
  | Path _ (ReadOk content) | KindError (ReadOk content) => Chapter content
  | Path _ (ReadError _) | KindError (ReadError _) => Unreadable
  end.

Definition directory_of (t : tree) : directory :=
  fun filename => chapter_of (t filename).

(** [f"{i:2d}"]: the decimal digits, right-aligned in two columns. *)
Definition fmt_2d (i : nat) : str :=
  let s := str_of_nat i in
  repeat (chr " ") (2 - length s) ++ s.

(** What a reporting method does: it returns a value, or an exception
    leaves it; with what was printed until then. *)
Inductive reported (A : Type) :=
| Done (a : A) (out : list str)
| Exception (out : list str).
Arguments Exception {A}.

Section Reports.

(** The encoding of the standard output. *)
Variable stdout_table : char -> bool.

(** [str(e)] for the [UnicodeEncodeError] raised on printing a line. *)
Variable encode_error : str -> str.

(** *** [list_chapters] *)

Fixpoint list_loop (t : tree) (i : nat) (chapters : list (str * str))
         (out : list str) : reported unit :=
  match chapters with
  | [] => Done tt out
  | (filename, title) :: rest =>
      match t filename with
      | NoAccess => Exception out
      | found =>
          let status :=
            match found with NoPath => cross_mark | _ => check_mark end in
          match print_line stdout_table out
                  (py "  " ++ fmt_2d i ++ py ". " ++ [status] ++ py " "
                   ++ title ++ py " (" ++ filename ++ py ")")
          with
          | Some out => list_loop t (S i) rest out
          | None => Exception out
          end
      end
  end.

Definition list_chapters (t : tree) (chapters : list (str * str))
           (out : list str) : reported unit :=
  match print_line stdout_table out (py "Available chapters:") with
  | Some out => list_loop t 1 chapters out
  | None => Exception out
  end.

(** *** [validate_chapters] *)

Definition report (mark : char) (what title filename : str) : str :=
  py "  " ++ [mark] ++ py " " ++ what ++ py ": " ++ title
  ++ py " (" ++ filename ++ py ")".

(** One turn of the loop: a line is printed and [all_valid] is kept; a
    line is printed and [all_valid] becomes false; or an exception leaves
    the loop. *)
Inductive checked :=
| Passed (out : list str)
| Flagged (out : list str)
| Escaped.

(** [print(line); all_valid = False] *)
Definition flag (out : list str) (line : str) : checked :=
  match print_line stdout_table out line with
  | Some out => Flagged out
  | None => Escaped
  end.

(** [exists()] and [is_file()] are called outside the [try]; inside it
    are [open], [read] and the two [print] calls of a chapter that was
    read, so that [except Exception] also catches their
    [UnicodeEncodeError]. *)
Definition validate_one (t : tree) (filename title : str) (out : list str)
  : checked :=
  match t filename with
  | NoAccess => Escaped
  | NoPath => flag out (report cross_mark (py "Missing") title filename)
  | KindError _ => Escaped
  | Path false _ =>
      flag out (report cross_mark (py "Not a file") title filename)
  | Path true read =>
      let caught (e : str) :=
        flag out (report cross_mark (py "Error reading") title filename
                  ++ py " - " ++ e) in
      match read with
      | ReadError e => caught e
      | ReadOk content =>
          let line :=
            match strip content with
            | [] => report warning_sign (py "Empty") title filename
            | _ => report check_mark (py "Valid") title filename
                   ++ py " - " ++ str_of_nat (length content)
                   ++ py " chars"
            end in
          match print_line stdout_table out line with
          | Some out => Passed out
          | None => caught (encode_error line)
          end
      end
  end.

Fixpoint validate_loop (t : tree) (chapters : list (str * str))
         (all_valid : bool) (out : list str) : reported bool :=
  match chapters with
  | [] => Done all_valid out
  | (filename, title) :: rest =>
      match validate_one t filename title out with
      | Passed out => validate_loop t rest all_valid out
      | Flagged out => validate_loop t rest false out
      | Escaped => Exception out
      end
  end.

(** The value returned, and what is printed. *)
Definition validate_chapters (t : tree) (chapters : list (str * str))
           (out : list str) : reported bool :=
  match print_line stdout_table out (py "Validating chapters...") with
  | None => Exception out
  | Some out =>
      match validate_loop t chapters true out with
      | Exception out => Exception out
      | Done all_valid out =>
          match print_line stdout_table out
                  ([nl] ++ py "Validation "
                   ++ (if all_valid then py "passed" else py "failed"))
          with
          | Some out => Done all_valid out
          | None => Exception out
          end
      end
  end.

End Reports.

(** *** [generate_combined_markdown], with its output file *)

Section Html.

Variable lower : str -> str.

(** The encodings of the standard output and of the locale. *)
Variable stdout_table : char -> bool.
Variable locale_table : char -> bool.

(** [open(output_file, 'w')], the writes of the assembler, and the final
    message.  When the assembler is stopped by a chapter, the file keeps
    what was written.  The texts written are the titles of the registry,
    the reading of the clock and chapter texts that were decoded in the
    encoding they are written in: they are taken to encode. *)
Definition write_combined_markdown (dir : directory) (timestamp : str)
           (chapters : list (str * str)) (output_file : str)
           (out : list str) (d : disk) : ended :=
  let f := file_of d output_file in
  if writable d f then
    match generate_combined_markdown lower dir timestamp chapters with
    | Completed book =>
        let d := put d f (Some book) in
        match print_line stdout_table out
                (py "Combined markdown book generated: " ++ output_file)
        with
        | Some out => Finished out d
        | None => Failed out d
        end
    | Aborted partial => Failed out (put d f (Some partial))
    end
  else Failed out d.

(** *** [generate_html] *)

(** The HTML document around the converted book: the text before and
    the text after [html_content] in the template of [generate_html]. *)
Definition html_before : str :=
  py "<!DOCTYPE html>" ++ [nl]
  ++ py "<html lang=" ++ [dq] ++ py "en" ++ [dq] ++ py ">" ++ [nl]
  ++ py "<head>" ++ [nl]
  ++ py "    <meta charset=" ++ [dq] ++ py "UTF-8" ++ [dq] ++ py ">" ++ [nl]
  ++ py "    <meta name=" ++ [dq] ++ py "viewport" ++ [dq]
  ++ py " content=" ++ [dq]
  ++ py "width=device-width, initial-scale=1.0" ++ [dq] ++ py ">" ++ [nl]
  ++ py "    <title>zctor Documentation Book</title>" ++ [nl]
  ++ py "    <style>" ++ [nl]
  ++ py "        body { font-family: -apple-system, BlinkMacSyste"
  ++ py "mFont, 'Segoe UI', Roboto, sans-serif; max-width: 800px;"
  ++ py " margin: 0 auto; padding: 20px; line-height: 1.6; }" ++ [nl]
  ++ py "        code { background: #f4f4f4; padding: 2px 4px; bo"
  ++ py "rder-radius: 3px; }" ++ [nl]
  ++ py "        pre { background: #f4f4f4; padding: 10px; border"
  ++ py "-radius: 5px; overflow-x: auto; }" ++ [nl]
  ++ py "        h1, h2, h3 { color: #333; }" ++ [nl]
  ++ py "        blockquote { border-left: 4px solid #ddd; margin"
  ++ py ": 0; padding-left: 20px; }" ++ [nl]
  ++ py "        table { border-collapse: collapse; width: 100%; "
  ++ py "}" ++ [nl]
  ++ py "        th, td { border: 1px solid #ddd; padding: 8px; t"
  ++ py "ext-align: left; }" ++ [nl]
  ++ py "        th { background-color: #f2f2f2; }" ++ [nl]
  ++ py "    </style>" ++ [nl]
  ++ py "</head>" ++ [nl]
  ++ py "<body>" ++ [nl].

Definition html_after : str :=
  [nl]
  ++ py "</body>" ++ [nl]
  ++ py "</html>".

Definition temp_md : str := py "temp_book.md".

(** [markdown] is the function [markdown.markdown] with the two
    extensions of the source, when the package can be imported; it
    returns the HTML text or raises ([None]). *)
Definition generate_html (markdown : option (str -> option str))
           (dir : directory) (timestamp : str)
           (chapters : list (str * str)) (output_file : str)
           (out : list str) (d : disk) : ended :=
  match markdown with
  | None =>
      match print_line stdout_table out
              (py "Error: markdown package required for HTML generation")
      with
      | None => Failed out d
      | Some out1 =>
          match print_line stdout_table out1
                  (py "Install with: pip install markdown")
          with
          | None => Failed out1 d
          | Some out2 => Finished out2 d
          end
      end
  | Some convert =>
      match write_combined_markdown dir timestamp chapters temp_md out d
      with
      | Failed out1 d1 => Failed out1 d1
      | Finished out1 d1 =>
          match content_at d1 (file_of d1 temp_md) with
          | None => Failed out1 d1
          | Some md_content =>
              match convert md_content with
              | None => Failed out1 d1
              | Some html_content =>
                  let full_html :=
                    html_before ++ html_content ++ html_after in
                  match write_file locale_table d1 output_file full_html
                  with
                  | OpenError => Failed out1 d1
                  | EncodeError d2 => Failed out1 d2
                  | Written d2 =>
                      match remove_file d2 temp_md with
                      | None => Failed out1 d2
                      | Some d3 =>
                          match print_line stdout_table out1
                                  (py "HTML book generated: "
                                   ++ output_file)
                          with
                          | Some out2 => Finished out2 d3
                          | None => Failed out1 d3
                          end
                      end
                  end
              end
          end
      end
  end.

End Html.

End BookTools.
Import BookTools.

(** ** [generate_docs.py]: the whole run *)

Module DocTools.

(** *** [generate_table_of_contents]: a fixed text *)

Definition generate_table_of_contents : str :=
  py "# Table of Contents" ++ [nl]
  ++ [nl]
  ++ py "## zctor Documentation Book" ++ [nl]
  ++ [nl]
  ++ py "1. **[Introduction](./01-introduction.md)**" ++ [nl]
  ++ py "   - What is the Actor Model?" ++ [nl]
  ++ py "   - Why zctor?" ++ [nl]
  ++ py "   - Key Features" ++ [nl]
  ++ py "   - Use Cases" ++ [nl]
  ++ py "   - Architecture Overview" ++ [nl]
  ++ [nl]
  ++ py "2. **[Installation](./02-installation.md)**" ++ [nl]
  ++ py "   - Requirements" ++ [nl]
  ++ py "   - Installation Methods" ++ [nl]
  ++ py "   - Verifying Installation" ++ [nl]
  ++ py "   - Development Setup" ++ [nl]
  ++ py "   - Troubleshooting" ++ [nl]
  ++ [nl]
  ++ py "3. **[Quick Start](./03-quick-start.md)**" ++ [nl]
  ++ py "   - Your First Actor" ++ [nl]
  ++ py "   - Adding State" ++ [nl]
  ++ py "   - Multiple Actors" ++ [nl]
  ++ py "   - Common Patterns" ++ [nl]
  ++ [nl]
  ++ py "4. **[Architecture](./04-architecture.md)**" ++ [nl]
  ++ py "   - Core Components" ++ [nl]
  ++ py "   - Message Flow" ++ [nl]
  ++ py "   - Threading Model" ++ [nl]
  ++ py "   - Memory Management" ++ [nl]
  ++ [nl]
  ++ py "5. **[API Reference](./05-api-reference.md)**" ++ [nl]
  ++ py "   - ActorEngine" ++ [nl]
  ++ py "   - Actor(T)" ++ [nl]
  ++ py "   - ActorThread" ++ [nl]
  ++ py "   - Context" ++ [nl]
  ++ py "   - Generated API Documentation" ++ [nl]
  ++ [nl]
  ++ py "6. **[Examples](./06-examples.md)**" ++ [nl]
  ++ py "   - Basic Examples" ++ [nl]
  ++ py "   - Real-world Use Cases" ++ [nl]
  ++ py "   - Performance Examples" ++ [nl]
  ++ py "   - Integration Examples" ++ [nl]
  ++ [nl]
  ++ py "7. **[Best Practices](./07-best-practices.md)**" ++ [nl]
  ++ py "   - Design Patterns" ++ [nl]
  ++ py "   - Performance Tips" ++ [nl]
  ++ py "   - Error Handling" ++ [nl]
  ++ py "   - Testing Strategies" ++ [nl]
  ++ [nl]
  ++ py "8. **[Advanced Topics](./08-advanced-topics.md)**" ++ [nl]
  ++ py "   - Custom Allocators" ++ [nl]
  ++ py "   - Supervisors" ++ [nl]
  ++ py "   - Distributed Actors" ++ [nl]
  ++ py "   - Performance Tuning" ++ [nl]
  ++ [nl]
  ++ py "9. **[Contributing](./09-contributing.md)**" ++ [nl]
  ++ py "   - Development Environment" ++ [nl]
  ++ py "   - Code Style" ++ [nl]
  ++ py "   - Testing" ++ [nl]
  ++ py "   - Documentation" ++ [nl]
  ++ [nl]
  ++ py "10. **[Appendix](./10-appendix.md)**" ++ [nl]
  ++ py "    - Glossary" ++ [nl]
  ++ py "    - References" ++ [nl]
  ++ py "    - License Information" ++ [nl]
  ++ [nl]
  ++ py "## Navigation" ++ [nl]
  ++ [nl]
  ++ py "- [Home](./README.md)" ++ [nl]
  ++ py "- [Index](./index.md)" ++ [nl]
  ++ py "- [Glossary](./glossary.md)" ++ [nl].

Section GenerateDocs.

Variable unicode_isalnum : char -> bool.

(** The encodings of the standard output and of the locale. *)
Variable stdout_table : char -> bool.
Variable locale_table : char -> bool.

(** [str(self.docs_dir / name)], from [pathlib]. *)
Variable docs_path : str -> str.

(** [print(line)] *)
Definition say (g : Generator) (line : str) : option Generator :=
  match print_line stdout_table (console g) line with
  | Some out => Some {| api_docs := api_docs g; console := out |}
  | None => None
  end.

(** [generate_docs]; [files] is what the walk of the source directory
    yields. *)
Definition generate_docs (files : list SourceFile) (docs_dir : str)
           (g : Generator) (d : disk) : outcome Generator * disk :=
  match say g (py "Scanning source files...") with
  | None => (Raises, d)
  | Some g =>
  match scan_source_files unicode_isalnum files g with
  | Raises => (Raises, d)
  | Returned g =>
  match say g (py "Found " ++ str_of_nat (length (api_docs g))
               ++ py " source files with documentation") with
  | None => (Raises, d)
  | Some g =>
  match say g (py "Generating API reference...") with
  | None => (Raises, d)
  | Some g =>
      let api_ref := generate_api_reference g in
      let api_ref_path := docs_path (py "05-api-reference.md") in
      match write_file locale_table d api_ref_path api_ref with
      | OpenError => (Raises, d)
      | EncodeError d => (Raises, d)
      | Written d =>
      match say g (py "Generating table of contents...") with
      | None => (Raises, d)
      | Some g =>
          let toc := generate_table_of_contents in
          let toc_path := docs_path (py "table-of-contents.md") in
          match write_file locale_table d toc_path toc with
          | OpenError => (Raises, d)
          | EncodeError d => (Raises, d)
          | Written d =>
          match say g (py "Documentation generated in " ++ docs_dir) with
          | None => (Raises, d)
          | Some g =>
          match say g (py "- API Reference: " ++ api_ref_path) with
          | None => (Raises, d)
          | Some g =>
          match say g (py "- Table of Contents: " ++ toc_path) with
          | None => (Raises, d)
          | Some g => (Returned g, d)
          end end end end end end end end end end.

End GenerateDocs.

End DocTools.
Import DocTools.

(** ** Further examples *)

Module MoreExamples.

(** A documentation directory that holds the generated reference only. *)
Definition only_reference (g : Generator) : directory :=
  fun filename =>
    if str_eqb filename (py "05-api-reference.md")
    then Chapter (generate_api_reference g)
    else Missing.

(** Both chapters of the scenario as regular files, the second one
    blank. *)
Definition scenario_tree : tree :=
  fun filename =>
    if str_eqb filename (py "a.md")
    then Path true (ReadOk (py "# A" ++ nl :: py "Hello"))
    else if str_eqb filename (py "b.md")
    then Path true (ReadOk (py "  "))
    else NoPath.

(** A numbering of the paths, one file per spelling. *)
Definition file_number (path : str) : file :=
  fold_left (fun n c => n * 1114112 + c + 1)%N path 0%N.

(** Nothing written yet; every path names a file of its own that can be
    written and removed. *)
Definition blank_disk : disk :=
  {| file_of := file_number; content_at := fun _ => None;
     writable := fun _ => true; removable := fun _ => true |}.

(** The same, a leading [./] being no part of the name of a file. *)
Definition current_dir_disk : disk :=
  {| file_of := fun path =>
       file_number (if startswith path (py "./") then skipn 2 path
                    else path);
     content_at := fun _ => None;
     writable := fun _ => true; removable := fun _ => true |}.

(** A converter that wraps its input in one paragraph. *)
Definition paragraph (md : str) : option str :=
  Some (py "<p>" ++ md ++ py "</p>").

(** An encoding of all code points but the surrogates, as UTF-8, and one
    of ASCII alone. *)
Definition utf8 (c : char) : bool := negb ((55296 <=? c) && (c <=? 57343))%N.
Definition ascii_only (c : char) : bool := false.

(** A source file with a name outside ASCII in its documentation. *)
Definition unicode_file : SourceFile :=
  {| sf_path := py "src/cafe.zig"; sf_relative := py "cafe.zig";
     sf_is_file := true;
     sf_read := ReadText (py "//! Caf" ++ [233%N]) |}.

(** A tree in which nothing can be checked, and one in which the first
    chapter of the scenario cannot be read. *)
Definition guarded_tree : tree := fun _ => NoAccess.

Definition blocked_tree : tree :=
  fun filename =>
    if str_eqb filename (py "a.md")
    then Path false (ReadError (py "[Errno 21] Is a directory: 'a.md'"))
    else NoPath.

(** A directory in which the first chapter of the scenario is a
    directory. *)
Definition blocked_dir : directory :=
  fun filename =>
    if str_eqb filename (py "a.md") then Unreadable else Missing.

(** The same, with the second chapter in place. *)
Definition behind_blocked_dir : directory :=
  fun filename =>
    if str_eqb filename (py "a.md") then Unreadable
    else if str_eqb filename (py "b.md")
    then Chapter (py "# B" ++ nl :: py "World")
    else Missing.

(** A documentation directory that may not be searched: [exists()]
    raises on every path below it. *)
Definition guarded_dir : directory := fun _ => Inaccessible.

End MoreExamples.
Import MoreExamples.

(** * Properties *)

(** ** Text *)

Module TextFacts.

Lemma lstrip_suffix (s : str) : exists p, s = p ++ lstrip s.
Proof.
  induction s as [|c s [p IH]]; simpl.
  - now exists [].
  - destruct (is_space c).
    + exists (c :: p). simpl. now f_equal.
    + now exists [].
Qed.

Lemma lstrip_In (c : char) (s : str) : In c (lstrip s) -> In c s.
Proof.
  destruct (lstrip_suffix s) as [p E]. intro H.
  rewrite E. apply in_or_app. now right.
Qed.

Lemma strip_In (c : char) (s : str) : In c (strip s) -> In c s.
Proof.
  unfold strip, rstrip. intro H.
  apply lstrip_In. apply in_rev in H. apply lstrip_In in H.
  now apply in_rev in H.
Qed.

Lemma skipn_In {A} (n : nat) (x : A) (l : list A) :
  In x (skipn n l) -> In x l.
Proof.
  rewrite <- (firstn_skipn n l) at 2. intro. apply in_or_app. now right.
Qed.

Lemma split_nl_not_nil (s : str) : split_nl s <> [].
Proof.
  induction s as [|c s IH]; simpl; [discriminate|].
  destruct (c =? nl)%N; [discriminate|].
  destruct (split_nl s); discriminate.
Qed.

Lemma split_nl_no_nl (s : str) : Forall (fun l => ~ In nl l) (split_nl s).
Proof.
  induction s as [|c s IH]; simpl.
  - constructor; auto.
  - destruct (N.eqb_spec c nl) as [->|Hc].
    + constructor; auto.
    + destruct (split_nl s) as [|l ls].
      * constructor; auto. simpl. intros [E|[]]. now apply Hc.
      * inversion IH; subst. constructor; auto.
        simpl. intros [E|E]; [now apply Hc | contradiction].
Qed.

Lemma split_nl_app_no_nl (l s : str) :
  ~ In nl l ->
  split_nl (l ++ s) =
  match split_nl s with
  | l' :: ls => (l ++ l') :: ls
  | [] => [l]
  end.
Proof.
  induction l as [|c l IH]; simpl; intro H.
  - destruct (split_nl s) eqn:E; [now apply split_nl_not_nil in E|reflexivity].
  - destruct (N.eqb_spec c nl) as [->|Hc]; [tauto|].
    rewrite IH by tauto.
    destruct (split_nl s); reflexivity.
Qed.

(** Splitting a joined sequence of lines gives the lines back. *)
Lemma split_join_nl (ls : list str) :
  ls <> [] -> Forall (fun l => ~ In nl l) ls -> split_nl (join_nl ls) = ls.
Proof.
  induction ls as [|l ls IH]; [congruence|].
  intros _ H. inversion H as [|? ? Hl Hls]; subst.
  destruct ls as [|l' ls'].
  - simpl. rewrite <- (app_nil_r l) at 1.
    rewrite split_nl_app_no_nl by assumption. simpl. now rewrite app_nil_r.
  - change (join_nl (l :: l' :: ls')) with (l ++ nl :: join_nl (l' :: ls')).
    rewrite split_nl_app_no_nl by assumption.
    change (split_nl (nl :: join_nl (l' :: ls')))
      with ([] :: split_nl (join_nl (l' :: ls'))).
    rewrite IH by (assumption || discriminate). now rewrite app_nil_r.
Qed.

Lemma join_split_nl (s : str) : join_nl (split_nl s) = s.
Proof.
  induction s as [|c s IH]; simpl; [reflexivity|].
  destruct (N.eqb_spec c nl) as [->|Hc].
  - destruct (split_nl s) eqn:E; [now apply split_nl_not_nil in E|].
    simpl in *. now rewrite IH.
  - destruct (split_nl s) as [|l ls] eqn:E; [now apply split_nl_not_nil in E|].
    destruct ls; simpl in *; now rewrite <- IH.
Qed.

Lemma startswith_app (s p : str) : startswith (p ++ s) p = true.
Proof.
  induction p as [|a p IH]; simpl; [reflexivity|].
  now rewrite N.eqb_refl.
Qed.

Lemma startswith_spec (s p : str) :
  startswith s p = true <-> exists t, s = p ++ t.
Proof.
  split.
  - revert s. induction p as [|a p IH]; intros s H; simpl in *.
    + now exists s.
    + destruct s as [|b s]; [discriminate|].
      apply andb_prop in H as [E H]. apply N.eqb_eq in E. subst.
      destruct (IH _ H) as [t ->]. now exists t.
  - intros [t ->]. apply startswith_app.
Qed.

End TextFacts.
Import TextFacts.

(** ** The matcher *)

Module ReFacts.

Section Failure.
Variable R : Type.

(** A property of the remaining input that every suffix inherits. *)
Variable P : str -> Prop.
Hypothesis P_tail : forall c s, P (c :: s) -> P s.

Lemma rep_greedy_fail cls (k : str -> option R) :
  (forall s', P s' -> k s' = None) ->
  forall s n, P s -> rep_greedy cls n s k = None.
Proof.
  intros Hk. induction s as [|c s IH]; intros n Hs; simpl.
  - destruct n; auto.
  - assert (Hstop : match n with O => k (c :: s) | S _ => None end = None)
      by (destruct n; auto).
    destruct (cls c); [|exact Hstop].
    rewrite IH by eauto. exact Hstop.
Qed.

Lemma rep_lazy_fail cls (k : str -> option R) :
  (forall s', P s' -> k s' = None) ->
  forall s n, P s -> rep_lazy cls n s k = None.
Proof.
  intros Hk. induction s as [|c s IH]; intros n Hs; simpl.
  - destruct n; simpl; auto. now rewrite Hk.
  - assert (Hmore : (if cls c then rep_lazy cls (pred n) s k else None)
                    = None)
      by (destruct (cls c); eauto).
    destruct n; simpl; [rewrite Hk by assumption; simpl|]; exact Hmore.
Qed.

(** When the continuation fails on every input with [P], so does the
    whole match: [run] only ever hands suffixes to its continuation. *)
Lemma run_fail (r : regex) :
  forall s g (k : str -> list str -> option R),
    P s -> (forall s' g', P s' -> k s' g' = None) -> run r s g k = None.
Proof.
  induction r as [c|greedy n cls|r IH|r1 IH1 r2 IH2|r1 IH1 r2 IH2| |];
    intros s g k Hs Hk; simpl.
  - destruct s as [|c' s]; [reflexivity|].
    destruct (c' =? c)%N; eauto.
  - destruct greedy; [apply rep_greedy_fail | apply rep_lazy_fail]; auto.
  - apply IH; auto.
  - apply IH1; auto.
  - rewrite IH1, IH2 by auto. reflexivity.
  - destruct s as [|c [|c' s]]; auto.
    destruct (c =? nl)%N; auto.
  - auto.
Qed.
End Failure.

(** A pattern with a mandatory literal [c] cannot match a string in which
    [c] does not occur. *)
Lemma seq_needs_char (R : Type) (c : char) (rs2 : list regex) :
  forall (rs1 : list regex) (s : str) g (k : str -> list str -> option R),
    ~ In c s -> run (seq (rs1 ++ Chr c :: rs2)) s g k = None.
Proof.
  induction rs1 as [|r rs1 IH]; intros s g k Hs; simpl.
  - destruct s as [|c' s]; [reflexivity|].
    destruct (N.eqb_spec c' c) as [->|]; [|reflexivity].
    exfalso. apply Hs. now left.
  - apply run_fail with (P := fun s => ~ In c s).
    + intros c' s' H Hin. apply H. now right.
    + assumption.
    + intros s' g' Hs'. now apply IH.
Qed.

(** *** What a successful match means *)

Lemma consumed_app (w rest : str) : consumed (w ++ rest) rest = w.
Proof.
  unfold consumed. rewrite length_app, Nat.add_sub.
  rewrite firstn_app, Nat.sub_diag, firstn_all. simpl. apply app_nil_r.
Qed.

Lemma orelse_Some {A} (x y : option A) (a : A) :
  orelse x y = Some a -> x = Some a \/ y = Some a.
Proof. destruct x; simpl; auto. Qed.

Section Soundness.
Variable R : Type.

Lemma rep_greedy_sound cls (k : str -> option R) (x : R) :
  forall s n,
    rep_greedy cls n s k = Some x ->
    exists w rest,
      s = w ++ rest /\ Forall (fun c => cls c = true) w
      /\ n <= length w /\ k rest = Some x.
Proof.
  induction s as [|c s IH]; intros n H; simpl in H.
  - destruct n; [|discriminate]. exists [], []. auto.
  - assert (Hstop : match n with O => k (c :: s) | S _ => None end = Some x
                    -> exists w rest,
                        c :: s = w ++ rest
                        /\ Forall (fun c => cls c = true) w
                        /\ n <= length w /\ k rest = Some x).
    { destruct n; [|discriminate]. intro. exists [], (c :: s). auto. }
    destruct (cls c) eqn:Hc; [|auto].
    apply orelse_Some in H as [H|H]; [|auto].
    destruct (IH _ H) as (w & rest & -> & Hw & Hn & Hk).
    exists (c :: w), rest. simpl. repeat split; auto. lia.
Qed.

Lemma rep_lazy_sound cls (k : str -> option R) (x : R) :
  forall s n,
    rep_lazy cls n s k = Some x ->
    exists w rest,
      s = w ++ rest /\ Forall (fun c => cls c = true) w
      /\ n <= length w /\ k rest = Some x.
Proof.
  induction s as [|c s IH]; intros n H; simpl in H.
  - destruct n; [|discriminate]. apply orelse_Some in H as [H|H];
      [|discriminate]. exists [], []. auto.
  - assert (Hmore : (if cls c then rep_lazy cls (pred n) s k else None)
                    = Some x
                    -> exists w rest,
                        c :: s = w ++ rest
                        /\ Forall (fun c => cls c = true) w
                        /\ n <= length w /\ k rest = Some x).
    { destruct (cls c) eqn:Hc; [|discriminate]. intro H'.
      destruct (IH _ H') as (w & rest & -> & Hw & Hn & Hk).
      exists (c :: w), rest. simpl. repeat split; auto. lia. }
    destruct n; [|auto].
    apply orelse_Some in H as [H|H]; [|auto].
    exists [], (c :: s). auto.
Qed.

(** Whatever [run] returns was returned by its continuation, called on
    the text left after a match of [r]. *)
Lemma run_sound (r : regex) :
  forall s g (k : str -> list str -> option R) (x : R),
    run r s g k = Some x ->
    exists w rest gs,
      s = w ++ rest /\ matches r w rest gs /\ k rest (g ++ gs) = Some x.
Proof.
  induction r as [c|greedy n cls|r IH|r1 IH1 r2 IH2|r1 IH1 r2 IH2| |];
    intros s g k x H; simpl in H.
  - destruct s as [|c' s]; [discriminate|].
    destruct (N.eqb_spec c' c) as [->|]; [|discriminate].
    exists [c], s, []. rewrite app_nil_r. repeat split; auto. constructor.
  - assert (exists w rest,
               s = w ++ rest /\ Forall (fun c => cls c = true) w
               /\ n <= length w /\ k rest g = Some x)
      as (w & rest & -> & Hw & Hn & Hk)
      by (destruct greedy;
          [eapply rep_greedy_sound | eapply rep_lazy_sound]; exact H).
    exists w, rest, []. rewrite app_nil_r. repeat split; auto.
    now constructor.
  - destruct (IH _ _ _ _ H) as (w & rest & gs & -> & Hm & Hk).
    rewrite consumed_app in Hk.
    exists w, rest, (gs ++ [w]). rewrite app_assoc.
    repeat split; auto. now constructor.
  - destruct (IH1 _ _ _ _ H) as (w1 & rest1 & g1 & -> & Hm1 & Hk1).
    destruct (IH2 _ _ _ _ Hk1) as (w2 & rest & g2 & -> & Hm2 & Hk).
    exists (w1 ++ w2), rest, (g1 ++ g2). rewrite <- !app_assoc.
    rewrite <- app_assoc in Hk. repeat split; auto. now constructor.
  - apply orelse_Some in H as [H|H].
    + destruct (IH1 _ _ _ _ H) as (w & rest & gs & -> & Hm & Hk).
      exists w, rest, gs. repeat split; auto. now apply MAltL.
    + destruct (IH2 _ _ _ _ H) as (w & rest & gs & -> & Hm & Hk).
      exists w, rest, gs. repeat split; auto. now apply MAltR.
  - exists [], s, []. rewrite app_nil_r.
    destruct s as [|c [|c' s]]; try discriminate.
    + repeat split; auto. constructor. now left.
    + destruct (N.eqb_spec c nl) as [->|]; [|discriminate].
      repeat split; auto. constructor. now right.
  - exists [], s, []. rewrite app_nil_r. repeat split; auto. constructor.
Qed.
End Soundness.

Lemma rmatch_sound (r : regex) (s : str) (m : list str) :
  rmatch r s = Some m -> exists w rest, s = w ++ rest /\ matches r w rest m.
Proof.
  intro H. apply run_sound in H as (w & rest & gs & -> & Hm & Hk).
  simpl in Hk. injection Hk as <-. now exists w, rest.
Qed.

End ReFacts.
Import ReFacts.

(** ** The backward scan *)

Module ScanFacts.

Lemma getitem_nat (lines : list str) (n : nat) :
  n < length lines -> getitem lines (Z.of_nat n) = nth_error lines n.
Proof.
  intro H. unfold getitem.
  replace (Z.of_nat n <? - Z.of_nat (length lines))%Z with false
    by (symmetry; apply Z.ltb_ge; lia).
  replace (Z.of_nat (length lines) <=? Z.of_nat n)%Z with false
    by (symmetry; apply Z.leb_gt; lia).
  replace (Z.of_nat n <? 0)%Z with false by (symmetry; apply Z.ltb_ge; lia).
  simpl. now rewrite Nat2Z.id.
Qed.

Lemma nth_error_middle {A} (l1 l2 : list A) (x : A) :
  nth_error (l1 ++ x :: l2) (length l1) = Some x.
Proof. induction l1; simpl; auto. Qed.

(** Below a run of item-doc lines the loop collects the whole run and
    stops at the line above it, or at the start of the list. *)
Lemma scan_loop_run (lines : list str) :
  forall block above rest acc reads fuel,
    lines = above ++ block ++ rest ->
    Forall (fun l => item_doc_line l = true) block ->
    run_starts_after above ->
    length block < fuel ->
    exists reads',
      scan_loop fuel lines
        {| sc_j := Z.of_nat (length above + length block) - 1;
           sc_doc_lines := acc; sc_reads := reads |}
      = (Exited,
         {| sc_j := Z.of_nat (length above) - 1;
            sc_doc_lines := map doc_text block ++ acc;
            sc_reads := reads ++ reads' |})
      /\ Forall (fun j => (0 <= j < Z.of_nat (length above + length block))%Z)
           reads'.
Proof.
  induction block as [|l block IH] using rev_ind;
    intros above rest acc reads fuel Hlines Hrun Habove Hfuel.
  - destruct fuel as [|fuel]; [simpl in Hfuel; lia|].
    simpl length. rewrite Nat.add_0_r. simpl scan_loop. unfold scan_step.
    simpl sc_j.
    destruct Habove as [->|(a & l & -> & Hl)].
    + simpl. exists []. rewrite app_nil_r. split; [reflexivity|constructor].
    + assert (Hget : getitem lines (Z.of_nat (length a)) = Some l).
      { rewrite getitem_nat
          by (rewrite Hlines, !length_app; simpl; lia).
        rewrite Hlines. simpl app. rewrite <- app_assoc. simpl app.
        apply nth_error_middle. }
      rewrite length_app. simpl length.
      replace (Z.of_nat (length a + 1) - 1)%Z with (Z.of_nat (length a))
        by lia.
      replace (0 <=? Z.of_nat (length a))%Z with true
        by (symmetry; apply Z.leb_le; lia).
      rewrite Hget, Hl.
      exists [Z.of_nat (length a)]. split; [reflexivity|].
      constructor; [lia|constructor].
  - destruct fuel as [|fuel]; [simpl in Hfuel; lia|].
    rewrite length_app in Hfuel. simpl in Hfuel.
    apply Forall_app in Hrun as [Hrun Hl].
    assert (Hl' : item_doc_line l = true) by (inversion Hl; assumption).
    assert (E : lines = above ++ block ++ l :: rest)
      by (rewrite Hlines, <- !app_assoc; reflexivity).
    set (j := Z.of_nat (length above + length block)).
    assert (Hget : getitem lines j = Some l).
    { unfold j. rewrite getitem_nat
        by (rewrite E, !length_app; simpl; lia).
      rewrite E, app_assoc, <- length_app. apply nth_error_middle. }
    rewrite length_app. simpl length.
    simpl scan_loop. unfold scan_step. simpl sc_j.
    replace (Z.of_nat (length above + (length block + 1)) - 1)%Z
      with j by (unfold j; lia).
    replace (0 <=? j)%Z with true
      by (symmetry; apply Z.leb_le; unfold j; lia).
    rewrite Hget, Hl'. simpl sc_doc_lines. simpl sc_reads.
    destruct (IH above (l :: rest) (doc_text l :: acc)
                (reads ++ [j; j]) fuel E Hrun Habove)
      as (reads' & Eq & Hreads); [lia|].
    fold j in Eq. rewrite Eq.
    exists ([j; j] ++ reads'). split.
    + rewrite map_app. simpl. rewrite <- !app_assoc. reflexivity.
    + repeat constructor; try (unfold j; lia).
      eapply Forall_impl; [|exact Hreads]. simpl. intros; lia.
Qed.

(** Every list of lines ends with a maximal run of item-doc lines. *)
Lemma maximal_run (l : list str) :
  exists above block,
    l = above ++ block
    /\ Forall (fun x => item_doc_line x = true) block
    /\ run_starts_after above.
Proof.
  induction l as [|x l (above & block & E & Hrun & Habove)] using rev_ind.
  - exists [], []. repeat split; auto. now left.
  - destruct (item_doc_line x) eqn:Hx.
    + exists above, (block ++ [x]). subst l. rewrite app_assoc.
      repeat split; auto. apply Forall_app. split; auto.
    + exists (l ++ [x]), []. rewrite app_nil_r.
      repeat split; auto. right. now exists l, x.
Qed.

Lemma doc_lines_above_run (above block rest : list str) :
  Forall (fun l => item_doc_line l = true) block ->
  run_starts_after above ->
  doc_lines_above (above ++ block ++ rest) (length above + length block)
  = map doc_text block.
Proof.
  intros Hrun Habove. unfold doc_lines_above, scan_above.
  destruct (@scan_loop_run (above ++ block ++ rest) block above rest
              [] [] (S (length above + length block))
              eq_refl Hrun Habove) as (reads' & -> & _); [lia|].
  simpl. apply app_nil_r.
Qed.

End ScanFacts.
Import ScanFacts.

(** ** The two extractors *)

Module ExtractFacts.

Section Membership.
Variable unicode_isalnum : char -> bool.

(** The records come from the candidate lines on which the pattern
    matches, one record per such line. *)
Lemma functions_loop_In (lines : list str) (r : FunctionSignature) :
  forall rest i functions,
    In r (functions_loop unicode_isalnum lines i rest functions) <->
    In r functions \/
    exists k line m,
      nth_error rest k = Some line
      /\ startswith (strip line) pub_fn = true
      /\ rmatch (func_re unicode_isalnum) (strip line) = Some m
      /\ r = function_record lines (i + k) m.
Proof.
  induction rest as [|line rest IH]; intros i functions;
    cbn [functions_loop].
  - split; [auto|]. intros [H|(k & l & m & H & _)]; [assumption|].
    destruct k; discriminate.
  - rewrite IH. split.
    + intros [H|(k & l & m & Hk & Hp & Hm & ->)].
      * destruct (startswith (strip line) pub_fn) eqn:Hp; [|auto].
        destruct (rmatch (func_re unicode_isalnum) (strip line))
          as [m|] eqn:Hm; [|auto].
        apply in_app_or in H as [H|[<-|[]]]; [auto|].
        right. exists 0, line, m. rewrite Nat.add_0_r. auto.
      * right. exists (S k), l, m. rewrite Nat.add_succ_r. auto.
    + intros [H|(k & l & m & Hk & Hp & Hm & ->)].
      * left. destruct (startswith (strip line) pub_fn); [|assumption].
        destruct (rmatch (func_re unicode_isalnum) (strip line)); [|assumption].
        apply in_or_app. now left.
      * destruct k as [|k]; cbn [nth_error] in Hk.
        -- injection Hk as ->. left. rewrite Hp, Hm, Nat.add_0_r.
           apply in_or_app. right. now left.
        -- right. exists k, l, m. rewrite Nat.add_succ_r in *. auto.
Qed.

Lemma extract_function_signatures_In (content : str)
      (r : FunctionSignature) :
  In r (extract_function_signatures unicode_isalnum content) <->
  exists i line m,
    nth_error (split_nl content) i = Some line
    /\ startswith (strip line) pub_fn = true
    /\ rmatch (func_re unicode_isalnum) (strip line) = Some m
    /\ r = function_record (split_nl content) i m.
Proof.
  unfold extract_function_signatures. rewrite functions_loop_In.
  cbn [In plus].
  split; [intros [[]|H]|intro H; right]; exact H.
Qed.

Lemma types_loop_In (lines : list str) (t : TypeDefinition) :
  forall rest i types,
    In t (types_loop unicode_isalnum lines i rest types) <->
    In t types \/
    exists k line m,
      nth_error rest k = Some line
      /\ type_candidate (strip line) = true
      /\ rmatch (type_re unicode_isalnum) (strip line) = Some m
      /\ t = type_record lines (i + k) m.
Proof.
  induction rest as [|line rest IH]; intros i types; cbn [types_loop].
  - split; [auto|]. intros [H|(k & l & m & H & _)]; [assumption|].
    destruct k; discriminate.
  - rewrite IH. split.
    + intros [H|(k & l & m & Hk & Hp & Hm & ->)].
      * destruct (type_candidate (strip line)) eqn:Hp; [|auto].
        destruct (rmatch (type_re unicode_isalnum) (strip line))
          as [m|] eqn:Hm; [|auto].
        apply in_app_or in H as [H|[<-|[]]]; [auto|].
        right. exists 0, line, m. rewrite Nat.add_0_r. auto.
      * right. exists (S k), l, m. rewrite Nat.add_succ_r. auto.
    + intros [H|(k & l & m & Hk & Hp & Hm & ->)].
      * left. destruct (type_candidate (strip line)); [|assumption].
        destruct (rmatch (type_re unicode_isalnum) (strip line)); [|assumption].
        apply in_or_app. now left.
      * destruct k as [|k]; cbn [nth_error] in Hk.
        -- injection Hk as ->. left. rewrite Hp, Hm, Nat.add_0_r.
           apply in_or_app. right. now left.
        -- right. exists k, l, m. rewrite Nat.add_succ_r in *. auto.
Qed.

Lemma extract_structs_and_enums_In (content : str) (t : TypeDefinition) :
  In t (extract_structs_and_enums unicode_isalnum content) <->
  exists i line m,
    nth_error (split_nl content) i = Some line
    /\ type_candidate (strip line) = true
    /\ rmatch (type_re unicode_isalnum) (strip line) = Some m
    /\ t = type_record (split_nl content) i m.
Proof.
  unfold extract_structs_and_enums. rewrite types_loop_In.
  cbn [In plus].
  split; [intros [[]|H]|intro H; right]; exact H.
Qed.

End Membership.

End ExtractFacts.
Import ExtractFacts.

(** ** Documentation of a declaration *)

Module Documentation.

Lemma doc_text_no_nl (line : str) : ~ In nl line -> ~ In nl (doc_text line).
Proof.
  intros H Hin. apply H. unfold doc_text, after_marker in Hin.
  apply strip_In, skipn_In, strip_In in Hin. exact Hin.
Qed.

Lemma documentation_of_lines (texts : list str) :
  texts <> [] -> Forall (fun l => ~ In nl l) texts ->
  split_nl (documentation_of texts) = texts.
Proof.
  intros Hne Hnl. destruct texts; [congruence|].
  unfold documentation_of. now apply split_join_nl.
Qed.

(** The lines above a declaration end with their maximal run of item-doc
    lines. *)
Lemma declaration_line_split (lines : list str) (i : nat) (decl : str) :
  nth_error lines i = Some decl ->
  exists above block below,
    lines = above ++ block ++ decl :: below
    /\ i = length above + length block
    /\ Forall (fun l => item_doc_line l = true) block
    /\ run_starts_after above.
Proof.
  intro Hi. apply nth_error_split in Hi as (l1 & below & -> & <-).
  destruct (maximal_run l1) as (above & block & -> & Hblock & Habove).
  exists above, block, below. rewrite <- app_assoc, length_app. auto.
Qed.

(** C1. The documentation of an extracted declaration (function or type)
    is the maximal contiguous run of item-doc lines ([///]) that ends
    right above the declaration line, each stripped of its marker, in
    source order.  Every record comes with a split of the lines of the
    file as [above ++ block ++ decl :: below], [decl] being its line,
    where [block] holds item-doc lines only and nothing, or a line that is
    not an item-doc line, ends [above].  For every such split the backward
    scan collects exactly the [length block] texts of [block] in source
    order; a record for the line [decl] stores them joined by line feeds,
    so that for a non-empty [block] the lines of the stored documentation
    are these texts, one entry per comment line; and with an empty [block]
    (a blank or other line directly above, or nothing above) the
    documentation is empty. *)
Theorem documentation_is_preceding_run
        (unicode_isalnum : char -> bool) (content : str) :
  (forall r,
      In r (extract_function_signatures unicode_isalnum content) ->
      exists above block decl below,
        split_nl content = above ++ block ++ decl :: below
        /\ fn_line r = length above + length block + 1
        /\ Forall (fun l => item_doc_line l = true) block
        /\ run_starts_after above
        /\ fn_documentation r = documentation_of (map doc_text block))
  /\ (forall t,
        In t (extract_structs_and_enums unicode_isalnum content) ->
        exists above block decl below,
          split_nl content = above ++ block ++ decl :: below
          /\ ty_line t = length above + length block + 1
          /\ Forall (fun l => item_doc_line l = true) block
          /\ run_starts_after above
          /\ ty_documentation t = documentation_of (map doc_text block))
  /\ (forall above block decl below,
        split_nl content = above ++ block ++ decl :: below ->
        Forall (fun l => item_doc_line l = true) block ->
        run_starts_after above ->
        let i := length above + length block in
        let texts := map doc_text block in
        doc_lines_above (split_nl content) i = texts
        /\ length texts = length block
        /\ (forall r,
              In r (extract_function_signatures unicode_isalnum content) ->
              fn_line r = i + 1 ->
              fn_documentation r = documentation_of texts)
        /\ (forall t,
              In t (extract_structs_and_enums unicode_isalnum content) ->
              ty_line t = i + 1 ->
              ty_documentation t = documentation_of texts)
        /\ (block <> [] -> split_nl (documentation_of texts) = texts)
        /\ (block = [] -> documentation_of texts = [])).
Proof.
  split; [|split].
  - intros r Hr.
    apply extract_function_signatures_In in Hr
      as (i & line & m & Hi & _ & _ & ->).
    destruct (declaration_line_split _ _ Hi)
      as (above & block & below & Hlines & -> & Hblock & Habove).
    exists above, block, line, below.
    cbn [fn_line fn_documentation function_record].
    rewrite Hlines at 2. rewrite doc_lines_above_run by assumption. auto.
  - intros t Ht.
    apply extract_structs_and_enums_In in Ht
      as (i & line & m & Hi & _ & _ & ->).
    destruct (declaration_line_split _ _ Hi)
      as (above & block & below & Hlines & -> & Hblock & Habove).
    exists above, block, line, below.
    cbn [ty_line ty_documentation type_record].
    rewrite Hlines at 2. rewrite doc_lines_above_run by assumption. auto.
  - intros above block decl below Hlines Hblock Habove i texts.
    assert (Hscan : doc_lines_above (split_nl content) i = texts)
      by (rewrite Hlines; now apply doc_lines_above_run).
    split; [exact Hscan|].
    split; [apply length_map|].
    split; [|split; [|split]].
    + intros r Hr Hline.
      apply extract_function_signatures_In in Hr
        as (k & line & m & _ & _ & _ & ->).
      cbn [fn_line function_record] in Hline.
      assert (k = i) as -> by lia.
      cbn [fn_documentation function_record]. now rewrite Hscan.
    + intros t Ht Hline.
      apply extract_structs_and_enums_In in Ht
        as (k & line & m & _ & _ & _ & ->).
      cbn [ty_line type_record] in Hline.
      assert (k = i) as -> by lia.
      cbn [ty_documentation type_record]. now rewrite Hscan.
    + intro Hne. apply documentation_of_lines.
      * subst texts. destruct block; [congruence|discriminate].
      * subst texts. apply Forall_map.
        pose proof (split_nl_no_nl content) as Hnl. rewrite Hlines in Hnl.
        apply Forall_app in Hnl as [_ Hnl].
        apply Forall_app in Hnl as [Hnl _].
        eapply Forall_impl; [|exact Hnl]. apply doc_text_no_nl.
    + intros ->. reflexivity.
Qed.

(** Two comment lines right above a function at the top of a file. *)
Lemma documentation_is_preceding_run_witness :
  let content := py "/// first" ++ nl :: py "///   second  " ++ nl
                 :: py "pub fn f() void {" in
  let block := [py "/// first"; py "///   second  "] in
  let r := {| fn_name := py "f"; fn_params := [];
              fn_return_type := py "void";
              fn_documentation := py "first" ++ nl :: py "second";
              fn_line := 3 |} in
  split_nl content = [] ++ block ++ py "pub fn f() void {" :: []
  /\ Forall (fun l => item_doc_line l = true) block
  /\ run_starts_after []
  /\ In r (extract_function_signatures (fun _ => false) content)
  /\ doc_lines_above (split_nl content) 2 = [py "first"; py "second"]
  /\ split_nl (fn_documentation r) = [py "first"; py "second"].
Proof.
  intros content block r.
  assert (Hlines : split_nl content
                   = [] ++ block ++ py "pub fn f() void {" :: [])
    by (vm_compute; reflexivity).
  assert (Hblock : Forall (fun l => item_doc_line l = true) block)
    by (repeat constructor).
  assert (Habove : run_starts_after []) by (left; reflexivity).
  assert (Hin : In r (extract_function_signatures (fun _ => false) content))
    by (vm_compute; left; reflexivity).
  destruct (proj2 (proj2 (documentation_is_preceding_run
                            (fun _ => false) content))
              [] block (py "pub fn f() void {") [] Hlines Hblock Habove)
    as (Hscan & _ & Hdoc & _ & Hsplit & _).
  split; [exact Hlines|]. split; [exact Hblock|]. split; [exact Habove|].
  split; [exact Hin|]. split; [exact Hscan|].
  rewrite (Hdoc r Hin eq_refl). apply Hsplit. discriminate.
Defined.

End Documentation.

(** ** Safety of the backward scan *)

Module ScanSafety.

Lemma scan_above_outcome (lines : list str) (i : nat) :
  i <= length lines ->
  exists above block reads,
    firstn i lines = above ++ block
    /\ Forall (fun l => item_doc_line l = true) block
    /\ run_starts_after above
    /\ scan_above lines i
       = (Exited, {| sc_j := Z.of_nat (length above) - 1;
                     sc_doc_lines := map doc_text block;
                     sc_reads := reads |})
    /\ Forall (fun j => (0 <= j < Z.of_nat i)%Z) reads.
Proof.
  intro Hi.
  destruct (maximal_run (firstn i lines)) as (above & block & E & Hb & Ha).
  assert (Hlen : i = length above + length block).
  { rewrite <- length_app, <- E, length_firstn. lia. }
  assert (Hlines : lines = above ++ block ++ skipn i lines).
  { rewrite app_assoc, <- E. symmetry. apply firstn_skipn. }
  destruct (@scan_loop_run lines block above (skipn i lines) [] [] (S i)
              Hlines Hb Ha) as (reads & Eq & Hreads); [lia|].
  exists above, block, reads. unfold scan_above.
  rewrite <- Hlen in Eq, Hreads. rewrite Eq, app_nil_r. auto.
Qed.

(** C10. From a declaration at any line index [i] the backward scan leaves
    its loop normally (no [IndexError], within [i + 1] iterations), and it
    subscripts [lines] only at indices [j] with [0 <= j < i], never below
    zero.  When all the lines above the declaration are item-doc lines the
    scan stops at [j = -1], the start of the file, having collected them
    all.  A declaration on the first line ([i = 0]) reads no line and gets
    empty documentation, in both extractors. *)
Theorem scan_stops_at_file_start
        (unicode_isalnum : char -> bool) (content : str) (i : nat) :
  i < length (split_nl content) ->
  let lines := split_nl content in
  fst (scan_above lines i) = Exited
  /\ Forall (fun j => (0 <= j < Z.of_nat i)%Z)
       (sc_reads (snd (scan_above lines i)))
  /\ (Forall (fun l => item_doc_line l = true) (firstn i lines) ->
      sc_j (snd (scan_above lines i)) = (-1)%Z
      /\ doc_lines_above lines i = map doc_text (firstn i lines))
  /\ (i = 0 ->
      doc_lines_above lines i = []
      /\ sc_reads (snd (scan_above lines i)) = [])
  /\ (forall r, In r (extract_function_signatures unicode_isalnum content) ->
                fn_line r = 1 -> fn_documentation r = [])
  /\ (forall t, In t (extract_structs_and_enums unicode_isalnum content) ->
                ty_line t = 1 -> ty_documentation t = []).
Proof.
  intros Hi lines.
  assert (Hle : i <= length lines) by (unfold lines; lia).
  destruct (@scan_above_outcome lines i Hle)
    as (above & block & reads & E & Hb & Ha & Eq & Hreads).
  split; [now rewrite Eq|].
  split; [now rewrite Eq|].
  split; [|split; [|split]].
  - intro Hall.
    destruct (@scan_loop_run lines (firstn i lines) [] (skipn i lines)
                [] [] (S i)) as (reads' & Eq' & _).
    + symmetry. apply firstn_skipn.
    + exact Hall.
    + now left.
    + rewrite length_firstn. lia.
    + assert (Hlen : length (firstn i lines) = i)
        by (rewrite length_firstn; lia).
      unfold doc_lines_above, scan_above.
      simpl length in Eq'. rewrite Hlen in Eq'. simpl plus in Eq'.
      rewrite Eq'. simpl. split; [reflexivity|apply app_nil_r].
  - intros ->. unfold doc_lines_above. simpl. auto.
  - intros r Hr Hline.
    apply extract_function_signatures_In in Hr
      as (k & line & m & _ & _ & _ & ->).
    cbn [fn_line function_record] in Hline. assert (k = 0) as -> by lia.
    reflexivity.
  - intros t Ht Hline.
    apply extract_structs_and_enums_In in Ht
      as (k & line & m & _ & _ & _ & ->).
    cbn [ty_line type_record] in Hline. assert (k = 0) as -> by lia.
    reflexivity.
Qed.

(** A type declared on the third line, below two comment lines that reach
    the start of the file. *)
Lemma scan_stops_at_file_start_witness :
  let content := py "/// A pair." ++ nl :: py "/// Immutable." ++ nl
                 :: py "pub const Pair = struct {" in
  2 < length (split_nl content)
  /\ scan_above (split_nl content) 2
     = (Exited, {| sc_j := -1;
                   sc_doc_lines := [py "A pair."; py "Immutable."];
                   sc_reads := [1; 1; 0; 0]%Z |})
  /\ Forall (fun j => (0 <= j < 2)%Z)
       (sc_reads (snd (scan_above (split_nl content) 2))).
Proof.
  intro content.
  assert (Hi : 2 < length (split_nl content)) by (vm_compute; lia).
  split; [exact Hi|]. split; [vm_compute; reflexivity|].
  exact (proj1 (proj2 (@scan_stops_at_file_start (fun _ => false) content 2
                         Hi))).
Defined.

End ScanSafety.

(** ** Lines that do not fit the pattern *)

Module Omission.

Lemma matches_lit (p : str) :
  forall w rest gs, matches (lit p) w rest gs -> w = p /\ gs = [].
Proof.
  induction p as [|c p IH]; intros w rest gs H; simpl in H.
  - inversion H; auto.
  - inversion H as [| | |? ? ? ? ? ? ? H1 H2| | | |]; subst.
    inversion H1; subst. apply IH in H2 as [-> ->]. auto.
Qed.

Lemma matches_Cat_inv r1 r2 w rest gs :
  matches (Cat r1 r2) w rest gs ->
  exists w1 w2 g1 g2,
    w = w1 ++ w2 /\ gs = g1 ++ g2
    /\ matches r1 w1 (w2 ++ rest) g1 /\ matches r2 w2 rest g2.
Proof. intro H. inversion H; subst. eauto 10. Qed.

Lemma matches_Rep_inv greedy n cls w rest gs :
  matches (Rep greedy n cls) w rest gs ->
  gs = [] /\ Forall (fun c => cls c = true) w /\ n <= length w.
Proof. intro H. inversion H; subst. auto. Qed.

Lemma matches_Grp_Rep_inv greedy n cls w rest gs :
  matches (Grp (Rep greedy n cls)) w rest gs ->
  gs = [w] /\ Forall (fun c => cls c = true) w /\ n <= length w.
Proof.
  intro H. inversion H as [| |? ? ? ? H'| | | | |]; subst.
  apply matches_Rep_inv in H' as (-> & ? & ?). auto.
Qed.

Lemma matches_Chr_inv c w rest gs :
  matches (Chr c) w rest gs -> w = [c] /\ gs = [].
Proof. intro H. inversion H; subst. auto. Qed.

(** A declaration whose parameter list is not closed on its line does not
    fit the pattern. *)
Lemma unclosed_parameter_list
      (unicode_isalnum : char -> bool) (line : str) :
  ~ In (chr ")") line -> rmatch (func_re unicode_isalnum) (strip line) = None.
Proof.
  intro H.
  assert (Hs : ~ In (chr ")") (strip line))
    by (intro Hin; apply H; now apply strip_In).
  unfold rmatch, func_re.
  apply (@seq_needs_char _ (chr ")")
           [Rep true 0 is_space; Grp (Rep false 0 dot);
            Alt (Chr (chr "{")) Eos]
           [lit (py "pub fn"); Rep true 1 is_space;
            Grp (Rep true 1 (is_word unicode_isalnum));
            Rep true 0 is_space; Chr (chr "("); Grp (Rep false 0 dot)]).
  exact Hs.
Qed.

End Omission.

(** ** The documented function of the scenario *)

Module Scenario.

(** C6. For a file made of the line [/// Adds two numbers] followed by the
    line [pub fn add(a: i32, b: i32) i32 {], the signature extractor
    returns one record: its name is [add], its documentation is the single
    line [Adds two numbers], and its return type is [i32] (so it contains
    [i32]). *)
Theorem adds_two_numbers_extracted (unicode_isalnum : char -> bool) :
  exists r,
    extract_function_signatures unicode_isalnum adds_two_numbers = [r]
    /\ fn_name r = py "add"
    /\ fn_documentation r = py "Adds two numbers"
    /\ split_nl (fn_documentation r) = [py "Adds two numbers"]
    /\ doc_lines_above (split_nl adds_two_numbers) 1
       = [py "Adds two numbers"]
    /\ fn_return_type r = py "i32"
    /\ contains (py "i32") (fn_return_type r) = true
    /\ fn_params r = py "a: i32, b: i32"
    /\ fn_line r = 2.
Proof.
  eexists. split; [vm_compute; reflexivity|].
  repeat split; vm_compute; reflexivity.
Qed.

End Scenario.

(** ** Functions and types *)

Module Disjoint.

Lemma pub_fn_not_pub_const (s : str) :
  startswith s pub_fn = true -> startswith s pub_const = false.
Proof.
  intro H. apply startswith_spec in H as [t ->].
  destruct (startswith (pub_fn ++ t) pub_const) eqn:E; [|reflexivity].
  apply startswith_spec in E as [t' E]. vm_compute in E. discriminate.
Qed.

(** C8. The functions and the types extracted from one source text never
    come from the same line: no line number is carried both by a function
    record and by a type record.  A line is a function candidate when its
    trimmed form begins with [pub fn ], a type candidate when it begins
    with [pub const ], and no text begins with both. *)
Theorem functions_and_types_disjoint
        (unicode_isalnum : char -> bool) (content : str)
        (f : FunctionSignature) (t : TypeDefinition) :
  In f (extract_function_signatures unicode_isalnum content) ->
  In t (extract_structs_and_enums unicode_isalnum content) ->
  fn_line f <> ty_line t.
Proof.
  intros Hf Ht Heq.
  apply extract_function_signatures_In in Hf
    as (i & line & m & Hi & Hfn & _ & ->).
  apply extract_structs_and_enums_In in Ht
    as (i' & line' & m' & Hi' & Hty & _ & ->).
  cbn [fn_line function_record ty_line type_record] in Heq.
  assert (i' = i) as -> by lia.
  rewrite Hi in Hi'. injection Hi' as <-.
  unfold type_candidate in Hty.
  rewrite (pub_fn_not_pub_const _ Hfn) in Hty. discriminate.
Qed.

(** A file with one type and one function. *)
Lemma functions_and_types_disjoint_witness :
  let content := py "pub const Point = struct {" ++ nl
                 :: py "pub fn origin() Point {" in
  let f := {| fn_name := py "origin"; fn_params := [];
              fn_return_type := py "Point"; fn_documentation := [];
              fn_line := 2 |} in
  let t := {| ty_name := py "Point"; ty_type := py "struct";
              ty_documentation := []; ty_line := 1 |} in
  In f (extract_function_signatures (fun _ => false) content)
  /\ In t (extract_structs_and_enums (fun _ => false) content)
  /\ fn_line f <> ty_line t.
Proof.
  intros content f t.
  assert (Hf : In f (extract_function_signatures (fun _ => false) content))
    by (vm_compute; left; reflexivity).
  assert (Ht : In t (extract_structs_and_enums (fun _ => false) content))
    by (vm_compute; left; reflexivity).
  split; [exact Hf|]. split; [exact Ht|].
  exact (@functions_and_types_disjoint (fun _ => false) content f t Hf Ht).
Defined.

End Disjoint.

(** ** The comment extractor *)

Module Comments.

Lemma doc_comments_loop_spec (lines : list str) :
  forall doc_comments,
    doc_comments_loop lines doc_comments
    = doc_comments ++ map doc_text (filter doc_comment_line lines).
Proof.
  induction lines as [|line lines IH]; intro acc; cbn [doc_comments_loop].
  - simpl. now rewrite app_nil_r.
  - rewrite IH. cbn [filter]. unfold doc_comment_line, doc_text.
    destruct (startswith (strip line) module_doc_marker);
      [|destruct (startswith (strip line) item_doc_marker)];
      cbn [orb map]; rewrite <- ?app_assoc; reflexivity.
Qed.

Lemma strip_leading_space (s : str) :
  strip (chr " " :: s) = strip s.
Proof. reflexivity. Qed.

(** What is stored is the specification's text, trimmed. *)
Lemma doc_text_trims (line : str) :
  doc_text line = strip (Claimed.marker_prefix_removed (strip line)).
Proof.
  unfold doc_text, after_marker, Claimed.marker_prefix_removed.
  destruct (skipn 3 (strip line)) as [|c rest]; [reflexivity|].
  destruct (N.eqb_spec c (chr " ")) as [->|]; [|reflexivity].
  apply strip_leading_space.
Qed.

(** C4, as the code has it.  The comment extractor keeps the lines whose
    trimmed form begins with [//!] or [///], in source order, and stores
    for each the trimmed line without its three-character marker and with
    all the leading and trailing whitespace of the remainder removed:
    the text the specification describes, trimmed.  Lines that match
    neither marker contribute nothing, and a text without doc-comment
    lines gives the empty sequence. *)
Theorem doc_comments_are_trimmed_texts (content : str) :
  extract_doc_comments content
  = map (fun line => strip (skipn 3 (strip line)))
      (filter doc_comment_line (split_nl content))
  /\ (forall line,
        strip (skipn 3 (strip line))
        = strip (Claimed.marker_prefix_removed (strip line)))
  /\ (Forall (fun line => doc_comment_line line = false) (split_nl content)
      -> extract_doc_comments content = []).
Proof.
  assert (E : extract_doc_comments content
              = map doc_text (filter doc_comment_line (split_nl content)))
    by (unfold extract_doc_comments; now rewrite doc_comments_loop_spec).
  split; [exact E|]. split; [exact doc_text_trims|].
  rewrite E. clear E. generalize (split_nl content).
  intros lines Hnone.
  induction Hnone as [|line lines Hline _ IH]; [reflexivity|].
  cbn [filter]. rewrite Hline. exact IH.
Qed.

Lemma doc_comments_are_trimmed_texts_witness :
  let content := py "const std = @import(std);" ++ nl :: py "" ++ nl
                 :: py "// plain comment" in
  Forall (fun line => doc_comment_line line = false) (split_nl content)
  /\ extract_doc_comments content = [].
Proof.
  intro content.
  assert (Hs : split_nl content
               = [py "const std = @import(std);"; []; py "// plain comment"])
    by (vm_compute; reflexivity).
  assert (H : Forall (fun line => doc_comment_line line = false)
                (split_nl content))
    by (rewrite Hs; repeat (constructor; try (vm_compute; reflexivity))).
  split; [exact H|].
  exact (proj2 (proj2 (doc_comments_are_trimmed_texts content)) H).
Defined.

(** C4, as stated, fails on a comment whose text is indented by two
    spaces: the specification's text keeps the second space, the
    extractor stores the text without it. *)
Lemma doc_comment_text_counterexample :
  let line := py "///  indented" in
  doc_comment_line line = true
  /\ extract_doc_comments line = [py "indented"]
  /\ Claimed.marker_prefix_removed (strip line) = py " indented"
  /\ extract_doc_comments line
     <> [Claimed.marker_prefix_removed (strip line)].
Proof.
  intro line. repeat split; try (vm_compute; reflexivity).
  vm_compute. discriminate.
Qed.

End Comments.

(** ** A batch of source files *)

Module Batch.

Section Scan.
Variable unicode_isalnum : char -> bool.

Lemma scan_source_files_returns :
  forall files g,
    Forall (fun f => read_raises f = false) files ->
    scan_source_files unicode_isalnum files g
    = Returned
        {| api_docs :=
             fold_left (fun d kv => dict_set d (fst kv) (snd kv))
               (read_files unicode_isalnum files) (api_docs g);
           console :=
             console g
             ++ map (fun f => warning (sf_path f))
                  (filter decode_failed files) |}.
Proof.
  induction files as [|f files IH]; intros g Hok.
  - simpl. rewrite app_nil_r. now destruct g.
  - inversion Hok as [|? ? Hf Hfiles]; subst.
    cbn [scan_source_files read_files flat_map filter].
    unfold decode_failed, read_raises, process_source_file in *.
    destruct (sf_is_file f); cbn [andb] in *.
    + destruct (sf_read f); try discriminate.
      * rewrite IH by assumption.
        cbn [api_docs console app fold_left fst snd]. reflexivity.
      * rewrite IH by assumption. cbn [api_docs console app map].
        now rewrite <- app_assoc.
    + now rewrite IH.
Qed.

Lemma scan_source_files_raises :
  forall files g,
    Exists (fun f => read_raises f = true) files ->
    scan_source_files unicode_isalnum files g = Raises.
Proof.
  induction files as [|f files IH]; intros g Hbad.
  - inversion Hbad.
  - cbn [scan_source_files]. unfold process_source_file.
    destruct (read_raises f) eqn:Hf; unfold read_raises in Hf.
    + apply andb_prop in Hf as [-> Hf].
      destruct (sf_read f); try discriminate. reflexivity.
    + assert (Hrest : Exists (fun f => read_raises f = true) files).
      { inversion Hbad as [? ? H|]; subst; [|assumption].
        unfold read_raises in H. congruence. }
      destruct (sf_is_file f); [|now apply IH].
      destruct (sf_read f); try discriminate; now apply IH.
Qed.

End Scan.




End Batch.

(** ** The API reference renderer *)

Module Renderer.

(** A loop that only appends to [markdown] writes the same text whatever
    was written before it. *)
Lemma fold_left_appends {A} (f : str -> A -> str) :
  (forall markdown x, f markdown x = markdown ++ f [] x) ->
  forall l markdown, fold_left f l markdown = markdown ++ flat_map (f []) l.
Proof.
  intros Hf. induction l as [|x l IH]; intro markdown; simpl.
  - now rewrite app_nil_r.
  - rewrite IH, Hf. now rewrite <- app_assoc.
Qed.

Lemma render_module_doc_appends markdown doc :
  render_module_doc markdown doc = markdown ++ render_module_doc [] doc.
Proof. destruct doc; simpl; [now rewrite app_nil_r|reflexivity]. Qed.

Lemma render_type_appends markdown type_info :
  render_type markdown type_info = markdown ++ render_type [] type_info.
Proof.
  unfold render_type. destruct (ty_documentation type_info);
    rewrite <- ?app_assoc; reflexivity.
Qed.

Lemma render_function_appends markdown func :
  render_function markdown func = markdown ++ render_function [] func.
Proof.
  unfold render_function. destruct (fn_documentation func);
    rewrite <- ?app_assoc; reflexivity.
Qed.

Lemma render_file_appends markdown file_info :
  render_file markdown file_info = markdown ++ render_file [] file_info.
Proof.
  unfold render_file.
  destruct (is_empty (fr_module_docs file_info)
            && is_empty (fr_functions file_info)
            && is_empty (fr_types file_info));
    [now rewrite app_nil_r|].
  rewrite !(fold_left_appends render_module_doc render_module_doc_appends).
  rewrite !(fold_left_appends render_type render_type_appends).
  rewrite !(fold_left_appends render_function render_function_appends).
  destruct (is_empty (fr_module_docs file_info)),
    (is_empty (fr_types file_info)), (is_empty (fr_functions file_info));
    rewrite <- ?app_assoc; reflexivity.
Qed.

End Renderer.

(** ** The chapter assembler *)

Module Assembly.

(** The loop over the chapters either writes one section per chapter, in
    order, or is left at a chapter path that makes it stop. *)
Lemma chapters_loop_outcome (dir : directory) :
  forall chapters i f,
    (exists sections,
        Forall2 (fun p section => is_section dir (fst p) (snd p) section)
          (combine (List.seq i (length chapters)) chapters) sections
        /\ chapters_loop dir i chapters f = Completed (f ++ concat sections))
    \/ (exists filename title f',
          In (filename, title) chapters
          /\ stops (dir filename) = true
          /\ chapters_loop dir i chapters f = Aborted f').
Proof.
  induction chapters as [|[filename title] chapters IH]; intros i f.
  - left. exists []. split; [constructor|]. simpl. now rewrite app_nil_r.
  - cbn [chapters_loop]. destruct (dir filename) eqn:E.
    + destruct (IH (S i) (f ++ not_found i filename title))
        as [(sections & Hs & Eq)|(fn & t & f' & Hin & Hu & Eq)].
      * left. exists (not_found i filename title :: sections). split.
        -- cbn [length List.seq combine]. constructor; [|exact Hs].
           unfold is_section. cbn [fst snd]. now rewrite E.
        -- rewrite Eq. cbn [concat]. now rewrite <- app_assoc.
      * right. exists fn, t, f'. repeat split; auto. now right.
    + destruct (IH (S i)
                  (((f ++ heading i title) ++ chapter_body content)
                   ++ separator))
        as [(sections & Hs & Eq)|(fn & t & f' & Hin & Hu & Eq)].
      * left.
        exists ((heading i title ++ chapter_body content ++ separator)
                  :: sections).
        split.
        -- cbn [length List.seq combine]. constructor; [|exact Hs].
           unfold is_section. cbn [fst snd]. now rewrite E.
        -- rewrite Eq. cbn [concat]. now rewrite <- !app_assoc.
      * right. exists fn, t, f'. repeat split; auto. now right.
    + right. exists filename, title, (f ++ heading i title).
      rewrite E. repeat split; auto. now left.
    + right. exists filename, title, f.
      rewrite E. repeat split; auto. now left.
Qed.

Lemma chapters_loop_completes (dir : directory) (chapters : list (str * str))
      (i : nat) (f : str) :
  (forall filename title,
      In (filename, title) chapters -> stops (dir filename) = false) ->
  exists sections,
    Forall2 (fun p section => is_section dir (fst p) (snd p) section)
      (combine (List.seq i (length chapters)) chapters) sections
    /\ chapters_loop dir i chapters f = Completed (f ++ concat sections).
Proof.
  intro Hok.
  destruct (chapters_loop_outcome dir chapters i f)
    as [H|(fn & t & f' & Hin & Hu & _)]; [exact H|].
  rewrite (Hok fn t Hin) in Hu. discriminate Hu.
Qed.

Lemma sections_length (dir : directory) (chapters : list (str * str))
      (i : nat) (sections : list str) :
  Forall2 (fun p section => is_section dir (fst p) (snd p) section)
    (combine (List.seq i (length chapters)) chapters) sections ->
  length sections = length chapters.
Proof.
  intro H. apply Forall2_length in H. rewrite <- H, length_combine.
  rewrite length_seq. apply Nat.min_id.
Qed.

Lemma sections_nth (dir : directory) (chapters : list (str * str))
      (i k : nat) (sections : list str) (chapter : str * str) :
  Forall2 (fun p section => is_section dir (fst p) (snd p) section)
    (combine (List.seq i (length chapters)) chapters) sections ->
  nth_error chapters k = Some chapter ->
  exists section,
    nth_error sections k = Some section
    /\ is_section dir (i + k) chapter section.
Proof.
  revert i k sections.
  induction chapters as [|c chapters IH]; intros i k sections H Hk.
  - destruct k; discriminate.
  - cbn [length List.seq combine] in H.
    inversion H as [|? s ? sections' Hc Hrest]; subst.
    destruct k as [|k]; cbn [nth_error] in *.
    + injection Hk as <-. exists s. rewrite Nat.add_0_r. auto.
    + destruct (IH (S i) k sections' Hrest Hk) as (section & Hn & Hs).
      exists section. rewrite Nat.add_succ_r. auto.
Qed.

(** Whatever the loop meets, it only adds to the text written so far. *)
Lemma chapters_loop_extends (dir : directory) :
  forall chapters i f,
    exists later, text_written (chapters_loop dir i chapters f) = f ++ later.
Proof.
  induction chapters as [|[filename title] chapters IH]; intros i f;
    cbn [chapters_loop].
  - exists []. cbn [text_written]. now rewrite app_nil_r.
  - destruct (dir filename) as [|content| |].
    + destruct (IH (S i) (f ++ not_found i filename title)) as (later & ->).
      eexists. rewrite <- app_assoc. reflexivity.
    + destruct (IH (S i) (((f ++ heading i title) ++ chapter_body content)
                          ++ separator)) as (later & ->).
      eexists. rewrite <- !app_assoc. reflexivity.
    + eexists. reflexivity.
    + exists []. cbn [text_written]. now rewrite app_nil_r.
Qed.

(** The chapters that come before the first one that makes the loop stop
    get their sections. *)
Lemma chapters_loop_app (dir : directory) :
  forall before after i f,
    (forall filename title,
        In (filename, title) before -> stops (dir filename) = false) ->
    exists sections,
      Forall2 (fun p section => is_section dir (fst p) (snd p) section)
        (combine (List.seq i (length before)) before) sections
      /\ chapters_loop dir i (before ++ after) f
         = chapters_loop dir (i + length before) after
             (f ++ concat sections).
Proof.
  induction before as [|[filename title] before IH]; intros after i f Hok.
  - exists []. split; [constructor|].
    cbn [app length concat]. now rewrite Nat.add_0_r, app_nil_r.
  - assert (Hhere : stops (dir filename) = false)
      by (apply (Hok filename title); now left).
    assert (Hrest : forall fn t, In (fn, t) before -> stops (dir fn) = false)
      by (intros fn t Hin; apply (Hok fn t); now right).
    cbn [app chapters_loop length List.seq combine].
    destruct (dir filename) as [|content| |] eqn:E; try discriminate Hhere.
    + destruct (IH after (S i) (f ++ not_found i filename title) Hrest)
        as (sections & Hs & ->).
      exists (not_found i filename title :: sections). split.
      * constructor; [|exact Hs]. unfold is_section. cbn [fst snd].
        now rewrite E.
      * cbn [concat]. rewrite <- app_assoc, Nat.add_succ_r. reflexivity.
    + destruct (IH after (S i)
                  (((f ++ heading i title) ++ chapter_body content)
                   ++ separator) Hrest) as (sections & Hs & ->).
      exists ((heading i title ++ chapter_body content ++ separator)
                :: sections).
      split.
      * constructor; [|exact Hs]. unfold is_section. cbn [fst snd].
        now rewrite E.
      * cbn [concat]. rewrite <- !app_assoc, Nat.add_succ_r. reflexivity.
Qed.

Lemma before_nth {A} (l : list A) (k : nat) (x : A) :
  nth_error l k = Some x ->
  l = firstn k l ++ x :: skipn (S k) l /\ length (firstn k l) = k.
Proof.
  revert k. induction l as [|a l IH]; intros [|k] H; try discriminate.
  - injection H as ->. auto.
  - cbn [nth_error] in H. destruct (IH k H) as [E L].
    split; [|cbn [firstn length]; now rewrite L].
    change (a :: l = a :: (firstn k l ++ x :: skipn (S k) l)).
    f_equal. exact E.
Qed.

Lemma In_firstn_nth {A} (l : list A) (k : nat) (x : A) :
  In x (firstn k l) -> exists j, j < k /\ nth_error l j = Some x.
Proof.
  revert k. induction l as [|a l IH]; intros [|k] H; cbn [firstn] in H;
    try contradiction.
  destruct H as [->|H].
  - exists 0. split; [lia|reflexivity].
  - destruct (IH k H) as (j & Hj & Hn). exists (S j). split; [lia|exact Hn].
Qed.

(** C5. When every chapter path of the registry can be checked for
    existence and every chapter that exists can be read, the assembler
    writes the front matter and then exactly one section per entry of the
    chapter registry, in the order of the registry, each under the heading
    numbered by the ordinal of its entry.  The section of a chapter whose
    file is missing is that heading followed by the notice
    [*Chapter not found: <filename>*] and the separator; an assembly that
    meets missing chapters only completes. *)
Theorem one_section_per_chapter
        (lower : str -> str) (dir : directory) (timestamp : str)
        (chapters : list (str * str)) :
  (forall filename title,
      In (filename, title) chapters -> stops (dir filename) = false) ->
  exists sections,
    length sections = length chapters
    /\ Forall2 (fun p section => is_section dir (fst p) (snd p) section)
         (combine (List.seq 1 (length chapters)) chapters) sections
    /\ (forall k filename title,
          nth_error chapters k = Some (filename, title) ->
          dir filename = Missing ->
          nth_error sections k
          = Some (heading (k + 1) title
                  ++ py "*Chapter not found: " ++ filename ++ py "*"
                  ++ nlnl ++ py "---" ++ nlnl))
    /\ generate_combined_markdown lower dir timestamp chapters
       = Completed (front_matter lower timestamp chapters
                    ++ concat sections).
Proof.
  intro Hok. unfold generate_combined_markdown.
  destruct (@chapters_loop_completes dir chapters 1
              (front_matter lower timestamp chapters) Hok)
    as (sections & Hs & Eq).
  exists sections. split; [eapply sections_length; exact Hs|].
  split; [exact Hs|]. split; [|exact Eq].
  intros k filename title Hk Hmissing.
  destruct (@sections_nth dir chapters 1 k sections (filename, title)
              Hs Hk) as (section & Hn & Hsec).
  unfold is_section in Hsec. cbn [fst snd] in Hsec.
  rewrite Hmissing in Hsec. etransitivity; [exact Hn|].
  rewrite Hsec, (Nat.add_comm 1 k). reflexivity.
Qed.

(** With no chapter file at all the book of the default registry is made
    of its eleven placeholder sections. *)
Lemma one_section_per_chapter_witness :
  (forall filename title,
      In (filename, title) default_chapters ->
      stops (empty_dir filename) = false)
  /\ nth_error default_chapters 10
     = Some (py "10-appendix.md", py "Appendix")
  /\ empty_dir (py "10-appendix.md") = Missing
  /\ exists sections,
       length sections = 11
       /\ nth_error sections 10
          = Some (py "# 11. Appendix" ++ nlnl
                  ++ py "*Chapter not found: 10-appendix.md*" ++ nlnl
                  ++ py "---" ++ nlnl)
       /\ generate_combined_markdown ascii_lower empty_dir
            (py "2025-01-01 00:00:00") default_chapters
          = Completed (front_matter ascii_lower (py "2025-01-01 00:00:00")
                         default_chapters ++ concat sections).
Proof.
  assert (Hok : forall filename title,
             In (filename, title) default_chapters ->
             stops (empty_dir filename) = false)
    by (intros; reflexivity).
  split; [exact Hok|]. split; [reflexivity|]. split; [reflexivity|].
  destruct (one_section_per_chapter ascii_lower empty_dir
              (py "2025-01-01 00:00:00") default_chapters Hok)
    as (sections & Hlen & _ & Hmissing & Eq).
  exists sections. split; [exact Hlen|]. split; [|exact Eq].
  exact (Hmissing 10 (py "10-appendix.md") (py "Appendix")
           eq_refl eq_refl).
Defined.

(** C5, as stated, fails in a directory whose first chapter path exists
    and cannot be read (it is a directory): the exception raised by [open]
    leaves the assembler after the first heading, the call does not
    return, and the second chapter, whose file is missing, gets neither
    heading nor notice. *)
Lemma unreadable_chapter_ends_book :
  let book := generate_combined_markdown ascii_lower blocked_dir
                (py "2025-01-01 00:00:00") scenario_chapters in
  blocked_dir (py "a.md") = Unreadable
  /\ blocked_dir (py "b.md") = Missing
  /\ book = Aborted (front_matter ascii_lower (py "2025-01-01 00:00:00")
                       scenario_chapters ++ py "# 1. Intro" ++ nlnl)
  /\ contains (py "# 2. Setup") (text_written book) = false
  /\ contains (py "Chapter not found") (text_written book) = false
  /\ forall sections,
       book <> Completed (front_matter ascii_lower
                            (py "2025-01-01 00:00:00") scenario_chapters
                          ++ concat sections).
Proof.
  intro book. repeat split; try (vm_compute; reflexivity).
  intros sections H. vm_compute in H. discriminate H.
Qed.

(** C7. The section of a chapter whose file exists and can be read is
    written whenever no chapter before it makes the assembler stop: the
    output then holds, behind the front matter and the sections of the
    earlier chapters, the numbered heading of the chapter, the content of
    its file and the separator; the first line of the content is left out
    exactly when it starts with [#], the rest being kept as it is.  When
    no chapter at all makes the assembler stop, the assembly completes
    and the section is the one of the chapter's ordinal.  In the scenario
    of a sole existing chapter with content [# A], [Hello], the section
    holds [Hello] without the line [# A]. *)
Theorem existing_chapter_reproduced
        (lower : str -> str) (dir : directory) (timestamp : str)
        (chapters : list (str * str)) (k : nat)
        (filename title content : str) :
  nth_error chapters k = Some (filename, title) ->
  dir filename = Chapter content ->
  (forall j fn t,
      j < k -> nth_error chapters j = Some (fn, t) ->
      stops (dir fn) = false) ->
  (exists earlier later,
      Forall2 (fun p section => is_section dir (fst p) (snd p) section)
        (combine (List.seq 1 k) (firstn k chapters)) earlier
      /\ text_written
           (generate_combined_markdown lower dir timestamp chapters)
         = front_matter lower timestamp chapters ++ concat earlier
           ++ (heading (k + 1) title ++ chapter_body content ++ separator)
           ++ later)
  /\ ((forall fn t, In (fn, t) chapters -> stops (dir fn) = false) ->
      exists sections,
        generate_combined_markdown lower dir timestamp chapters
        = Completed (front_matter lower timestamp chapters
                     ++ concat sections)
        /\ length sections = length chapters
        /\ nth_error sections k
           = Some (heading (k + 1) title ++ chapter_body content
                   ++ separator))
  /\ (forall first others,
        split_nl content = first :: others ->
        chapter_body content
        = if startswith first (py "#") then join_nl others else content)
  /\ chapter_body (py "# A" ++ nl :: py "Hello") = py "Hello".
Proof.
  intros Hk Hfile Hbefore. split; [|split; [|split]].
  - destruct (before_nth _ _ Hk) as [Esplit Elen].
    assert (Hok : forall fn t,
               In (fn, t) (firstn k chapters) -> stops (dir fn) = false).
    { intros fn t Hin. apply In_firstn_nth in Hin as (j & Hj & Hn).
      exact (Hbefore j fn t Hj Hn). }
    unfold generate_combined_markdown.
    generalize (front_matter lower timestamp chapters) as f. intro f.
    replace (chapters_loop dir 1 chapters f)
      with (chapters_loop dir 1 (firstn k chapters
                                 ++ (filename, title)
                                 :: skipn (S k) chapters) f)
      by (now rewrite <- Esplit).
    destruct (@chapters_loop_app dir (firstn k chapters)
                ((filename, title) :: skipn (S k) chapters) 1 f Hok)
      as (earlier & Hs & ->).
    rewrite Elen in Hs. rewrite Elen.
    cbn [chapters_loop]. rewrite Hfile.
    match goal with
    | |- context [chapters_loop dir ?i ?rest ?written] =>
        destruct (chapters_loop_extends dir rest i written) as (later & ->)
    end.
    exists earlier, later. split; [exact Hs|].
    rewrite (Nat.add_comm k 1), <- !app_assoc. reflexivity.
  - intro Hok.
    destruct (@chapters_loop_completes dir chapters 1
                (front_matter lower timestamp chapters) Hok)
      as (sections & Hs & Eq).
    exists sections. split; [exact Eq|].
    split; [eapply sections_length; exact Hs|].
    destruct (@sections_nth dir chapters 1 k sections (filename, title)
                Hs Hk) as (section & Hn & Hsec).
    unfold is_section in Hsec. cbn [fst snd] in Hsec.
    rewrite Hfile in Hsec. etransitivity; [exact Hn|].
    rewrite Hsec, (Nat.add_comm 1 k). reflexivity.
  - intros first others Hsplit. unfold chapter_body. now rewrite Hsplit.
  - vm_compute. reflexivity.
Qed.

(** The scenario: of two chapters the first exists. *)
Lemma existing_chapter_reproduced_witness :
  nth_error scenario_chapters 0 = Some (py "a.md", py "Intro")
  /\ scenario_dir (py "a.md") = Chapter (py "# A" ++ nl :: py "Hello")
  /\ (forall j fn t,
        j < 0 -> nth_error scenario_chapters j = Some (fn, t) ->
        stops (scenario_dir fn) = false)
  /\ (forall fn t,
        In (fn, t) scenario_chapters -> stops (scenario_dir fn) = false)
  /\ exists sections,
       generate_combined_markdown ascii_lower scenario_dir
         (py "2025-01-01 00:00:00") scenario_chapters
       = Completed (front_matter ascii_lower (py "2025-01-01 00:00:00")
                      scenario_chapters ++ concat sections)
       /\ length sections = 2
       /\ nth_error sections 0
          = Some (py "# 1. Intro" ++ nlnl ++ py "Hello" ++ nlnl
                  ++ py "---" ++ nlnl).
Proof.
  assert (Hk : nth_error scenario_chapters 0 = Some (py "a.md", py "Intro"))
    by reflexivity.
  assert (Hfile : scenario_dir (py "a.md")
                  = Chapter (py "# A" ++ nl :: py "Hello"))
    by reflexivity.
  assert (Hbefore : forall j fn t,
             j < 0 -> nth_error scenario_chapters j = Some (fn, t) ->
             stops (scenario_dir fn) = false)
    by (intros j fn t Hj; lia).
  assert (Hok : forall fn t,
             In (fn, t) scenario_chapters ->
             stops (scenario_dir fn) = false).
  { intros fn t [H|[H|[]]]; injection H as <- <-; reflexivity. }
  split; [exact Hk|]. split; [exact Hfile|]. split; [exact Hbefore|].
  split; [exact Hok|].
  exact (proj1 (proj2 (@existing_chapter_reproduced ascii_lower scenario_dir
                         (py "2025-01-01 00:00:00") scenario_chapters 0
                         (py "a.md") (py "Intro")
                         (py "# A" ++ nl :: py "Hello")
                         Hk Hfile Hbefore)) Hok).
Defined.

(** C7, as stated, fails for a chapter file that exists behind a chapter
    path that cannot be read: the assembler is left at the first chapter
    and the content of the second is never written, neither under its
    heading nor anywhere else. *)
Lemma chapter_behind_unreadable_not_reproduced :
  let book := generate_combined_markdown ascii_lower behind_blocked_dir
                (py "2025-01-01 00:00:00") scenario_chapters in
  nth_error scenario_chapters 1 = Some (py "b.md", py "Setup")
  /\ behind_blocked_dir (py "b.md") = Chapter (py "# B" ++ nl :: py "World")
  /\ book = Aborted (front_matter ascii_lower (py "2025-01-01 00:00:00")
                       scenario_chapters ++ py "# 1. Intro" ++ nlnl)
  /\ contains (py "# 2. Setup") (text_written book) = false
  /\ contains (py "World") (text_written book) = false.
Proof.
  intro book. repeat split; vm_compute; reflexivity.
Qed.

(** The whole book of the scenario: title block, table of contents with
    two entries, the section of the chapter that exists, the placeholder
    of the one that does not. *)
Example scenario_book :
  generate_combined_markdown ascii_lower scenario_dir
    (py "2025-01-01 00:00:00") scenario_chapters
  = Completed
      (py "# zctor Documentation Book" ++ nlnl
       ++ py "A comprehensive guide to the zctor actor framework for Zig."
       ++ nlnl
       ++ py "*Generated on 2025-01-01 00:00:00*" ++ nlnl
       ++ py "---" ++ nlnl
       ++ py "## Table of Contents" ++ nlnl
       ++ py "1. [Intro](#intro)" ++ [nl]
       ++ py "2. [Setup](#setup)" ++ [nl]
       ++ [nl] ++ py "---" ++ nlnl
       ++ py "# 1. Intro" ++ nlnl
       ++ py "Hello" ++ nlnl ++ py "---" ++ nlnl
       ++ py "# 2. Setup" ++ nlnl
       ++ py "*Chapter not found: b.md*" ++ nlnl ++ py "---" ++ nlnl).
Proof. vm_compute. reflexivity. Qed.

(** A chapter path whose existence cannot be checked stops the assembler
    before the heading of the chapter: only the front matter is
    written. *)
Example inaccessible_chapter_book :
  generate_combined_markdown ascii_lower guarded_dir
    (py "2025-01-01 00:00:00") scenario_chapters
  = Aborted (front_matter ascii_lower (py "2025-01-01 00:00:00")
               scenario_chapters).
Proof. vm_compute. reflexivity. Qed.

(** The book, unlike the API reference, carries the reading of the
    clock. *)
Example book_depends_on_clock :
  generate_combined_markdown ascii_lower empty_dir
    (py "2025-01-01 00:00:00") []
  <> generate_combined_markdown ascii_lower empty_dir
       (py "2025-01-01 00:00:01") [].
Proof. vm_compute. discriminate. Qed.

End Assembly.

(** * Further properties of the extraction engine *)

(** ** Matching in order of preference *)

Module RePriority.

Lemma run_lit (R : Type) (p rest : str) g (k : str -> list str -> option R) :
  run (lit p) (p ++ rest) g k = k rest g.
Proof.
  induction p as [|c p IH]; simpl; [reflexivity|].
  now rewrite N.eqb_refl.
Qed.

(** A greedy repetition takes the whole run of the class when what follows
    the run matches. *)
Lemma rep_greedy_take (R : Type) cls (k : str -> option R) (x : R) :
  forall w n rest,
    Forall (fun c => cls c = true) w ->
    n <= length w ->
    (forall c, hd_error rest = Some c -> cls c = false) ->
    k rest = Some x ->
    rep_greedy cls n (w ++ rest) k = Some x.
Proof.
  induction w as [|c w IH]; intros n rest Hw Hn Hrest Hk.
  - simpl in Hn. assert (n = 0) as -> by lia. simpl.
    destruct rest as [|c rest]; [exact Hk|].
    simpl. rewrite (Hrest c eq_refl). exact Hk.
  - inversion Hw as [|? ? Hc Hw']; subst. simpl in *. rewrite Hc.
    rewrite (IH (pred n) rest) by (auto; lia). reflexivity.
Qed.

(** A lazy repetition stops at the first place where what follows
    matches. *)
Lemma rep_lazy_first (R : Type) cls (k : str -> option R) (x : R) :
  forall w rest,
    Forall (fun c => cls c = true) w ->
    (forall w1 c w2, w = w1 ++ c :: w2 -> k (c :: w2 ++ rest) = None) ->
    k rest = Some x ->
    rep_lazy cls 0 (w ++ rest) k = Some x.
Proof.
  induction w as [|c w IH]; intros rest Hw Hearly Hk.
  - simpl. destruct rest; simpl; now rewrite Hk.
  - inversion Hw as [|? ? Hc Hw']; subst.
    cbn [app rep_lazy pred].
    rewrite (Hearly [] c w eq_refl). cbn [orelse]. rewrite Hc.
    apply IH; auto.
    intros w1 c' w2 ->. exact (Hearly (c :: w1) c' w2 eq_refl).
Qed.

(** Conversely, where a lazy repetition stopped, no earlier stop was
    possible. *)
Lemma rep_lazy_sound_first (R : Type) cls (k : str -> option R) (x : R) :
  forall s,
    rep_lazy cls 0 s k = Some x ->
    exists w rest,
      s = w ++ rest
      /\ Forall (fun c => cls c = true) w
      /\ k rest = Some x
      /\ forall w1 c w2, w = w1 ++ c :: w2 -> k (c :: w2 ++ rest) = None.
Proof.
  induction s as [|c s IH]; intro H.
  - simpl in H. exists [], []. repeat split; auto.
    + destruct (k []); simpl in H; congruence.
    + intros [|? ?] ? ? E; discriminate E.
  - cbn [rep_lazy pred] in H.
    destruct (k (c :: s)) as [y|] eqn:Hk; cbn [orelse] in H.
    + exists [], (c :: s). repeat split; auto; [congruence|].
      intros [|? ?] ? ? E; discriminate E.
    + destruct (cls c) eqn:Hc; [|discriminate].
      destruct (IH H) as (w & rest & -> & Hw & Hrest & Hearly).
      exists (c :: w), rest. repeat split; auto.
      intros [|c1 w1] c' w2 E; injection E as -> ->.
      * exact Hk.
      * exact (Hearly w1 c' w2 eq_refl).
Qed.

(** An optional greedy repetition matches when what follows it can match
    without it. *)
Lemma rep_greedy_succeeds (R : Type) cls (k : str -> option R) (s : str) :
  k s <> None -> rep_greedy cls 0 s k <> None.
Proof.
  intro Hk. destruct s as [|c s]; simpl; [exact Hk|].
  destruct (cls c); [|exact Hk].
  destruct (rep_greedy cls 0 s k); simpl; [discriminate|exact Hk].
Qed.

(** A lazy repetition over text of its class matches when what follows it
    matches the empty text. *)
Lemma rep_lazy_succeeds (R : Type) cls (k : str -> option R) :
  k [] <> None ->
  forall s, Forall (fun c => cls c = true) s -> rep_lazy cls 0 s k <> None.
Proof.
  intros Hk. induction s as [|c s IH]; intro Hs.
  - simpl. destruct (k []); [discriminate|contradiction].
  - inversion Hs as [|? ? Hc Hs']; subst. cbn [rep_lazy pred].
    destruct (k (c :: s)); cbn [orelse]; [discriminate|].
    rewrite Hc. now apply IH.
Qed.

(** *** One step of a sequence *)

Lemma run_Cat_sound (R : Type) a rest_re s g
      (k : str -> list str -> option R) (x : R) :
  run (Cat a rest_re) s g k = Some x ->
  exists w rest gs,
    s = w ++ rest /\ matches a w rest gs
    /\ run rest_re rest (g ++ gs) k = Some x.
Proof. intro H. cbn [run] in H. now apply run_sound in H. Qed.

Lemma run_Cat_lazy_group_sound (R : Type) cls rest_re s g
      (k : str -> list str -> option R) (x : R) :
  run (Cat (Grp (Rep false 0 cls)) rest_re) s g k = Some x ->
  exists w rest,
    s = w ++ rest
    /\ Forall (fun c => cls c = true) w
    /\ run rest_re rest (g ++ [w]) k = Some x
    /\ forall w1 c w2,
         w = w1 ++ c :: w2 ->
         run rest_re (c :: w2 ++ rest) (g ++ [w1]) k = None.
Proof.
  intro H. cbn [run] in H.
  apply rep_lazy_sound_first in H as (w & rest & -> & Hw & Hk & Hearly).
  rewrite consumed_app in Hk.
  exists w, rest. repeat split; auto.
  intros w1 c w2 ->. specialize (Hearly w1 c w2 eq_refl).
  rewrite <- app_assoc in Hearly. cbn [app] in Hearly.
  now rewrite consumed_app in Hearly.
Qed.

Lemma run_Cat_lit (R : Type) p rest_re rest g
      (k : str -> list str -> option R) :
  run (Cat (lit p) rest_re) (p ++ rest) g k = run rest_re rest g k.
Proof. cbn [run]. apply run_lit. Qed.

Lemma run_Cat_Chr (R : Type) c rest_re rest g
      (k : str -> list str -> option R) :
  run (Cat (Chr c) rest_re) (c :: rest) g k = run rest_re rest g k.
Proof. cbn [run]. now rewrite N.eqb_refl. Qed.

Lemma run_Cat_greedy (R : Type) cls n rest_re w rest g
      (k : str -> list str -> option R) (x : R) :
  Forall (fun c => cls c = true) w ->
  n <= length w ->
  (forall c, hd_error rest = Some c -> cls c = false) ->
  run rest_re rest g k = Some x ->
  run (Cat (Rep true n cls) rest_re) (w ++ rest) g k = Some x.
Proof. intros. cbn [run]. now apply rep_greedy_take. Qed.

Lemma run_Cat_greedy_group (R : Type) cls n rest_re w rest g
      (k : str -> list str -> option R) (x : R) :
  Forall (fun c => cls c = true) w ->
  n <= length w ->
  (forall c, hd_error rest = Some c -> cls c = false) ->
  run rest_re rest (g ++ [w]) k = Some x ->
  run (Cat (Grp (Rep true n cls)) rest_re) (w ++ rest) g k = Some x.
Proof.
  intros. cbn [run]. apply rep_greedy_take; auto.
  now rewrite consumed_app.
Qed.

Lemma run_Cat_lazy_group (R : Type) cls rest_re w rest g
      (k : str -> list str -> option R) (x : R) :
  Forall (fun c => cls c = true) w ->
  (forall w1 c w2,
      w = w1 ++ c :: w2 ->
      run rest_re (c :: w2 ++ rest) (g ++ [w1]) k = None) ->
  run rest_re rest (g ++ [w]) k = Some x ->
  run (Cat (Grp (Rep false 0 cls)) rest_re) (w ++ rest) g k = Some x.
Proof.
  intros Hw Hearly Hk. cbn [run]. apply rep_lazy_first; auto.
  - intros w1 c w2 ->. rewrite <- app_assoc. cbn [app].
    rewrite consumed_app. now apply Hearly.
  - now rewrite consumed_app.
Qed.

End RePriority.
Import RePriority.

(** ** What the function pattern captures *)

Module Pattern.

(** Membership in a text given as a concatenation. *)
Ltac in_parts :=
  repeat (first [rewrite in_app_iff in * | progress cbn [In] in *]); tauto.

Lemma no_nl_dot (s : str) : ~ In nl s -> Forall (fun c => dot c = true) s.
Proof.
  intro H. apply Forall_forall. intros c Hc. unfold dot.
  destruct (N.eqb_spec c nl) as [->|]; [contradiction|reflexivity].
Qed.

Lemma close_at_brace (g : list str) (t : str) :
  run (Cat (Alt (Chr (chr "{")) Eos) Eps) (chr "{" :: t) g
    (fun _ g' => Some g') = Some g.
Proof. reflexivity. Qed.

Lemma close_at_end (g : list str) :
  run (Cat (Alt (Chr (chr "{")) Eos) Eps) [] g (fun _ g' => Some g')
  = Some g.
Proof. reflexivity. Qed.

Lemma close_elsewhere (g : list str) (c : char) (t : str) :
  c <> chr "{" -> c <> nl ->
  run (Cat (Alt (Chr (chr "{")) Eos) Eps) (c :: t) g (fun _ g' => Some g')
  = None.
Proof.
  intros Hb Hn. cbn [run].
  destruct (N.eqb_spec c (chr "{")) as [|_]; [contradiction|].
  cbn [orelse]. destruct t; [|reflexivity].
  destruct (N.eqb_spec c nl); [contradiction|reflexivity].
Qed.

Lemma close_inv (g m : list str) (tail : str) :
  run (Cat (Alt (Chr (chr "{")) Eos) Eps) tail g (fun _ g' => Some g')
  = Some m ->
  m = g /\ (tail = [] \/ tail = [nl] \/ exists t, tail = chr "{" :: t).
Proof.
  intro H. cbn [run] in H. destruct tail as [|c t].
  - cbn [orelse] in H. injection H as <-. auto.
  - destruct (N.eqb_spec c (chr "{")) as [->|_].
    + cbn [orelse] in H. injection H as <-. eauto.
    + cbn [orelse] in H. destruct t; [|discriminate].
      destruct (N.eqb_spec c nl) as [E|]; [subst c|discriminate].
      injection H as <-. auto.
Qed.

(** After the closing parenthesis the rest of a line always matches. *)
Lemma tail_succeeds (g : list str) (s : str) :
  Forall (fun c => dot c = true) s ->
  run (Cat (Rep true 0 is_space)
         (Cat (Grp (Rep false 0 dot))
            (Cat (Alt (Chr (chr "{")) Eos) Eps))) s g
    (fun _ g' => Some g') <> None.
Proof.
  intro Hs. cbn [run]. apply rep_greedy_succeeds.
  apply rep_lazy_succeeds; [discriminate|exact Hs].
Qed.

Section Function.
Variable unicode_isalnum : char -> bool.

(** On a line without line feed, a match of the function pattern splits
    the line in one way only: the parameters end at the first closing
    parenthesis, the return type at the first opening brace. *)
Lemma func_re_groups (s : str) (m : list str) :
  ~ In nl s ->
  rmatch (func_re unicode_isalnum) s = Some m ->
  exists ws1 name ws2 params ws3 ret tail,
    s = py "pub fn" ++ ws1 ++ name ++ ws2
        ++ chr "(" :: params ++ chr ")" :: ws3 ++ ret ++ tail
    /\ m = [name; params; ret]
    /\ ws1 <> [] /\ name <> []
    /\ Forall (fun c => is_space c = true) (ws1 ++ ws2 ++ ws3)
    /\ Forall (fun c => is_word unicode_isalnum c = true) name
    /\ ~ In (chr ")") params
    /\ ~ In (chr "{") ret
    /\ (tail = [] \/ exists t, tail = chr "{" :: t).
Proof.
  intros Hnl H. unfold rmatch, func_re in H. cbn [seq fold_right] in H.
  apply run_Cat_sound in H as (p & ? & ? & -> & Hp & H).
  apply Omission.matches_lit in Hp as [-> ->].
  apply run_Cat_sound in H as (ws1 & ? & ? & -> & Hws1 & H).
  apply Omission.matches_Rep_inv in Hws1 as (-> & Fws1 & Lws1).
  apply run_Cat_sound in H as (name & ? & ? & -> & Hname & H).
  apply Omission.matches_Grp_Rep_inv in Hname as (-> & Fname & Lname).
  apply run_Cat_sound in H as (ws2 & ? & ? & -> & Hws2 & H).
  apply Omission.matches_Rep_inv in Hws2 as (-> & Fws2 & _).
  apply run_Cat_sound in H as (lp & ? & ? & -> & Hlp & H).
  apply Omission.matches_Chr_inv in Hlp as [-> ->].
  apply run_Cat_lazy_group_sound in H
    as (params & ? & -> & Fparams & H & Hearly_p).
  apply run_Cat_sound in H as (rp & rest3 & ? & -> & Hrp & H).
  apply Omission.matches_Chr_inv in Hrp as [-> ->].
  assert (Hrest3 : Forall (fun c => dot c = true) rest3).
  { apply no_nl_dot. intro Hin. apply Hnl. clear - Hin. in_parts. }
  apply run_Cat_sound in H as (ws3 & ? & ? & -> & Hws3 & H).
  apply Omission.matches_Rep_inv in Hws3 as (-> & Fws3 & _).
  apply run_Cat_lazy_group_sound in H
    as (ret & tail & -> & Fret & H & Hearly_r).
  apply close_inv in H as (-> & Htail).
  exists ws1, name, ws2, params, ws3, ret, tail.
  split; [repeat (progress (simpl; rewrite <- ?app_assoc, ?app_nil_r));
          reflexivity|].
  split; [reflexivity|].
  split; [intros ->; simpl in Lws1; lia|].
  split; [intros ->; simpl in Lname; lia|].
  split; [repeat (apply Forall_app; split); assumption|].
  split; [assumption|].
  split; [|split].
  - intro Hin. apply in_split in Hin as (w1 & w2 & ->).
    specialize (Hearly_p w1 (chr ")") w2 eq_refl).
    rewrite run_Cat_Chr in Hearly_p. revert Hearly_p. apply tail_succeeds.
    apply no_nl_dot. intro Hin. apply Hnl. clear - Hin. in_parts.
  - intro Hin. apply in_split in Hin as (w1 & w2 & ->).
    specialize (Hearly_r w1 (chr "{") w2 eq_refl).
    rewrite close_at_brace in Hearly_r. discriminate.
  - destruct Htail as [->|[->|Ht]]; auto.
    exfalso. apply Hnl. clear. in_parts.
Qed.

(** The Unicode database classifies no whitespace character as
    alphanumeric. *)
Hypothesis space_not_alnum :
  forall c, is_space c = true -> unicode_isalnum c = false.

Lemma space_not_word (c : char) :
  is_space c = true -> is_word unicode_isalnum c = false.
Proof.
  intro Hs. unfold is_word. destruct (N.ltb_spec c 128); [|auto].
  unfold is_space in Hs.
  rewrite !orb_true_iff, !andb_true_iff, !N.leb_le, !N.eqb_eq in Hs.
  apply not_true_is_false.
  rewrite !orb_true_iff, !andb_true_iff, !N.leb_le, !N.eqb_eq. lia.
Qed.

Lemma word_not_space (c : char) :
  is_word unicode_isalnum c = true -> is_space c = false.
Proof.
  intro Hw. destruct (is_space c) eqn:Hs; [|reflexivity].
  rewrite (space_not_word _ Hs) in Hw. discriminate.
Qed.

Lemma hd_word_not_space (name rest : str) (c : char) :
  name <> [] ->
  Forall (fun c => is_word unicode_isalnum c = true) name ->
  hd_error (name ++ rest) = Some c -> is_space c = false.
Proof.
  intros Hne Hname Hc. destruct name as [|c' name]; [congruence|].
  injection Hc as <-. inversion Hname; subst. now apply word_not_space.
Qed.

Lemma hd_space_paren_not_word (ws rest : str) (c : char) :
  Forall (fun c => is_space c = true) ws ->
  hd_error (ws ++ chr "(" :: rest) = Some c ->
  is_word unicode_isalnum c = false.
Proof.
  intros Hws Hc. destruct ws as [|c' ws].
  - injection Hc as <-. reflexivity.
  - injection Hc as <-. inversion Hws; subst. now apply space_not_word.
Qed.

(** A line of the single-line shape matches, and the pattern captures
    its name, its parameters up to the first closing parenthesis and its
    return type up to the first opening brace. *)
Lemma func_re_complete (ws1 name ws2 params ws3 ret tail : str) :
  ws1 <> [] -> name <> [] ->
  Forall (fun c => is_space c = true) ws1 ->
  Forall (fun c => is_word unicode_isalnum c = true) name ->
  Forall (fun c => is_space c = true) ws2 ->
  ~ In (chr ")") params -> ~ In nl params ->
  Forall (fun c => is_space c = true) ws3 ->
  ~ In (chr "{") ret -> ~ In nl ret ->
  (forall c, hd_error (ret ++ tail) = Some c -> is_space c = false) ->
  (tail = [] \/ exists t, tail = chr "{" :: t) ->
  rmatch (func_re unicode_isalnum)
    (py "pub fn" ++ ws1 ++ name ++ ws2
     ++ chr "(" :: params ++ chr ")" :: ws3 ++ ret ++ tail)
  = Some [name; params; ret].
Proof.
  intros Hws1 Hname Fws1 Fname Fws2 Hparams Nparams Fws3 Hret Nret Hhd Htail.
  unfold rmatch, func_re. cbn [seq fold_right].
  rewrite run_Cat_lit.
  apply run_Cat_greedy;
    [ exact Fws1
    | destruct ws1; [congruence|simpl; lia]
    | intros c Hc; eapply hd_word_not_space;
        [exact Hname | exact Fname | exact Hc]
    | ].
  apply run_Cat_greedy_group;
    [ exact Fname
    | destruct name; [congruence|simpl; lia]
    | intros c Hc; eapply hd_space_paren_not_word;
        [exact Fws2 | exact Hc]
    | ].
  apply run_Cat_greedy;
    [ exact Fws2
    | lia
    | intros c Hc; injection Hc as <-; reflexivity
    | ].
  rewrite run_Cat_Chr.
  apply run_Cat_lazy_group; [now apply no_nl_dot | | ].
  { intros w1 c w2 ->. cbn [run].
    destruct (N.eqb_spec c (chr ")")) as [E|]; [|reflexivity].
    exfalso. apply Hparams. subst c. clear. in_parts. }
  rewrite run_Cat_Chr.
  apply run_Cat_greedy; [exact Fws3 | lia | exact Hhd | ].
  apply run_Cat_lazy_group; [now apply no_nl_dot | | ].
  { intros w1 c w2 ->. apply close_elsewhere.
    - intros E. apply Hret. subst c. clear. in_parts.
    - intros E. apply Nret. subst c. clear. in_parts. }
  destruct Htail as [->|[t ->]]; reflexivity.
Qed.

End Function.

End Pattern.

(** ** Trimming *)

Module Trim.

Lemma lstrip_head (s : str) (c : char) (t : str) :
  lstrip s = c :: t -> is_space c = false.
Proof.
  induction s as [|c' s IH]; simpl; [discriminate|].
  destruct (is_space c') eqn:E; [exact IH|].
  intro H. injection H as <- _. exact E.
Qed.

Lemma lstrip_fixed (s : str) :
  (forall c, hd_error s = Some c -> is_space c = false) -> lstrip s = s.
Proof.
  destruct s as [|c s]; [reflexivity|]. intro H. simpl.
  now rewrite (H c eq_refl).
Qed.

Lemma lstrip_idem (s : str) : lstrip (lstrip s) = lstrip s.
Proof.
  apply lstrip_fixed. intros c Hc.
  destruct (lstrip s) as [|c' t] eqn:E; [discriminate|].
  injection Hc as <-. exact (lstrip_head _ E).
Qed.

Lemma lstrip_spaces (s : str) :
  exists p, s = p ++ lstrip s /\ Forall (fun c => is_space c = true) p.
Proof.
  induction s as [|c s (p & E & Hp)]; simpl.
  - exists []. auto.
  - destruct (is_space c) eqn:Hc.
    + exists (c :: p). simpl. split; [now f_equal|now constructor].
    + exists []. auto.
Qed.

(** Trimming a trimmed text changes nothing. *)
Lemma strip_idem (s : str) : strip (strip s) = strip s.
Proof.
  unfold strip, rstrip.
  set (t := lstrip s). set (u := lstrip (rev t)).
  assert (A : lstrip (rev u) = rev u).
  { apply lstrip_fixed. intros c Hc.
    destruct (lstrip_suffix (rev t)) as [p E]. fold u in E.
    assert (Et : t = rev u ++ rev p)
      by (rewrite <- rev_app_distr, <- E; symmetry; apply rev_involutive).
    destruct (rev u) as [|c' v]; [discriminate|]. injection Hc as <-.
    unfold t in Et. exact (lstrip_head _ Et). }
  rewrite A, rev_involutive. unfold u. now rewrite lstrip_idem.
Qed.

Lemma strip_lstrip (s : str) : strip (lstrip s) = strip s.
Proof. unfold strip. now rewrite lstrip_idem. Qed.

Lemma strip_no_nl (s : str) : ~ In nl s -> ~ In nl (strip s).
Proof. intros H Hin. apply H. now apply strip_In. Qed.

End Trim.
Import Trim.

(** ** Function records *)

Module Signatures.

Lemma line_no_nl (content : str) (i : nat) (line : str) :
  nth_error (split_nl content) i = Some line -> ~ In nl (strip line).
Proof.
  intro Hi. apply strip_no_nl.
  pose proof (split_nl_no_nl content) as H. rewrite Forall_forall in H.
  apply H. eapply nth_error_In. exact Hi.
Qed.

(** The fields of every function record are delimited texts of its line:
    the name is a non-empty run of word characters, the parameters hold no
    closing parenthesis (they end at the first one of the line, also when
    the parameter list itself contains parentheses), the return type holds
    no opening brace and has no whitespace around it, and no field holds a
    line feed. *)
Theorem function_fields_delimited
        (unicode_isalnum : char -> bool) (content : str)
        (r : FunctionSignature) :
  In r (extract_function_signatures unicode_isalnum content) ->
  fn_name r <> []
  /\ Forall (fun c => is_word unicode_isalnum c = true) (fn_name r)
  /\ ~ In (chr ")") (fn_params r)
  /\ ~ In (chr "{") (fn_return_type r)
  /\ strip (fn_return_type r) = fn_return_type r
  /\ ~ In nl (fn_name r) /\ ~ In nl (fn_params r)
  /\ ~ In nl (fn_return_type r).
Proof.
  intro Hr.
  apply extract_function_signatures_In in Hr
    as (i & line & m & Hi & _ & Hm & ->).
  pose proof (@line_no_nl _ _ _ Hi) as Hnl.
  destruct (@Pattern.func_re_groups unicode_isalnum _ _ Hnl Hm)
    as (ws1 & name & ws2 & params & ws3 & ret & tail
        & E & -> & _ & Hname & _ & Fname & Hparams & Hret & _).
  cbn [fn_name fn_params fn_return_type function_record group pred nth].
  rewrite E in Hnl.
  repeat split; auto.
  - intro Hin. apply Hret. now apply strip_In.
  - apply strip_idem.
  - intro Hin. apply Hnl. clear - Hin. Pattern.in_parts.
  - intro Hin. apply Hnl. clear - Hin. Pattern.in_parts.
  - intro Hin. apply strip_In in Hin. apply Hnl. clear - Hin.
    Pattern.in_parts.
Qed.

(** A callback parameter: the parameters stop inside it. *)
Lemma function_fields_delimited_witness :
  let content := py "pub fn on(ev: u8, cb: fn(u8) void) void {" in
  let r := {| fn_name := py "on"; fn_params := py "ev: u8, cb: fn(u8";
              fn_return_type := py "void) void";
              fn_documentation := []; fn_line := 1 |} in
  In r (extract_function_signatures (fun _ => false) content)
  /\ ~ In (chr ")") (fn_params r)
  /\ strip (fn_return_type r) = fn_return_type r.
Proof.
  intros content r.
  assert (Hin : In r (extract_function_signatures (fun _ => false) content))
    by (vm_compute; left; reflexivity).
  split; [exact Hin|].
  destruct (function_fields_delimited (fun _ => false) content r Hin)
    as (_ & _ & Hparams & _ & Htrim & _).
  split; [exact Hparams|exact Htrim].
Defined.

Lemma lstrip_app_spaces (ws s : str) :
  Forall (fun c => is_space c = true) ws -> lstrip (ws ++ s) = lstrip s.
Proof.
  induction 1 as [|c ws Hc _ IH]; [reflexivity|].
  cbn [app lstrip]. now rewrite Hc.
Qed.

(** A stripped line of the shape is matched by the pattern, which
    captures the name, the text up to the first closing parenthesis and
    the text behind it, without the whitespace before it, up to the first
    opening brace. *)
Lemma single_line_matches
      (unicode_isalnum : char -> bool)
      (stripped ws1 name ws2 params after tail : str) :
  (forall c, is_space c = true -> unicode_isalnum c = false) ->
  ~ In nl stripped ->
  stripped = py "pub fn " ++ ws1 ++ name ++ ws2
             ++ chr "(" :: params ++ chr ")" :: after ++ tail ->
  Forall (fun c => is_space c = true) ws1 ->
  name <> [] ->
  Forall (fun c => is_word unicode_isalnum c = true) name ->
  Forall (fun c => is_space c = true) ws2 ->
  ~ In (chr ")") params ->
  ~ In (chr "{") after ->
  (tail = [] \/ exists t, tail = chr "{" :: t) ->
  rmatch (func_re unicode_isalnum) stripped
  = Some [name; params; lstrip after].
Proof.
  intros Htbl Hnl E Fws1 Hname Fname Fws2 Hparams Hafter Htail.
  rewrite E in Hnl.
  destruct (lstrip_spaces after) as (ws3 & Eafter & Fws3).
  rewrite E, Eafter at 1.
  change (py "pub fn " ++ ws1 ++ name ++ ws2
          ++ chr "(" :: params ++ chr ")" :: (ws3 ++ lstrip after) ++ tail)
    with (py "pub fn" ++ (chr " " :: ws1) ++ name ++ ws2
          ++ chr "(" :: params ++ chr ")"
          :: (ws3 ++ lstrip after) ++ tail).
  rewrite <- (app_assoc ws3).
  apply Pattern.func_re_complete;
    [ exact Htbl | discriminate | exact Hname | now constructor
    | exact Fname | exact Fws2 | exact Hparams | | exact Fws3
    | | | | exact Htail ].
  - intro Hin. apply Hnl. clear - Hin. Pattern.in_parts.
  - intro Hin. apply Hafter. now apply lstrip_In.
  - intro Hin. apply lstrip_In in Hin. apply Hnl. clear - Hin.
    Pattern.in_parts.
  - intros c Hc. destruct (lstrip after) as [|c' t] eqn:El.
    + destruct Htail as [->|[t ->]]; [discriminate|].
      injection Hc as <-. reflexivity.
    + injection Hc as <-. exact (lstrip_head _ El).
Qed.

(** Every line of the single-line shape gives its record: when the
    trimmed line is [pub fn ], a name of word characters, an opening
    parenthesis, a text without closing parenthesis, a closing
    parenthesis and a text without opening brace that runs to the end of
    the line or to an opening brace, the extractor returns a record with
    that name, that text as parameters and the second text, trimmed, as
    return type. *)
Theorem single_line_function_extracted
        (unicode_isalnum : char -> bool) (content : str) (i : nat)
        (line ws1 name ws2 params after tail : str) :
  (forall c, is_space c = true -> unicode_isalnum c = false) ->
  nth_error (split_nl content) i = Some line ->
  strip line = py "pub fn " ++ ws1 ++ name ++ ws2
               ++ chr "(" :: params ++ chr ")" :: after ++ tail ->
  Forall (fun c => is_space c = true) ws1 ->
  name <> [] ->
  Forall (fun c => is_word unicode_isalnum c = true) name ->
  Forall (fun c => is_space c = true) ws2 ->
  ~ In (chr ")") params ->
  ~ In (chr "{") after ->
  (tail = [] \/ exists t, tail = chr "{" :: t) ->
  In {| fn_name := name; fn_params := params;
        fn_return_type := strip after;
        fn_documentation :=
          documentation_of (doc_lines_above (split_nl content) i);
        fn_line := i + 1 |}
     (extract_function_signatures unicode_isalnum content).
Proof.
  intros Htbl Hi E Fws1 Hname Fname Fws2 Hparams Hafter Htail.
  pose proof (@line_no_nl _ _ _ Hi) as Hnl.
  apply extract_function_signatures_In.
  exists i, line, [name; params; lstrip after].
  split; [exact Hi|]. split; [rewrite E; apply startswith_app|]. split.
  - exact (@single_line_matches unicode_isalnum (strip line) ws1 name ws2
             params after tail Htbl Hnl E Fws1 Hname Fname Fws2 Hparams
             Hafter Htail).
  - unfold function_record. cbn [group pred nth].
    now rewrite strip_lstrip.
Qed.

(** An indented declaration with spaces around its parts. *)
Lemma single_line_function_extracted_witness :
  let content := py "  pub fn  spawn (self: *Self)  !void {" in
  (forall c, is_space c = true -> (fun _ : char => false) c = false)
  /\ nth_error (split_nl content) 0 = Some content
  /\ strip content
     = py "pub fn " ++ py " " ++ py "spawn" ++ py " "
       ++ chr "(" :: py "self: *Self" ++ chr ")" :: py "  !void " ++ py "{"
  /\ In {| fn_name := py "spawn"; fn_params := py "self: *Self";
           fn_return_type := py "!void"; fn_documentation := [];
           fn_line := 1 |}
        (extract_function_signatures (fun _ => false) content).
Proof.
  intro content.
  assert (Htbl : forall c,
             is_space c = true -> (fun _ : char => false) c = false)
    by reflexivity.
  assert (Hi : nth_error (split_nl content) 0 = Some content)
    by (vm_compute; reflexivity).
  assert (E : strip content
              = py "pub fn " ++ py " " ++ py "spawn" ++ py " "
                ++ chr "(" :: py "self: *Self" ++ chr ")"
                :: py "  !void " ++ py "{")
    by (vm_compute; reflexivity).
  split; [exact Htbl|]. split; [exact Hi|]. split; [exact E|].
  apply (@single_line_function_extracted (fun _ => false) content 0 content
           (py " ") (py "spawn") (py " ") (py "self: *Self")
           (py "  !void ") (py "{") Htbl Hi E).
  - repeat constructor.
  - discriminate.
  - repeat constructor.
  - repeat constructor.
  - cbv. intuition discriminate.
  - cbv. intuition discriminate.
  - right. exists []. reflexivity.
Defined.

(** *** Source order *)

Lemma sorted_snoc (l : list nat) (y : nat) :
  StronglySorted lt l -> Forall (fun x => x < y) l ->
  StronglySorted lt (l ++ [y]).
Proof.
  induction 1 as [|x l Hl IH Hx]; intro Hy; simpl.
  - repeat constructor.
  - inversion Hy; subst. constructor; [now apply IH|].
    apply Forall_app. split; [assumption|]. now constructor.
Qed.

Lemma functions_loop_sorted (unicode_isalnum : char -> bool)
      (lines : list str) :
  forall rest i functions,
    StronglySorted lt (map fn_line functions) ->
    Forall (fun x => x <= i) (map fn_line functions) ->
    StronglySorted lt
      (map fn_line (functions_loop unicode_isalnum lines i rest functions))
    /\ Forall (fun x => x <= i + length rest)
         (map fn_line
            (functions_loop unicode_isalnum lines i rest functions)).
Proof.
  induction rest as [|line rest IH]; intros i functions Hs Hb;
    cbn [functions_loop].
  - rewrite Nat.add_0_r. auto.
  - cbn [length]. rewrite Nat.add_succ_r. apply (IH (S i)).
    + destruct (startswith (strip line) pub_fn); [|exact Hs].
      destruct (rmatch (func_re unicode_isalnum) (strip line));
        [|exact Hs].
      rewrite map_app. apply sorted_snoc; [exact Hs|].
      eapply Forall_impl; [|exact Hb].
      unfold function_record, type_record. cbn [map fn_line ty_line].
      intros a Ha. cbv beta in *. lia.
    + assert (Hb' : Forall (fun x => x <= S i) (map fn_line functions))
        by (eapply Forall_impl; [|exact Hb]; intros a Ha; cbv beta in *; lia).
      destruct (startswith (strip line) pub_fn); [|exact Hb'].
      destruct (rmatch (func_re unicode_isalnum) (strip line));
        [|exact Hb'].
      rewrite map_app. apply Forall_app. split; [exact Hb'|].
      unfold function_record, type_record. cbn [map fn_line ty_line].
      constructor; [lia|constructor].
Qed.

Lemma types_loop_sorted (unicode_isalnum : char -> bool)
      (lines : list str) :
  forall rest i types,
    StronglySorted lt (map ty_line types) ->
    Forall (fun x => x <= i) (map ty_line types) ->
    StronglySorted lt
      (map ty_line (types_loop unicode_isalnum lines i rest types))
    /\ Forall (fun x => x <= i + length rest)
         (map ty_line (types_loop unicode_isalnum lines i rest types)).
Proof.
  induction rest as [|line rest IH]; intros i types Hs Hb;
    cbn [types_loop].
  - rewrite Nat.add_0_r. auto.
  - cbn [length]. rewrite Nat.add_succ_r. apply (IH (S i)).
    + destruct (type_candidate (strip line)); [|exact Hs].
      destruct (rmatch (type_re unicode_isalnum) (strip line));
        [|exact Hs].
      rewrite map_app. apply sorted_snoc; [exact Hs|].
      eapply Forall_impl; [|exact Hb].
      unfold function_record, type_record. cbn [map fn_line ty_line].
      intros a Ha. cbv beta in *. lia.
    + assert (Hb' : Forall (fun x => x <= S i) (map ty_line types))
        by (eapply Forall_impl; [|exact Hb]; intros a Ha; cbv beta in *; lia).
      destruct (type_candidate (strip line)); [|exact Hb'].
      destruct (rmatch (type_re unicode_isalnum) (strip line));
        [|exact Hb'].
      rewrite map_app. apply Forall_app. split; [exact Hb'|].
      unfold function_record, type_record. cbn [map fn_line ty_line].
      constructor; [lia|constructor].
Qed.

(** Each extractor lists its records in source order: the line numbers
    are strictly increasing along the list, so no line is reported twice,
    and they lie between 1 and the number of lines of the text. *)
Theorem records_in_source_order
        (unicode_isalnum : char -> bool) (content : str) :
  let functions := extract_function_signatures unicode_isalnum content in
  let types := extract_structs_and_enums unicode_isalnum content in
  StronglySorted lt (map fn_line functions)
  /\ StronglySorted lt (map ty_line types)
  /\ Forall (fun r => 1 <= fn_line r <= length (split_nl content)) functions
  /\ Forall (fun t => 1 <= ty_line t <= length (split_nl content)) types.
Proof.
  intros functions types.
  destruct (@functions_loop_sorted unicode_isalnum (split_nl content)
              (split_nl content) 0 []) as [Hfs Hfb]; [constructor..|].
  destruct (@types_loop_sorted unicode_isalnum (split_nl content)
              (split_nl content) 0 []) as [Hts Htb]; [constructor..|].
  split; [exact Hfs|]. split; [exact Hts|]. split.
  - apply Forall_forall. intros r Hr. split.
    + apply extract_function_signatures_In in Hr
        as (i & line & m & _ & _ & _ & ->).
      unfold function_record, type_record. cbn [fn_line ty_line]. lia.
    + rewrite Forall_forall in Hfb. apply (Hfb (fn_line r)).
      now apply in_map.
  - apply Forall_forall. intros t Ht. split.
    + apply extract_structs_and_enums_In in Ht
        as (i & line & m & _ & _ & _ & ->).
      unfold function_record, type_record. cbn [fn_line ty_line]. lia.
    + rewrite Forall_forall in Htb. apply (Htb (ty_line t)).
      now apply in_map.
Qed.

End Signatures.

(** ** Lines that give no function record *)

Module SingleLine.

Section Shape.

Variable unicode_isalnum : char -> bool.

(** The record built from a line tells the shape of the line. *)
Lemma record_shape (content : str) (i : nat) (line : str)
      (r : FunctionSignature) :
  nth_error (split_nl content) i = Some line ->
  In r (extract_function_signatures unicode_isalnum content) ->
  fn_line r = i + 1 ->
  exists name params after,
    single_line_shape unicode_isalnum (strip line) name params after
    /\ fn_name r = name /\ fn_params r = params
    /\ fn_return_type r = strip after.
Proof.
  intros Hi Hr Hnum.
  apply extract_function_signatures_In in Hr
    as (k & l & m & Hk & Hpub & Hm & ->).
  cbn [fn_line function_record] in Hnum.
  assert (k = i) as -> by lia.
  rewrite Hi in Hk. injection Hk as <-.
  pose proof (@Signatures.line_no_nl _ _ _ Hi) as Hnl.
  destruct (@Pattern.func_re_groups unicode_isalnum _ _ Hnl Hm)
    as (ws1 & name & ws2 & params & ws3 & ret & tail
        & E & -> & Hws1 & Hname & Fws & Fname & Hparams & Hret & Htail).
  apply Forall_app in Fws as [Fws1 Fws].
  apply Forall_app in Fws as [Fws2 Fws3].
  destruct ws1 as [|c ws1]; [contradiction|].
  assert (c = chr " ") as ->.
  { rewrite E in Hpub. apply startswith_spec in Hpub as [t Ht].
    unfold pub_fn in Ht.
    cbv [py List.map list_ascii_of_string app] in Ht.
    injection Ht as Hc _. exact Hc. }
  inversion Fws1 as [|? ? _ Fws1']; subst.
  exists name, params, (ws3 ++ ret). split; [|split; [|split]].
  - exists ws1, ws2, tail. split.
    + rewrite E, <- (app_assoc ws3). reflexivity.
    + repeat split; auto.
      intro Hin. apply in_app_or in Hin as [Hin|Hin]; [|auto].
      rewrite Forall_forall in Fws3. specialize (Fws3 _ Hin).
      discriminate Fws3.
  - reflexivity.
  - reflexivity.
  - cbn [fn_return_type function_record group pred nth].
    unfold strip. now rewrite Signatures.lstrip_app_spaces.
Qed.

(** C3. A line whose trimmed form begins with [pub fn ] gives a function
    record exactly when the trimmed line has the shape of the pattern:
    [pub fn], whitespace, a name of word characters, optional
    whitespace, an opening parenthesis, a text without closing
    parenthesis, a closing parenthesis, and a text without opening brace
    that runs to an opening brace or to the end of the line.  The record
    then holds the name, the text between the parentheses and the text
    behind them, trimmed.  A line without the shape gives no record, and
    the extractor, a total function, raises no error; such is every line
    that holds no closing parenthesis, its parameter list being continued
    on a later line.  The shape does not ask for more: the parenthesis
    that ends the captured parameters is the first one of the line, not
    the one that matches the opening one. *)
Theorem unmatched_declaration_omitted
        (content : str) (i : nat) (line : str) :
  (forall c, is_space c = true -> unicode_isalnum c = false) ->
  nth_error (split_nl content) i = Some line ->
  startswith (strip line) pub_fn = true ->
  ((exists r,
       In r (extract_function_signatures unicode_isalnum content)
       /\ fn_line r = i + 1)
   <-> exists name params after,
         single_line_shape unicode_isalnum (strip line) name params after)
  /\ (forall r,
        In r (extract_function_signatures unicode_isalnum content) ->
        fn_line r = i + 1 ->
        exists name params after,
          single_line_shape unicode_isalnum (strip line) name params after
          /\ fn_name r = name /\ fn_params r = params
          /\ fn_return_type r = strip after)
  /\ (~ In (chr ")") line ->
      forall r,
        In r (extract_function_signatures unicode_isalnum content) ->
        fn_line r <> i + 1).
Proof.
  intros Htbl Hi Hpub. split; [split|split].
  - intros (r & Hr & Hnum).
    destruct (@record_shape content i line r Hi Hr Hnum)
      as (name & params & after & Hshape & _).
    now exists name, params, after.
  - intros (name & params & after & ws1 & ws2 & tail
            & E & Fws1 & Hname & Fname & Fws2 & Hparams & Hafter & Htail).
    eexists. split.
    + apply extract_function_signatures_In.
      exists i, line, [name; params; lstrip after].
      split; [exact Hi|]. split; [exact Hpub|]. split; [|reflexivity].
      exact (@Signatures.single_line_matches unicode_isalnum (strip line)
               ws1 name ws2 params after tail Htbl
               (@Signatures.line_no_nl _ _ _ Hi) E Fws1 Hname Fname Fws2
               Hparams Hafter Htail).
    + reflexivity.
  - intros r Hr Hnum. exact (@record_shape content i line r Hi Hr Hnum).
  - intros Hopen r Hr Hnum.
    apply extract_function_signatures_In in Hr
      as (k & l & m & Hk & _ & Hm & ->).
    cbn [fn_line function_record] in Hnum.
    assert (k = i) as -> by lia.
    rewrite Hi in Hk. injection Hk as <-.
    rewrite (@Omission.unclosed_parameter_list unicode_isalnum line Hopen)
      in Hm.
    discriminate Hm.
Qed.

End Shape.

(** A declaration spread over two lines, followed by one on a single
    line: only the second is extracted. *)
Lemma unmatched_declaration_omitted_witness :
  let content := py "pub fn f(a: i32," ++ nl :: py "    b: i32) void {"
                 ++ nl :: py "pub fn g() void {" in
  (forall c, is_space c = true -> (fun _ : char => false) c = false)
  /\ nth_error (split_nl content) 0 = Some (py "pub fn f(a: i32,")
  /\ startswith (strip (py "pub fn f(a: i32,")) pub_fn = true
  /\ ~ In (chr ")") (py "pub fn f(a: i32,")
  /\ (forall r, In r (extract_function_signatures (fun _ => false) content) ->
                fn_line r <> 1)
  /\ ~ exists name params after,
        single_line_shape (fun _ => false) (strip (py "pub fn f(a: i32,"))
          name params after.
Proof.
  intro content.
  assert (Htbl : forall c,
             is_space c = true -> (fun _ : char => false) c = false)
    by reflexivity.
  assert (H0 : nth_error (split_nl content) 0 = Some (py "pub fn f(a: i32,"))
    by (vm_compute; reflexivity).
  assert (H1 : startswith (strip (py "pub fn f(a: i32,")) pub_fn = true)
    by (vm_compute; reflexivity).
  assert (H2 : ~ In (chr ")") (py "pub fn f(a: i32,"))
    by (cbv; intuition discriminate).
  pose proof (@unmatched_declaration_omitted (fun _ => false) content 0
                (py "pub fn f(a: i32,") Htbl H0 H1) as (Hiff & _ & Hnone).
  split; [exact Htbl|]. split; [exact H0|]. split; [exact H1|].
  split; [exact H2|]. split; [exact (Hnone H2)|].
  intro Hshape. apply Hiff in Hshape as (r & Hr & Hnum).
  exact (Hnone H2 r Hr Hnum).
Defined.

(** C3, as stated, fails on a declaration whose parameter list is
    continued on the next line behind a callback parameter: the list is
    not closed on the first line, yet the closing parenthesis of the
    callback type lets the pattern match, and a record is produced whose
    parameters are cut inside the callback type and whose return type is
    the rest of the line. *)
Lemma truncated_record_produced :
  let line := py "pub fn on(cb: fn(u8) void," in
  let content := line ++ nl :: py "    x: u8) void {" in
  nth_error (split_nl content) 0 = Some line
  /\ startswith (strip line) pub_fn = true
  /\ Claimed.parameter_list_on_line line = false
  /\ Claimed.parameter_list_on_line (py "pub fn on(cb: fn(u8) void) void {")
     = true
  /\ extract_function_signatures (fun _ => false) content
     = [ {| fn_name := py "on"; fn_params := py "cb: fn(u8";
            fn_return_type := py "void,"; fn_documentation := [];
            fn_line := 1 |} ]
  /\ extract_function_signatures (fun _ => false) content <> [].
Proof.
  intros line content. repeat split; try (vm_compute; reflexivity).
  vm_compute. discriminate.
Qed.

End SingleLine.

(** ** Type records *)

Module TypeRecords.

Section TypePattern.
Variable unicode_isalnum : char -> bool.

Lemma type_re_groups (s : str) (m : list str) :
  ~ In nl s ->
  rmatch (type_re unicode_isalnum) s = Some m ->
  exists ws1 name ws2 ws3 def tail,
    s = py "pub const" ++ ws1 ++ name ++ ws2
        ++ chr "=" :: ws3 ++ def ++ tail
    /\ m = [name; def]
    /\ name <> []
    /\ Forall (fun c => is_word unicode_isalnum c = true) name
    /\ ~ In (chr "{") def.
Proof.
  intros Hnl H. unfold rmatch, type_re in H. cbn [seq fold_right] in H.
  apply run_Cat_sound in H as (p & ? & ? & -> & Hp & H).
  apply Omission.matches_lit in Hp as [-> ->].
  apply run_Cat_sound in H as (ws1 & ? & ? & -> & Hws1 & H).
  apply Omission.matches_Rep_inv in Hws1 as (-> & Fws1 & Lws1).
  apply run_Cat_sound in H as (name & ? & ? & -> & Hname & H).
  apply Omission.matches_Grp_Rep_inv in Hname as (-> & Fname & Lname).
  apply run_Cat_sound in H as (ws2 & ? & ? & -> & Hws2 & H).
  apply Omission.matches_Rep_inv in Hws2 as (-> & Fws2 & _).
  apply run_Cat_sound in H as (eq & ? & ? & -> & Heq & H).
  apply Omission.matches_Chr_inv in Heq as [-> ->].
  apply run_Cat_sound in H as (ws3 & ? & ? & -> & Hws3 & H).
  apply Omission.matches_Rep_inv in Hws3 as (-> & Fws3 & _).
  apply run_Cat_lazy_group_sound in H
    as (def & tail & -> & Fdef & H & Hearly).
  apply Pattern.close_inv in H as (-> & _).
  exists ws1, name, ws2, ws3, def, tail.
  split; [repeat (progress (simpl; rewrite <- ?app_assoc, ?app_nil_r));
          reflexivity|].
  split; [reflexivity|].
  split; [intros ->; simpl in Lname; lia|].
  split; [assumption|].
  intro Hin. apply in_split in Hin as (w1 & w2 & ->).
  specialize (Hearly w1 (chr "{") w2 eq_refl).
  rewrite Pattern.close_at_brace in Hearly. discriminate.
Qed.

Hypothesis space_not_alnum :
  forall c, is_space c = true -> unicode_isalnum c = false.

Lemma hd_space_equals_not_word (ws rest : str) (c : char) :
  Forall (fun c => is_space c = true) ws ->
  hd_error (ws ++ chr "=" :: rest) = Some c ->
  is_word unicode_isalnum c = false.
Proof.
  intros Hws Hc. destruct ws as [|c' ws].
  - injection Hc as <-. reflexivity.
  - injection Hc as <-. inversion Hws; subst.
    now apply Pattern.space_not_word.
Qed.

Lemma type_re_complete (ws1 name ws2 ws3 def tail : str) :
  ws1 <> [] -> name <> [] ->
  Forall (fun c => is_space c = true) ws1 ->
  Forall (fun c => is_word unicode_isalnum c = true) name ->
  Forall (fun c => is_space c = true) ws2 ->
  Forall (fun c => is_space c = true) ws3 ->
  ~ In (chr "{") def -> ~ In nl def ->
  (forall c, hd_error (def ++ tail) = Some c -> is_space c = false) ->
  (tail = [] \/ exists t, tail = chr "{" :: t) ->
  rmatch (type_re unicode_isalnum)
    (py "pub const" ++ ws1 ++ name ++ ws2
     ++ chr "=" :: ws3 ++ def ++ tail)
  = Some [name; def].
Proof.
  intros Hws1 Hname Fws1 Fname Fws2 Fws3 Hdef Ndef Hhd Htail.
  unfold rmatch, type_re. cbn [seq fold_right].
  rewrite run_Cat_lit.
  apply run_Cat_greedy;
    [ exact Fws1
    | destruct ws1; [congruence|simpl; lia]
    | intros c Hc; eapply Pattern.hd_word_not_space;
        [exact space_not_alnum | exact Hname | exact Fname | exact Hc]
    | ].
  apply run_Cat_greedy_group;
    [ exact Fname
    | destruct name; [congruence|simpl; lia]
    | intros c Hc; eapply hd_space_equals_not_word;
        [exact Fws2 | exact Hc]
    | ].
  apply run_Cat_greedy;
    [ exact Fws2
    | lia
    | intros c Hc; injection Hc as <-; reflexivity
    | ].
  rewrite run_Cat_Chr.
  apply run_Cat_greedy; [exact Fws3 | lia | exact Hhd | ].
  apply run_Cat_lazy_group; [now apply Pattern.no_nl_dot | | ].
  { intros w1 c w2 ->. apply Pattern.close_elsewhere.
    - intros E. apply Hdef. subst c. clear. Pattern.in_parts.
    - intros E. apply Ndef. subst c. clear. Pattern.in_parts. }
  destruct Htail as [->|[t ->]]; reflexivity.
Qed.

End TypePattern.

(** The fields of every type record are delimited texts of its line: the
    name is a non-empty run of word characters, the definition holds no
    opening brace and has no whitespace around it, and neither holds a
    line feed. *)
Theorem type_fields_delimited
        (unicode_isalnum : char -> bool) (content : str)
        (t : TypeDefinition) :
  In t (extract_structs_and_enums unicode_isalnum content) ->
  ty_name t <> []
  /\ Forall (fun c => is_word unicode_isalnum c = true) (ty_name t)
  /\ ~ In (chr "{") (ty_type t)
  /\ strip (ty_type t) = ty_type t
  /\ ~ In nl (ty_name t) /\ ~ In nl (ty_type t).
Proof.
  intro Ht.
  apply extract_structs_and_enums_In in Ht
    as (i & line & m & Hi & _ & Hm & ->).
  pose proof (@Signatures.line_no_nl _ _ _ Hi) as Hnl.
  destruct (@type_re_groups unicode_isalnum _ _ Hnl Hm)
    as (ws1 & name & ws2 & ws3 & def & tail
        & E & -> & Hname & Fname & Hdef).
  cbn [ty_name ty_type type_record group pred nth].
  rewrite E in Hnl.
  repeat split; auto.
  - intro Hin. apply Hdef. now apply strip_In.
  - apply strip_idem.
  - intro Hin. apply Hnl. clear - Hin. Pattern.in_parts.
  - intro Hin. apply strip_In in Hin. apply Hnl. clear - Hin.
    Pattern.in_parts.
Qed.

Lemma type_fields_delimited_witness :
  let content := py "pub const Mailbox = struct { head: ?*Node }" in
  let t := {| ty_name := py "Mailbox"; ty_type := py "struct";
              ty_documentation := []; ty_line := 1 |} in
  In t (extract_structs_and_enums (fun _ => false) content)
  /\ ~ In (chr "{") (ty_type t)
  /\ strip (ty_type t) = ty_type t.
Proof.
  intros content t.
  assert (Hin : In t (extract_structs_and_enums (fun _ => false) content))
    by (vm_compute; left; reflexivity).
  split; [exact Hin|].
  destruct (type_fields_delimited (fun _ => false) content t Hin)
    as (_ & _ & Hdef & Htrim & _).
  split; [exact Hdef|exact Htrim].
Defined.

(** Every [pub const] line of the single-line shape that holds one of
    the words [struct], [union], [enum] anywhere gives its record: when
    the trimmed line is [pub const ], a name of word characters, an equals
    sign and a text without opening brace that runs to the end of the
    line or to an opening brace, the extractor returns a record with that
    name and that text, trimmed, as definition.  The word need not be
    part of the definition: it may stand in the name or behind the
    brace. *)
Theorem single_line_type_extracted
        (unicode_isalnum : char -> bool) (content : str) (i : nat)
        (line ws1 name ws2 after tail : str) :
  (forall c, is_space c = true -> unicode_isalnum c = false) ->
  nth_error (split_nl content) i = Some line ->
  strip line = py "pub const " ++ ws1 ++ name ++ ws2
               ++ chr "=" :: after ++ tail ->
  contains (py "struct") (strip line) || contains (py "union") (strip line)
  || contains (py "enum") (strip line) = true ->
  Forall (fun c => is_space c = true) ws1 ->
  name <> [] ->
  Forall (fun c => is_word unicode_isalnum c = true) name ->
  Forall (fun c => is_space c = true) ws2 ->
  ~ In (chr "{") after ->
  (tail = [] \/ exists t, tail = chr "{" :: t) ->
  In {| ty_name := name; ty_type := strip after;
        ty_documentation :=
          documentation_of (doc_lines_above (split_nl content) i);
        ty_line := i + 1 |}
     (extract_structs_and_enums unicode_isalnum content).
Proof.
  intros Htbl Hi E Hkw Fws1 Hname Fname Fws2 Hafter Htail.
  pose proof (@Signatures.line_no_nl _ _ _ Hi) as Hnl.
  destruct (lstrip_spaces after) as (ws3 & Eafter & Fws3).
  apply extract_structs_and_enums_In.
  exists i, line, [name; lstrip after].
  split; [exact Hi|]. split; [|split].
  - unfold type_candidate. rewrite Hkw, andb_true_r.
    rewrite E. apply startswith_app.
  - rewrite E in Hnl |- *. rewrite Eafter at 1.
    change (py "pub const " ++ ws1 ++ name ++ ws2
            ++ chr "=" :: (ws3 ++ lstrip after) ++ tail)
      with (py "pub const" ++ (chr " " :: ws1) ++ name ++ ws2
            ++ chr "=" :: (ws3 ++ lstrip after) ++ tail).
    rewrite <- (app_assoc ws3).
    apply type_re_complete;
      [ exact Htbl | discriminate | exact Hname | now constructor
      | exact Fname | exact Fws2 | exact Fws3 | | | | exact Htail ].
    + intro Hin. apply Hafter. now apply lstrip_In.
    + intro Hin. apply lstrip_In in Hin. apply Hnl. clear - Hin.
      Pattern.in_parts.
    + intros c Hc. destruct (lstrip after) as [|c' t] eqn:El.
      * destruct Htail as [->|[t ->]]; [discriminate|].
        injection Hc as <-. reflexivity.
      * injection Hc as <-. exact (lstrip_head _ El).
  - unfold type_record. cbn [group pred nth]. now rewrite strip_lstrip.
Qed.

(** A constant that is no type: the word [struct] is part of its name. *)
Lemma single_line_type_extracted_witness :
  let content := py "pub const restructured = true;" in
  (forall c, is_space c = true -> (fun _ : char => false) c = false)
  /\ nth_error (split_nl content) 0 = Some content
  /\ strip content
     = py "pub const " ++ [] ++ py "restructured" ++ py " "
       ++ chr "=" :: py " true;" ++ []
  /\ In {| ty_name := py "restructured"; ty_type := py "true;";
           ty_documentation := []; ty_line := 1 |}
        (extract_structs_and_enums (fun _ => false) content).
Proof.
  intro content.
  assert (Htbl : forall c,
             is_space c = true -> (fun _ : char => false) c = false)
    by reflexivity.
  assert (Hi : nth_error (split_nl content) 0 = Some content)
    by (vm_compute; reflexivity).
  assert (E : strip content
              = py "pub const " ++ [] ++ py "restructured" ++ py " "
                ++ chr "=" :: py " true;" ++ [])
    by (vm_compute; reflexivity).
  split; [exact Htbl|]. split; [exact Hi|]. split; [exact E|].
  apply (@single_line_type_extracted (fun _ => false) content 0 content
           [] (py "restructured") (py " ") (py " true;") [] Htbl Hi E).
  - vm_compute. reflexivity.
  - constructor.
  - discriminate.
  - repeat constructor.
  - repeat constructor.
  - cbv. intuition discriminate.
  - left. reflexivity.
Defined.

End TypeRecords.

(** ** File records and the scanned batch *)

Module FileRecords.

Lemma item_doc_is_doc_comment (line : str) :
  item_doc_line line = true -> doc_comment_line line = true.
Proof.
  unfold item_doc_line, doc_comment_line. intros ->. apply orb_true_r.
Qed.

(** What the backward scan collects is part of the module documentation
    of the file. *)
Lemma doc_lines_above_in_comments (content : str) (i : nat) :
  i <= length (split_nl content) ->
  Forall (fun e => In e (extract_doc_comments content))
    (doc_lines_above (split_nl content) i)
  /\ Forall (fun e => ~ In nl e) (doc_lines_above (split_nl content) i).
Proof.
  intro Hi.
  destruct (ScanSafety.scan_above_outcome (split_nl content) Hi)
    as (above & block & reads & E & Hblock & _ & Eq & _).
  unfold doc_lines_above. rewrite Eq. cbn [snd sc_doc_lines].
  assert (Hsub : forall l, In l block -> In l (split_nl content)).
  { intros l Hl. rewrite <- (firstn_skipn i (split_nl content)), E.
    apply in_or_app. left. apply in_or_app. now right. }
  rewrite Forall_forall in Hblock. split.
  - apply Forall_forall. intros e He.
    apply in_map_iff in He as (l & <- & Hl).
    unfold extract_doc_comments.
    rewrite Comments.doc_comments_loop_spec. cbn [app].
    apply in_map. apply filter_In. split; [now apply Hsub|].
    apply item_doc_is_doc_comment. now apply Hblock.
  - apply Forall_forall. intros e He.
    apply in_map_iff in He as (l & <- & Hl).
    apply Documentation.doc_text_no_nl.
    pose proof (split_nl_no_nl content) as Hnl.
    rewrite Forall_forall in Hnl. apply Hnl. now apply Hsub.
Qed.

Lemma documentation_lines_in_comments (content : str) (i : nat) :
  i <= length (split_nl content) ->
  documentation_of (doc_lines_above (split_nl content) i) <> [] ->
  Forall (fun e => In e (extract_doc_comments content))
    (split_nl (documentation_of (doc_lines_above (split_nl content) i))).
Proof.
  intros Hi Hne.
  destruct (doc_lines_above_in_comments content Hi) as [Hin Hnl].
  rewrite Documentation.documentation_of_lines;
    [ exact Hin | intro E; apply Hne; now rewrite E | exact Hnl ].
Qed.

(** The comment lines that document a declaration are counted twice: in
    the record built for a file, every line of the documentation of a
    function or of a type is also an entry of the module documentation of
    the file. *)
Theorem declaration_docs_in_module_docs
        (unicode_isalnum : char -> bool) (f : SourceFile) (content : str) :
  let info := file_info_of unicode_isalnum f content in
  (forall r, In r (fr_functions info) -> fn_documentation r <> [] ->
             Forall (fun e => In e (fr_module_docs info))
               (split_nl (fn_documentation r)))
  /\ (forall t, In t (fr_types info) -> ty_documentation t <> [] ->
                Forall (fun e => In e (fr_module_docs info))
                  (split_nl (ty_documentation t))).
Proof.
  cbn [file_info_of fr_functions fr_types fr_module_docs]. split.
  - intros r Hr Hne.
    apply extract_function_signatures_In in Hr
      as (i & line & m & Hi & _ & _ & ->).
    apply documentation_lines_in_comments; [|exact Hne].
    apply Nat.lt_le_incl. apply nth_error_Some. congruence.
  - intros t Ht Hne.
    apply extract_structs_and_enums_In in Ht
      as (i & line & m & Hi & _ & _ & ->).
    apply documentation_lines_in_comments; [|exact Hne].
    apply Nat.lt_le_incl. apply nth_error_Some. congruence.
Qed.

Lemma declaration_docs_in_module_docs_witness :
  let content := py "/// Starts the engine." ++ nl
                 :: py "pub fn start() void {" in
  let info := file_info_of (fun _ => false) actor_file content in
  let r := {| fn_name := py "start"; fn_params := [];
              fn_return_type := py "void";
              fn_documentation := py "Starts the engine."; fn_line := 2 |} in
  In r (fr_functions info)
  /\ fn_documentation r <> []
  /\ fr_module_docs info = [py "Starts the engine."]
  /\ Forall (fun e => In e (fr_module_docs info))
       (split_nl (fn_documentation r)).
Proof.
  intros content info r.
  assert (Hin : In r (fr_functions info))
    by (vm_compute; left; reflexivity).
  assert (Hne : fn_documentation r <> []) by discriminate.
  split; [exact Hin|]. split; [exact Hne|].
  split; [vm_compute; reflexivity|].
  exact (proj1 (declaration_docs_in_module_docs (fun _ => false)
                  actor_file content) r Hin Hne).
Defined.

(** *** Records without content *)

Lemma render_file_nothing (file_info : FileRecord) :
  is_empty (fr_module_docs file_info) && is_empty (fr_functions file_info)
  && is_empty (fr_types file_info) = true ->
  render_file [] file_info = [].
Proof. unfold render_file. now intros ->. Qed.

Lemma flat_map_filter_nonempty {A} (f : A -> str) (keep : A -> bool) :
  (forall x, keep x = false -> f x = []) ->
  forall l, flat_map f l = flat_map f (filter keep l).
Proof.
  intros Hf. induction l as [|x l IH]; [reflexivity|].
  cbn [flat_map filter]. destruct (keep x) eqn:E.
  - cbn [flat_map]. now rewrite IH.
  - now rewrite (Hf x E), IH.
Qed.

(** A file without doc comment, public function and type leaves no trace
    in the API reference, not even its heading: the reference is the one
    of the records that have content, and with none of them it is the
    header alone. *)
Theorem records_without_content_skipped (g : Generator) :
  let has_content r :=
    negb (is_empty (fr_module_docs r) && is_empty (fr_functions r)
          && is_empty (fr_types r)) in
  generate_api_reference g
  = api_header
    ++ flat_map (render_file []) (filter has_content (values (api_docs g)))
  /\ (Forall (fun r => has_content r = false) (values (api_docs g)) ->
      generate_api_reference g = api_header).
Proof.
  intro has_content.
  assert (E : generate_api_reference g
              = api_header
                ++ flat_map (render_file [])
                     (filter has_content (values (api_docs g)))).
  { unfold generate_api_reference.
    rewrite (Renderer.fold_left_appends render_file
               Renderer.render_file_appends).
    f_equal. apply flat_map_filter_nonempty.
    intros r Hr. apply render_file_nothing.
    unfold has_content in Hr. now apply negb_false_iff in Hr. }
  split; [exact E|].
  rewrite E. clear E. generalize (values (api_docs g)).
  intros l Hnone.
  induction Hnone as [|r l Hr _ IH]; cbn [filter flat_map].
  - apply app_nil_r.
  - rewrite Hr. exact IH.
Qed.

Lemma records_without_content_skipped_witness :
  let bare := {| fr_file := py "main.zig"; fr_module_docs := [];
                 fr_functions := []; fr_types := [] |} in
  let g := {| api_docs := [(py "src/main.zig", bare)]; console := [] |} in
  Forall (fun r => negb (is_empty (fr_module_docs r)
                         && is_empty (fr_functions r)
                         && is_empty (fr_types r)) = false)
    (values (api_docs g))
  /\ generate_api_reference g = api_header.
Proof.
  intros bare g.
  assert (H : Forall (fun r => negb (is_empty (fr_module_docs r)
                                     && is_empty (fr_functions r)
                                     && is_empty (fr_types r)) = false)
                (values (api_docs g)))
    by (repeat constructor).
  split; [exact H|].
  exact (proj2 (records_without_content_skipped g) H).
Defined.

End FileRecords.

(** ** The dictionary of scanned files *)

Module Dictionary.

Lemma str_eqb_true (a b : str) : str_eqb a b = true <-> a = b.
Proof.
  unfold str_eqb. destruct (list_eq_dec N.eq_dec a b); split;
    congruence.
Qed.


Lemma dict_set_fresh (d : list (str * FileRecord)) (k : str)
      (v : FileRecord) :
  ~ In k (map fst d) -> dict_set d k v = d ++ [(k, v)].
Proof.
  induction d as [|[k' v'] d IH]; intro H; [reflexivity|].
  cbn [dict_set]. destruct (str_eqb k' k) eqn:E.
  - apply str_eqb_true in E. exfalso. apply H. now left.
  - cbn [app]. f_equal. apply IH. intro Hin. apply H. now right.
Qed.



Lemma fold_dict_set_fresh (kvs : list (str * FileRecord)) :
  forall d,
    NoDup (map fst (d ++ kvs)) ->
    fold_left (fun d kv => dict_set d (fst kv) (snd kv)) kvs d = d ++ kvs.
Proof.
  induction kvs as [|[k v] kvs IH]; intros d Hd.
  - simpl. now rewrite app_nil_r.
  - cbn [fold_left fst snd].
    assert (Hk : ~ In k (map fst d)).
    { rewrite map_app in Hd. cbn [map fst] in Hd.
      apply NoDup_remove_2 in Hd. intro Hin. apply Hd.
      apply in_or_app. now left. }
    rewrite dict_set_fresh by exact Hk.
    rewrite IH; rewrite <- app_assoc; [reflexivity|exact Hd].
Qed.

Lemma read_files_keys (unicode_isalnum : char -> bool)
      (files : list SourceFile) :
  NoDup (map sf_path files) ->
  NoDup (map fst (read_files unicode_isalnum files))
  /\ forall k, In k (map fst (read_files unicode_isalnum files)) ->
               In k (map sf_path files).
Proof.
  induction files as [|f files IH]; intro Hd.
  - split; [constructor|auto].
  - inversion Hd as [|? ? Hf Hd']; subst.
    destruct (IH Hd') as [Hnd Hsub]. cbn [read_files flat_map map].
    fold (read_files unicode_isalnum files).
    destruct (sf_is_file f); [destruct (sf_read f)|]; cbn [app map fst].
    + split.
      * constructor; [|exact Hnd]. intro Hin. apply Hf. now apply Hsub.
      * intros k [<-|Hk]; [now left|right; now apply Hsub].
    + split; [exact Hnd|]. intros k Hk. right. now apply Hsub.
    + split; [exact Hnd|]. intros k Hk. right. now apply Hsub.
    + split; [exact Hnd|]. intros k Hk. right. now apply Hsub.
Qed.



End Dictionary.

(** ** The API reference and what it depends on *)

Module Determinism.

Lemma render_module_doc_paragraph (doc : str) :
  render_module_doc [] doc = Claimed.paragraph_of doc.
Proof. now destruct doc. Qed.

Lemma render_type_block (t : TypeDefinition) :
  render_type [] t = Claimed.type_block t.
Proof.
  unfold render_type, Claimed.type_block, Claimed.paragraph_of,
    Claimed.zig_block, code_block.
  destruct (ty_documentation t);
    repeat (cbn [app]; rewrite <- app_assoc); reflexivity.
Qed.

Lemma render_function_block (f : FunctionSignature) :
  render_function [] f = Claimed.function_block f.
Proof.
  unfold render_function, Claimed.function_block, Claimed.paragraph_of,
    Claimed.zig_block, Claimed.signature_of, code_block.
  destruct (fn_documentation f), (fn_return_type f);
    rewrite ?app_nil_r; repeat (cbn [app]; rewrite <- app_assoc);
    reflexivity.
Qed.

Lemma flat_map_blocks {A} (f g : A -> str) (l : list A) :
  (forall x, f x = g x) -> flat_map f l = concat (map g l).
Proof.
  intro H. rewrite flat_map_concat_map. f_equal. now apply map_ext.
Qed.

Lemma render_file_block (r : FileRecord) :
  render_file [] r = Claimed.file_block r.
Proof.
  unfold render_file, Claimed.file_block, Claimed.subsection.
  rewrite !(Renderer.fold_left_appends render_module_doc
              Renderer.render_module_doc_appends).
  rewrite !(Renderer.fold_left_appends render_type
              Renderer.render_type_appends).
  rewrite !(Renderer.fold_left_appends render_function
              Renderer.render_function_appends).
  rewrite (flat_map_blocks _ _ (fr_module_docs r)
             render_module_doc_paragraph).
  rewrite (flat_map_blocks _ _ (fr_types r) render_type_block).
  rewrite (flat_map_blocks _ _ (fr_functions r) render_function_block).
  destruct (fr_module_docs r), (fr_functions r), (fr_types r);
    cbn [is_empty andb]; rewrite ?app_nil_r;
    repeat (cbn [app]; rewrite <- app_assoc); reflexivity.
Qed.

Lemma reference_layout (g : Generator) :
  generate_api_reference g = Claimed.reference (values (api_docs g)).
Proof.
  unfold generate_api_reference, Claimed.reference.
  rewrite (Renderer.fold_left_appends render_file
             Renderer.render_file_appends).
  rewrite (flat_map_blocks _ _ (values (api_docs g)) render_file_block).
  unfold api_header. rewrite <- !app_assoc. reflexivity.
Qed.

(** *** Where the characters of the reference come from *)

Lemma in_boilerplate (piece : str) (c : char) :
  forallb (fun x => existsb (N.eqb x) boilerplate) piece = true ->
  In c piece -> In c boilerplate.
Proof.
  intros H Hc. rewrite forallb_forall in H. specialize (H c Hc).
  apply existsb_exists in H as (x & Hx & E). apply N.eqb_eq in E.
  now subst.
Qed.

Ltac in_fixed_piece :=
  eapply in_boilerplate; [|eassumption]; vm_compute; reflexivity.

Ltac fixed_piece := left; in_fixed_piece.

Lemma paragraph_chars (text : str) (c : char) :
  In c (Claimed.paragraph_of text) -> In c boilerplate \/ In c text.
Proof.
  unfold Claimed.paragraph_of. destruct text as [|x text]; [contradiction|].
  intro H. apply in_app_or in H as [H|H]; [now right|fixed_piece].
Qed.

Lemma zig_block_chars (body : str) (c : char) :
  In c (Claimed.zig_block body) -> In c boilerplate \/ In c body.
Proof.
  unfold Claimed.zig_block. intro H.
  repeat (apply in_app_or in H as [H|H]); try fixed_piece. now right.
Qed.

Lemma type_block_chars (t : TypeDefinition) (c : char) :
  In c (Claimed.type_block t) ->
  In c boilerplate
  \/ In c (ty_name t) \/ In c (ty_documentation t) \/ In c (ty_type t).
Proof.
  unfold Claimed.type_block. intro H.
  apply in_app_or in H as [H|H]; [fixed_piece|].
  apply in_app_or in H as [H|H]; [tauto|].
  apply in_app_or in H as [H|H]; [fixed_piece|].
  apply in_app_or in H as [H|H]; [fixed_piece|].
  apply in_app_or in H as [H|H].
  - apply paragraph_chars in H. tauto.
  - apply zig_block_chars in H. tauto.
Qed.

Lemma signature_chars (f : FunctionSignature) (c : char) :
  In c (Claimed.signature_of f) ->
  In c boilerplate
  \/ In c (fn_name f) \/ In c (fn_params f) \/ In c (fn_return_type f).
Proof.
  unfold Claimed.signature_of. intro H.
  apply in_app_or in H as [H|H]; [fixed_piece|].
  apply in_app_or in H as [H|H]; [tauto|].
  apply in_app_or in H as [H|H]; [fixed_piece|].
  apply in_app_or in H as [H|H]; [tauto|].
  apply in_app_or in H as [H|H]; [fixed_piece|].
  destruct (fn_return_type f) as [|x ret]; [contradiction|].
  apply in_app_or in H as [H|H]; [fixed_piece|tauto].
Qed.

Lemma function_block_chars (f : FunctionSignature) (c : char) :
  In c (Claimed.function_block f) ->
  In c boilerplate
  \/ In c (fn_name f) \/ In c (fn_documentation f)
  \/ In c (fn_params f) \/ In c (fn_return_type f).
Proof.
  unfold Claimed.function_block. intro H.
  apply in_app_or in H as [H|H]; [fixed_piece|].
  apply in_app_or in H as [H|H]; [tauto|].
  apply in_app_or in H as [H|H]; [fixed_piece|].
  apply in_app_or in H as [H|H]; [fixed_piece|].
  apply in_app_or in H as [H|H].
  - apply paragraph_chars in H. tauto.
  - apply zig_block_chars in H as [H|H]; [tauto|].
    apply signature_chars in H. tauto.
Qed.

Lemma subsection_chars {A} (title : str) (block : A -> str)
      (items : list A) (c : char) :
  (forall x, In x title -> In x boilerplate) ->
  In c (Claimed.subsection title block items) ->
  In c boilerplate \/ exists item, In item items /\ In c (block item).
Proof.
  intro Htitle. unfold Claimed.subsection.
  destruct items as [|i items]; [contradiction|].
  intro H. apply in_app_or in H as [H|H]; [left; auto|].
  apply in_app_or in H as [H|H]; [fixed_piece|].
  apply in_concat in H as (b & Hb & Hc).
  apply in_map_iff in Hb as (item & <- & Hitem). right. now exists item.
Qed.

Lemma file_block_chars (r : FileRecord) (c : char) :
  In c (Claimed.file_block r) -> In c boilerplate \/ from_record r c.
Proof.
  intro H.
  assert (H' : In c (py "## " ++ fr_file r ++ nlnl
                     ++ Claimed.subsection (py "### Module Documentation")
                          Claimed.paragraph_of (fr_module_docs r)
                     ++ Claimed.subsection (py "### Types")
                          Claimed.type_block (fr_types r)
                     ++ Claimed.subsection (py "### Functions")
                          Claimed.function_block (fr_functions r)
                     ++ py "---" ++ nlnl)).
  { unfold Claimed.file_block in H.
    destruct (fr_module_docs r), (fr_functions r), (fr_types r);
      first [contradiction | exact H]. }
  clear H. unfold from_record, record_texts.
  apply in_app_or in H' as [H|H]; [fixed_piece|].
  apply in_app_or in H as [H|H].
  { right. exists (fr_file r). split; [now left|exact H]. }
  apply in_app_or in H as [H|H]; [fixed_piece|].
  apply in_app_or in H as [H|H].
  { apply subsection_chars in H as [H|(doc & Hdoc & H)];
      [now left| |intros x Hx; in_fixed_piece].
    apply paragraph_chars in H as [H|H]; [now left|].
    right. exists doc. split; [|exact H]. right.
    apply in_or_app. now left. }
  apply in_app_or in H as [H|H].
  { apply subsection_chars in H as [H|(t & Ht & H)];
      [now left| |intros x Hx; in_fixed_piece].
    apply type_block_chars in H as [H|H]; [now left|].
    right.
    assert (Hin : forall text,
               In text [ty_name t; ty_documentation t; ty_type t] ->
               In text
                 (fr_file r :: fr_module_docs r
                  ++ flat_map (fun t => [ty_name t; ty_documentation t;
                                         ty_type t]) (fr_types r)
                  ++ flat_map (fun f => [fn_name f; fn_documentation f;
                                         fn_params f; fn_return_type f])
                       (fr_functions r))).
    { intros text Htext. right. apply in_or_app. right.
      apply in_or_app. left. apply in_flat_map. now exists t. }
    destruct H as [H|[H|H]];
      eexists; (split; [apply Hin|exact H]); cbn [In]; tauto. }
  apply in_app_or in H as [H|H]; [|fixed_piece].
  apply subsection_chars in H as [H|(f & Hf & H)];
    [now left| |intros x Hx; in_fixed_piece].
  apply function_block_chars in H as [H|H]; [now left|].
  right.
  assert (Hin : forall text,
             In text [fn_name f; fn_documentation f; fn_params f;
                      fn_return_type f] ->
             In text
               (fr_file r :: fr_module_docs r
                ++ flat_map (fun t => [ty_name t; ty_documentation t;
                                       ty_type t]) (fr_types r)
                ++ flat_map (fun f => [fn_name f; fn_documentation f;
                                       fn_params f; fn_return_type f])
                     (fr_functions r))).
  { intros text Htext. right. apply in_or_app. right.
    apply in_or_app. right. apply in_flat_map. now exists f. }
  destruct H as [H|[H|[H|H]]];
    eexists; (split; [apply Hin|exact H]); cbn [In]; tauto.
Qed.

Lemma reference_chars (records : list FileRecord) (c : char) :
  In c (Claimed.reference records) ->
  In c boilerplate \/ exists r, In r records /\ from_record r c.
Proof.
  unfold Claimed.reference. intro H.
  apply in_app_or in H as [H|H]; [fixed_piece|].
  apply in_app_or in H as [H|H]; [fixed_piece|].
  apply in_app_or in H as [H|H]; [fixed_piece|].
  apply in_app_or in H as [H|H]; [fixed_piece|].
  apply in_app_or in H as [H|H]; [fixed_piece|].
  apply in_concat in H as (b & Hb & Hc).
  apply in_map_iff in Hb as (r & <- & Hr).
  apply file_block_chars in Hc as [Hc|Hc]; [now left|].
  right. now exists r.
Qed.

(** *** Two runs on the same sources *)

Lemma same_source_records (unicode_isalnum : char -> bool)
      (files1 files2 : list SourceFile) :
  Forall2 same_source files1 files2 ->
  values (read_files unicode_isalnum files1)
  = values (read_files unicode_isalnum files2)
  /\ (Forall (fun f => read_raises f = false) files1 ->
      Forall (fun f => read_raises f = false) files2).
Proof.
  induction 1 as [|f1 f2 files1 files2 (Hrel & Hfile & Hread) _ [IH IHok]].
  - split; [reflexivity|auto].
  - split.
    + cbn [read_files flat_map]. unfold values in *. rewrite !map_app.
      fold (read_files unicode_isalnum files1).
      fold (read_files unicode_isalnum files2).
      rewrite IH. f_equal. rewrite Hfile, Hread.
      destruct (sf_is_file f2); [|reflexivity].
      destruct (sf_read f2); [|reflexivity|reflexivity].
      cbn [map snd]. unfold file_info_of. now rewrite Hrel.
    + intro Hok. inversion Hok as [|? ? Hf Hrest]; subst.
      constructor; [|now apply IHok].
      unfold read_raises in *. now rewrite <- Hfile, <- Hread.
Qed.

Lemma scanned_values (unicode_isalnum : char -> bool)
      (files : list SourceFile) (console0 : list str) :
  Forall (fun f => read_raises f = false) files ->
  NoDup (map sf_path files) ->
  exists scanned,
    scan_source_files unicode_isalnum files
      {| api_docs := []; console := console0 |} = Returned scanned
    /\ api_docs scanned = read_files unicode_isalnum files.
Proof.
  intros Hok Hd. eexists. split.
  - apply Batch.scan_source_files_returns. exact Hok.
  - cbn [api_docs]. apply (Dictionary.fold_dict_set_fresh _ []).
    cbn [app]. now apply Dictionary.read_files_keys.
Qed.

(** C9. The rendered API reference is a function of the sequence of file
    records alone.  Two runs of the renderer on generators that hold the
    same records in the same order return the same text, character for
    character, whatever else differs between them (the paths the records
    are stored under, what was printed before).  The text is the layout
    of the specification applied to the records: the fixed header and one
    block per record, each laid out from the texts of its record.  Every
    character of it is a character of the string constants of the
    renderer or of a text of a record, and the constants hold no digit:
    neither a reading of the clock nor a line number is written.  Two
    whole runs, scan and rendering, over the same source files found
    under different paths (a checkout in another place) give the same
    reference. *)
Theorem api_reference_deterministic :
  (forall g1 g2,
      values (api_docs g1) = values (api_docs g2) ->
      generate_api_reference g1 = generate_api_reference g2)
  /\ (forall g,
        generate_api_reference g = Claimed.reference (values (api_docs g)))
  /\ (forall g c,
        In c (generate_api_reference g) ->
        In c boilerplate
        \/ exists r text,
             In r (values (api_docs g)) /\ In text (record_texts r)
             /\ In c text)
  /\ (forall c, In c boilerplate -> ((48 <=? c) && (c <=? 57))%N = false)
  /\ (forall unicode_isalnum files1 files2 console1 console2,
        Forall2 same_source files1 files2 ->
        NoDup (map sf_path files1) ->
        NoDup (map sf_path files2) ->
        Forall (fun f => read_raises f = false) files1 ->
        exists scanned1 scanned2,
          scan_source_files unicode_isalnum files1
            {| api_docs := []; console := console1 |} = Returned scanned1
          /\ scan_source_files unicode_isalnum files2
               {| api_docs := []; console := console2 |} = Returned scanned2
          /\ generate_api_reference scanned1
             = generate_api_reference scanned2).
Proof.
  split; [|split; [|split; [|split]]].
  - intros g1 g2 H. now rewrite !reference_layout, H.
  - exact reference_layout.
  - intros g c H. rewrite reference_layout in H.
    apply reference_chars in H as [H|(r & Hr & text & Htext & H)];
      [now left|].
    right. now exists r, text.
  - intros c H.
    assert (Hall : forallb (fun c => negb ((48 <=? c) && (c <=? 57))%N)
                     boilerplate = true) by (vm_compute; reflexivity).
    rewrite forallb_forall in Hall. specialize (Hall c H).
    now apply negb_true_iff in Hall.
  - intros unicode_isalnum files1 files2 console1 console2 Hsame Hd1 Hd2
      Hok1.
    destruct (same_source_records unicode_isalnum Hsame) as [Hvalues Hok2].
    destruct (@scanned_values unicode_isalnum files1 console1 Hok1 Hd1)
      as (scanned1 & Hscan1 & Hdocs1).
    destruct (@scanned_values unicode_isalnum files2 console2
                (Hok2 Hok1) Hd2)
      as (scanned2 & Hscan2 & Hdocs2).
    exists scanned1, scanned2. split; [exact Hscan1|].
    split; [exact Hscan2|].
    rewrite !reference_layout, Hdocs1, Hdocs2, Hvalues. reflexivity.
Qed.

(** The same source file scanned in two checkouts, after different
    output. *)
Lemma api_reference_deterministic_witness :
  let here := {| sf_path := py "/home/a/src/actor.zig";
                 sf_relative := py "actor.zig"; sf_is_file := true;
                 sf_read := sf_read actor_file |} in
  let there := {| sf_path := py "/tmp/b/src/actor.zig";
                  sf_relative := py "actor.zig"; sf_is_file := true;
                  sf_read := sf_read actor_file |} in
  Forall2 same_source [here] [there]
  /\ NoDup (map sf_path [here]) /\ NoDup (map sf_path [there])
  /\ Forall (fun f => read_raises f = false) [here]
  /\ exists scanned1 scanned2,
       scan_source_files (fun _ => false) [here]
         {| api_docs := []; console := [] |} = Returned scanned1
       /\ scan_source_files (fun _ => false) [there]
            {| api_docs := [];
               console := [py "Scanning source files..."] |}
          = Returned scanned2
       /\ generate_api_reference scanned1
          = generate_api_reference scanned2.
Proof.
  intros here there.
  assert (Hsame : Forall2 same_source [here] [there])
    by (repeat constructor).
  assert (Hd1 : NoDup (map sf_path [here]))
    by (repeat constructor; intros []).
  assert (Hd2 : NoDup (map sf_path [there]))
    by (repeat constructor; intros []).
  assert (Hok : Forall (fun f => read_raises f = false) [here])
    by (repeat constructor).
  split; [exact Hsame|]. split; [exact Hd1|]. split; [exact Hd2|].
  split; [exact Hok|].
  exact (proj2 (proj2 (proj2 (proj2 api_reference_deterministic)))
           (fun _ => false) [here] [there] []
           [py "Scanning source files..."] Hsame Hd1 Hd2 Hok).
Defined.

End Determinism.

(** * Further properties of the book assembly *)

(** ** The header line of a chapter *)

Module ChapterHeader.

Lemma startswith_hash (s : str) :
  startswith s (py "#")
  = match s with c :: _ => (chr "#" =? c)%N | [] => false end.
Proof.
  destruct s as [|c s]; [reflexivity|].
  change (startswith (c :: s) (py "#"))
    with ((chr "#" =? c)%N && startswith s []).
  destruct s; apply andb_true_r.
Qed.

Lemma first_line_hash (content first : str) (others : list str) :
  split_nl content = first :: others ->
  startswith first (py "#") = startswith content (py "#").
Proof.
  intro E. rewrite <- (join_split_nl content), E, !startswith_hash.
  destruct others as [|o os]; [reflexivity|].
  change (join_nl (first :: o :: os))
    with (first ++ nl :: join_nl (o :: os)).
  destruct first; reflexivity.
Qed.

Lemma split_nl_first (first rest : str) :
  ~ In nl first ->
  split_nl (first ++ nl :: rest) = first :: split_nl rest.
Proof.
  intro H. rewrite split_nl_app_no_nl by exact H.
  change (split_nl (nl :: rest)) with ([] :: split_nl rest).
  cbv beta iota. now rewrite app_nil_r.
Qed.

Lemma chapter_body_after_header (first rest : str) :
  ~ In nl first -> startswith first (py "#") = true ->
  chapter_body (first ++ nl :: rest) = rest.
Proof.
  intros Hnl Hhash. unfold chapter_body.
  rewrite split_nl_first by exact Hnl. rewrite Hhash.
  apply join_split_nl.
Qed.

(** What the assembler keeps of a chapter: everything when the text does
    not start with [#]; otherwise everything behind the first line feed,
    so that exactly the first line and its line feed are lost (and
    nothing is kept of a text that is a single heading line). *)
Theorem header_line_dropped (content : str) :
  (startswith content (py "#") = false -> chapter_body content = content)
  /\ (startswith content (py "#") = true ->
      exists first,
        ~ In nl first
        /\ startswith first (py "#") = true
        /\ (content = first /\ chapter_body content = []
            \/ content = first ++ nl :: chapter_body content)).
Proof.
  destruct (split_nl content) as [|first others] eqn:E;
    [now apply split_nl_not_nil in E|].
  pose proof (first_line_hash _ E) as Hfirst.
  assert (Hnl : ~ In nl first).
  { pose proof (split_nl_no_nl content) as H. rewrite E in H.
    now inversion H. }
  split; intro Hhash.
  - unfold chapter_body. now rewrite E, Hfirst, Hhash.
  - exists first. split; [exact Hnl|]. split; [congruence|].
    assert (Hbody : chapter_body content = join_nl others)
      by (unfold chapter_body; now rewrite E, Hfirst, Hhash).
    assert (Ec : content = join_nl (first :: others))
      by (rewrite <- E; symmetry; apply join_split_nl).
    rewrite Hbody. destruct others as [|o os]; [left|right].
    + split; [exact Ec|reflexivity].
    + exact Ec.
Qed.

Lemma header_line_dropped_witness :
  let content := py "# Installation" ++ nl :: nl :: py "Requires Zig." in
  startswith content (py "#") = true
  /\ chapter_body content = nl :: py "Requires Zig.".
Proof.
  intro content.
  assert (H : startswith content (py "#") = true) by reflexivity.
  split; [exact H|].
  destruct (proj2 (header_line_dropped content) H)
    as (first & _ & _ & [[E _]| E]).
  - vm_compute. reflexivity.
  - vm_compute. reflexivity.
Defined.

End ChapterHeader.

(** ** The API reference as a chapter of the book *)

Module ReferenceChapter.

Lemma api_reference_title (g : Generator) :
  exists rest,
    generate_api_reference g = py "# API Reference" ++ nl :: rest.
Proof.
  unfold generate_api_reference.
  rewrite (Renderer.fold_left_appends render_file
             Renderer.render_file_appends).
  eexists. unfold api_header, nlnl. rewrite <- !app_assoc. reflexivity.
Qed.

(** The reference written by the documentation generator fits the book:
    as a chapter, it loses its own title line [# API Reference] and
    nothing else, and stands under the numbered heading of its chapter. *)
Theorem api_reference_as_chapter
        (lower : str -> str) (dir : directory) (timestamp : str)
        (chapters : list (str * str)) (k : nat) (filename title : str)
        (g : Generator) :
  nth_error chapters k = Some (filename, title) ->
  dir filename = Chapter (generate_api_reference g) ->
  (forall fn t, In (fn, t) chapters -> stops (dir fn) = false) ->
  exists sections rest,
    generate_api_reference g = py "# API Reference" ++ nl :: rest
    /\ generate_combined_markdown lower dir timestamp chapters
       = Completed (front_matter lower timestamp chapters
                    ++ concat sections)
    /\ nth_error sections k
       = Some (heading (k + 1) title ++ rest ++ separator).
Proof.
  intros Hk Hfile Hok.
  destruct (api_reference_title g) as (rest & Eref).
  destruct (@Assembly.chapters_loop_completes dir chapters 1
              (front_matter lower timestamp chapters) Hok)
    as (sections & Hs & Eq).
  exists sections, rest. split; [exact Eref|]. split; [exact Eq|].
  destruct (@Assembly.sections_nth dir chapters 1 k sections
              (filename, title) Hs Hk) as (section & Hn & Hsec).
  unfold is_section in Hsec. cbn [fst snd] in Hsec.
  rewrite Hfile, Eref in Hsec.
  rewrite ChapterHeader.chapter_body_after_header in Hsec;
    [ | cbv; intuition discriminate | reflexivity ].
  etransitivity; [exact Hn|]. rewrite Hsec, (Nat.add_comm 1 k). reflexivity.
Qed.

(** The reference is the sixth chapter of the default registry. *)
Lemma api_reference_as_chapter_witness :
  nth_error default_chapters 5
  = Some (py "05-api-reference.md", py "API Reference")
  /\ only_reference fresh (py "05-api-reference.md")
     = Chapter (generate_api_reference fresh)
  /\ (forall fn t,
        In (fn, t) default_chapters ->
        stops (only_reference fresh fn) = false)
  /\ exists sections,
       nth_error sections 5
       = Some (py "# 6. API Reference" ++ nlnl
               ++ nl :: py "This is the complete API reference for zctor, "
               ++ py "automatically generated from source code." ++ nlnl
               ++ separator).
Proof.
  assert (Hk : nth_error default_chapters 5
               = Some (py "05-api-reference.md", py "API Reference"))
    by reflexivity.
  assert (Hfile : only_reference fresh (py "05-api-reference.md")
                  = Chapter (generate_api_reference fresh))
    by reflexivity.
  assert (Hok : forall fn t,
             In (fn, t) default_chapters ->
             stops (only_reference fresh fn) = false).
  { intros fn t _. unfold only_reference.
    destruct (str_eqb fn (py "05-api-reference.md")); reflexivity. }
  split; [exact Hk|]. split; [exact Hfile|]. split; [exact Hok|].
  destruct (@api_reference_as_chapter ascii_lower (only_reference fresh)
              (py "2025-01-01 00:00:00") default_chapters 5
              (py "05-api-reference.md") (py "API Reference") fresh
              Hk Hfile Hok) as (sections & rest & Eref & _ & Hn).
  exists sections. rewrite Hn. f_equal.
  assert (rest = nl :: py "This is the complete API reference for zctor, "
                 ++ py "automatically generated from source code." ++ nlnl)
    as -> by (vm_compute in Eref; injection Eref as <-; reflexivity).
  reflexivity.
Defined.

End ReferenceChapter.

(** ** The table of contents *)

Module Contents.

Lemma replace_In (c x : char) (by_ s : str) :
  In x (replace c by_ s) -> In x by_ \/ (x <> c /\ In x s).
Proof.
  unfold replace. intro H. apply in_flat_map in H as (y & Hy & Hx).
  destruct (N.eqb_spec y c) as [->|Hne]; [now left|].
  destruct Hx as [<-|[]]. right. auto.
Qed.

(** The anchor of a table-of-contents entry holds no space and no
    parenthesis, whatever the title: spaces become hyphens, parentheses
    are left out. *)
Theorem anchor_has_no_space_or_parenthesis
        (lower : str -> str) (title : str) :
  ~ In (chr " ") (anchor lower title)
  /\ ~ In (chr "(") (anchor lower title)
  /\ ~ In (chr ")") (anchor lower title).
Proof.
  unfold anchor. repeat split; intro H.
  - apply replace_In in H as [[]|[_ H]].
    apply replace_In in H as [[]|[_ H]].
    apply replace_In in H as [H|[H _]]; [|congruence].
    cbv in H. intuition discriminate.
  - apply replace_In in H as [[]|[_ H]].
    apply replace_In in H as [[]|[H _]]. congruence.
  - apply replace_In in H as [[]|[H _]]. congruence.
Qed.

Lemma toc_loop_entries (lower : str -> str) :
  forall chapters i f,
    toc_loop lower i chapters f
    = f ++ concat
        (map (fun p => str_of_nat (fst p) ++ py ". [" ++ snd (snd p)
                       ++ py "](#" ++ anchor lower (snd (snd p))
                       ++ py ")" ++ [nl])
           (combine (List.seq i (length chapters)) chapters)).
Proof.
  induction chapters as [|[filename title] chapters IH]; intros i f.
  - simpl. now rewrite app_nil_r.
  - cbn [toc_loop length List.seq combine map concat fst snd].
    rewrite IH. now rewrite <- !app_assoc.
Qed.

(** The table of contents has exactly one entry per chapter of the
    registry, in the order of the registry and numbered from 1, each
    linking the title to its anchor; it is written from the registry
    alone, also for the chapters whose file is missing. *)
Theorem contents_entry_per_chapter
        (lower : str -> str) (timestamp : str)
        (chapters : list (str * str)) :
  exists entries,
    length entries = length chapters
    /\ front_matter lower timestamp chapters
       = book_header timestamp ++ py "## Table of Contents" ++ nlnl
         ++ concat entries ++ [nl] ++ py "---" ++ nlnl
    /\ forall k filename title,
         nth_error chapters k = Some (filename, title) ->
         nth_error entries k
         = Some (str_of_nat (k + 1) ++ py ". [" ++ title ++ py "](#"
                 ++ anchor lower title ++ py ")" ++ [nl]).
Proof.
  eexists. split; [|split].
  - rewrite length_map, length_combine, length_seq. apply Nat.min_id.
  - unfold front_matter. rewrite toc_loop_entries.
    rewrite <- !app_assoc. reflexivity.
  - intros k filename title Hk.
    rewrite nth_error_map.
    assert (E : nth_error (combine (List.seq 1 (length chapters)) chapters) k
                = Some (k + 1, (filename, title))).
    { clear - Hk. revert k Hk. generalize 1 as i.
      induction chapters as [|c chapters IH]; intros i k Hk.
      - destruct k; discriminate.
      - cbn [length List.seq combine].
        destruct k as [|k]; cbn [nth_error] in *.
        + injection Hk as ->. now rewrite Nat.add_0_l.
        + rewrite (IH (S i) k Hk).
          replace (k + S i) with (S k + i) by lia. reflexivity. }
    rewrite E. reflexivity.
Qed.

(** The fourth entry of the default registry. *)
Lemma contents_entry_per_chapter_witness :
  nth_error default_chapters 3 = Some (py "03-quick-start.md", py "Quick Start")
  /\ exists entries,
       length entries = 11
       /\ nth_error entries 3
          = Some (py "4. [Quick Start](#quick-start)" ++ [nl]).
Proof.
  split; [reflexivity|].
  destruct (contents_entry_per_chapter ascii_lower (py "2025-01-01 00:00:00")
              default_chapters) as (entries & Hlen & _ & Hnth).
  exists entries. split; [exact Hlen|].
  exact (Hnth 3 (py "03-quick-start.md") (py "Quick Start") eq_refl).
Defined.

End Contents.

(** ** Encodings *)

Module Encoding.

Lemma encodable_app (table : char -> bool) (a b : str) :
  encodable table (a ++ b) = encodable table a && encodable table b.
Proof. apply forallb_app. Qed.

Lemma encodable_ascii (table : char -> bool) (s : str) :
  forallb (fun c => c <? 128)%N s = true -> encodable table s = true.
Proof.
  unfold encodable, encodes. rewrite !forallb_forall.
  intros H c Hc. now rewrite (H c Hc).
Qed.

Lemma encodable_one (table : char -> bool) (c : char) :
  encodes table c = true -> encodable table [c] = true.
Proof. intro H. cbn [encodable forallb]. now rewrite H. Qed.

Lemma digits_ascii (u : Decimal.uint) :
  forallb (fun c => c <? 128)%N (py (NilZero.string_of_uint u)) = true.
Proof.
  assert (H : forall v,
             forallb (fun c => c <? 128)%N (py (NilEmpty.string_of_uint v))
             = true)
    by (induction v; simpl; auto).
  destruct u; try apply H. reflexivity.
Qed.

Lemma encodable_str_of_nat (table : char -> bool) (n : nat) :
  encodable table (str_of_nat n) = true.
Proof. apply encodable_ascii, digits_ascii. Qed.

Lemma encodable_fmt_2d (table : char -> bool) (n : nat) :
  encodable table (fmt_2d n) = true.
Proof.
  unfold fmt_2d. rewrite encodable_app, encodable_str_of_nat, andb_true_r.
  apply encodable_ascii. induction (2 - length (str_of_nat n)); auto.
Qed.

Lemma print_line_length (table : char -> bool) (out out' : list str)
      (line : str) :
  print_line table out line = Some out' ->
  out' = out ++ [line] /\ length out' = S (length out).
Proof.
  unfold print_line. destruct (encodable table line); [|discriminate].
  intro H. injection H as <-. rewrite length_app. cbn [length].
  split; [reflexivity|lia].
Qed.

Lemma print_line_ok (table : char -> bool) (out : list str) (line : str) :
  encodable table line = true ->
  print_line table out line = Some (out ++ [line]).
Proof. unfold print_line. now intros ->. Qed.

End Encoding.

(** Encodable texts, part by part. *)
Ltac encodable_ascii_text :=
  apply Encoding.encodable_ascii; vm_compute; reflexivity.

Ltac encodable_parts :=
  lazymatch goal with
  | |- encodable _ (_ ++ _) = true =>
      rewrite Encoding.encodable_app; apply andb_true_intro; split;
      encodable_parts
  | |- encodable _ (str_of_nat _) = true =>
      apply Encoding.encodable_str_of_nat
  | |- encodable _ (fmt_2d _) = true => apply Encoding.encodable_fmt_2d
  | |- encodable _ (py _) = true => encodable_ascii_text
  | |- encodable _ [_] = true =>
      first [ apply Encoding.encodable_one; assumption
            | encodable_ascii_text ]
  | |- encodable _ temp_md = true => encodable_ascii_text
  | |- encodable _ html_before = true => encodable_ascii_text
  | |- encodable _ html_after = true => encodable_ascii_text
  | |- _ => assumption
  end.

(** ** Validation and listing of the chapters *)

Module Validation.

Section Reports.

Variable stdout_table : char -> bool.
Variable encode_error : str -> str.

(** A chapter that passes is a regular file that was read; a chapter on
    which the loop goes on could be checked. *)
Lemma validate_one_cases (t : tree) (filename title : str)
      (out : list str) :
  match validate_one stdout_table encode_error t filename title out with
  | Passed out' =>
      length out' = S (length out)
      /\ exists content, t filename = Path true (ReadOk content)
  | Flagged out' =>
      length out' = S (length out)
      /\ t filename <> NoAccess /\ forall r, t filename <> KindError r
  | Escaped => True
  end.
Proof.
  unfold validate_one, flag.
  destruct (t filename) as [|[|] [content|e]| |r];
    repeat match goal with
      | |- context [print_line ?tb ?o ?l] =>
          let E := fresh "E" in
          destruct (print_line tb o l) eqn:E;
            [apply Encoding.print_line_length in E as [_ E]|]
      end;
    try exact I;
    (split; [assumption|]); try (split; [discriminate|discriminate]).
  now exists content.
Qed.

Lemma validate_one_passes (t : tree) (filename title content : str)
      (out : list str) :
  t filename = Path true (ReadOk content) ->
  encodes stdout_table check_mark = true ->
  encodes stdout_table warning_sign = true ->
  encodable stdout_table filename = true ->
  encodable stdout_table title = true ->
  exists line,
    validate_one stdout_table encode_error t filename title out
    = Passed (out ++ [line]).
Proof.
  intros Ht Hcheck Hwarn Hfile Htitle. unfold validate_one. rewrite Ht.
  eexists. rewrite Encoding.print_line_ok; [reflexivity|].
  destruct (strip content); unfold report; encodable_parts.
Qed.

Lemma validate_loop_done (t : tree) :
  forall chapters all_valid out result out',
    validate_loop stdout_table encode_error t chapters all_valid out
    = Done result out' ->
    length out' = length out + length chapters
    /\ Forall (fun ch => t (fst ch) <> NoAccess
                         /\ forall r, t (fst ch) <> KindError r) chapters
    /\ (result = true ->
        all_valid = true
        /\ Forall (fun ch => exists content,
                       t (fst ch) = Path true (ReadOk content)) chapters).
Proof.
  induction chapters as [|[filename title] chapters IH];
    intros all_valid out result out' H; cbn [validate_loop] in H.
  - injection H as <- <-. cbn [length]. repeat split; auto; lia.
  - pose proof (validate_one_cases t filename title out) as Hone.
    destruct (validate_one stdout_table encode_error t filename title out)
      as [out1|out1|]; [| |discriminate].
    + destruct Hone as (Hlen & content & Hc).
      destruct (IH _ _ _ _ H) as (L & Hchk & Hres).
      cbn [length]. split; [lia|]. split.
      * constructor; [|exact Hchk]. cbn [fst]. rewrite Hc.
        split; [discriminate|intros r; discriminate].
      * intro Hr. destruct (Hres Hr) as [-> Hall]. split; [reflexivity|].
        constructor; [now exists content|exact Hall].
    + destruct Hone as (Hlen & Hchecked).
      destruct (IH _ _ _ _ H) as (L & Hchk & Hres).
      cbn [length]. split; [lia|]. split.
      * constructor; [exact Hchecked|exact Hchk].
      * intro Hr. destruct (Hres Hr) as [Hfalse _]. discriminate Hfalse.
Qed.

Lemma validate_loop_passes (t : tree) :
  forall chapters out,
    encodes stdout_table check_mark = true ->
    encodes stdout_table warning_sign = true ->
    Forall (fun ch => encodable stdout_table (fst ch) = true
                      /\ encodable stdout_table (snd ch) = true) chapters ->
    Forall (fun ch => exists content,
                t (fst ch) = Path true (ReadOk content)) chapters ->
    exists out',
      validate_loop stdout_table encode_error t chapters true out
      = Done true out'.
Proof.
  intros chapters out Hcheck Hwarn Henc Hread. revert out.
  induction Hread as [|[filename title] chapters [content Hc] _ IH];
    intro out.
  - now exists out.
  - inversion Henc as [|? ? [Hf Ht] Hrest]; subst. cbn [fst snd] in *.
    cbn [validate_loop].
    destruct (@validate_one_passes t filename title content out
                Hc Hcheck Hwarn Hf Ht) as (line & ->).
    exact (IH Hrest _).
Qed.

Lemma validate_chapters_done
      (t : tree) (chapters : list (str * str)) (out : list str)
      (result : bool) (out' : list str) :
  validate_chapters stdout_table encode_error t chapters out
  = Done result out' ->
  length out' = length out + length chapters + 2
  /\ Forall (fun ch => t (fst ch) <> NoAccess
                       /\ forall r, t (fst ch) <> KindError r) chapters
  /\ (result = true ->
      Forall (fun ch => exists content,
                  t (fst ch) = Path true (ReadOk content)) chapters).
Proof.
  unfold validate_chapters. intro H.
  destruct (print_line stdout_table out (py "Validating chapters..."))
    as [out0|] eqn:E0; [|discriminate].
  apply Encoding.print_line_length in E0 as [_ L0].
  destruct (validate_loop stdout_table encode_error t chapters true out0)
    as [all_valid out1|] eqn:E1; [|discriminate].
  apply validate_loop_done in E1 as (L1 & Hchk & Hres).
  match type of H with
  | context [print_line ?tb ?o ?l] =>
      destruct (print_line tb o l) as [out2|] eqn:E2; [|discriminate]
  end.
  apply Encoding.print_line_length in E2 as [_ L2].
  injection H as <- <-. split; [lia|]. split; [exact Hchk|].
  intro Hr. exact (proj2 (Hres Hr)).
Qed.

(** Validation returns [True] only when every chapter of the registry
    is a regular file whose text can be read; and it does so for such a
    registry when the standard output can encode the check mark, the
    warning sign, the titles and the file names: a chapter that is empty
    or holds only whitespace is reported and does not make it fail.
    Whenever validation returns, every chapter path could be checked, and
    one line was printed per chapter, between a first and a last line.
    (A path on which [exists()] or [is_file()] raises, or a line of the
    [except] branch that the standard output cannot encode, ends
    validation by an exception.) *)
Theorem validation_passes_iff
        (t : tree) (chapters : list (str * str)) (out : list str) :
  (forall result out',
      validate_chapters stdout_table encode_error t chapters out
      = Done result out' ->
      length out' = length out + length chapters + 2
      /\ Forall (fun ch => t (fst ch) <> NoAccess
                           /\ forall r, t (fst ch) <> KindError r) chapters
      /\ (result = true ->
          Forall (fun ch => exists content,
                      t (fst ch) = Path true (ReadOk content)) chapters))
  /\ (encodes stdout_table check_mark = true ->
      encodes stdout_table warning_sign = true ->
      Forall (fun ch => encodable stdout_table (fst ch) = true
                        /\ encodable stdout_table (snd ch) = true)
        chapters ->
      Forall (fun ch => exists content,
                  t (fst ch) = Path true (ReadOk content)) chapters ->
      exists out',
        validate_chapters stdout_table encode_error t chapters out
        = Done true out').
Proof.
  split; [intros result out'; apply validate_chapters_done|].
  intros Hcheck Hwarn Henc Hread. unfold validate_chapters.
  rewrite Encoding.print_line_ok by encodable_parts.
  destruct (@validate_loop_passes t chapters
              (out ++ [py "Validating chapters..."])
              Hcheck Hwarn Henc Hread) as (out1 & ->).
  rewrite Encoding.print_line_ok by encodable_parts.
  eexists. reflexivity.
Qed.

(** Validation that passes announces an assembly that completes: the
    book then holds the content of every chapter under its heading, and
    no placeholder. *)
Theorem validated_book_completes
        (lower : str -> str) (t : tree) (timestamp : str)
        (chapters : list (str * str)) (out out' : list str) :
  validate_chapters stdout_table encode_error t chapters out
  = Done true out' ->
  exists sections,
    generate_combined_markdown lower (directory_of t) timestamp chapters
    = Completed (front_matter lower timestamp chapters ++ concat sections)
    /\ Forall2
         (fun p section =>
            exists content,
              t (fst (snd p)) = Path true (ReadOk content)
              /\ section = heading (fst p) (snd (snd p))
                           ++ chapter_body content ++ separator)
         (combine (List.seq 1 (length chapters)) chapters) sections.
Proof.
  intro Hvalid.
  apply validate_chapters_done in Hvalid as (_ & _ & Hvalid).
  specialize (Hvalid eq_refl).
  unfold generate_combined_markdown.
  generalize (front_matter lower timestamp chapters) as f.
  generalize 1 as i. induction Hvalid as [|[filename title] chapters
                                            [content Hc] _ IH]; intros i f.
  - exists []. split; [simpl; now rewrite app_nil_r|constructor].
  - cbn [fst] in Hc. cbn [chapters_loop]. unfold directory_of at 1.
    rewrite Hc. cbn [chapter_of].
    destruct (IH (S i) (((f ++ heading i title) ++ chapter_body content)
                        ++ separator)) as (sections & Eq & Hs).
    exists ((heading i title ++ chapter_body content ++ separator)
              :: sections).
    split.
    + rewrite Eq. cbn [concat]. now rewrite <- !app_assoc.
    + cbn [length List.seq combine]. constructor; [|exact Hs].
      exists content. cbn [fst snd]. auto.
Qed.

(** *** Listing *)

Lemma list_loop_done (t : tree) :
  forall chapters i out out',
    list_loop stdout_table t i chapters out = Done tt out' ->
    Forall (fun ch => t (fst ch) <> NoAccess) chapters
    /\ out'
       = out
         ++ map (fun p =>
                   py "  " ++ fmt_2d (fst p) ++ py ". "
                   ++ [match directory_of t (fst (snd p)) with
                       | Missing => cross_mark
                       | _ => check_mark
                       end]
                   ++ py " " ++ snd (snd p) ++ py " (" ++ fst (snd p)
                   ++ py ")")
             (combine (List.seq i (length chapters)) chapters).
Proof.
  induction chapters as [|[filename title] chapters IH];
    intros i out out' H; cbn [list_loop] in H.
  - injection H as <-. split; [constructor|]. simpl. now rewrite app_nil_r.
  - cbn [length List.seq combine map fst snd]. unfold directory_of.
    destruct (t filename) as [|is_file [content|e]| |[content|e]] eqn:E;
      try discriminate H;
      match type of H with
      | context [print_line ?tb ?o ?l] =>
          let P := fresh "P" in
          destruct (print_line tb o l) as [out1|] eqn:P;
            [apply Encoding.print_line_length in P as [-> _]
            |discriminate H]
      end;
      destruct (IH _ _ _ H) as (Hacc & ->);
      (split; [constructor; [cbn [fst]; rewrite E; discriminate
                            |exact Hacc]|]);
      rewrite <- app_assoc; reflexivity.
Qed.

Lemma list_loop_returns (t : tree) :
  forall chapters i out,
    Forall (fun ch => t (fst ch) <> NoAccess) chapters ->
    encodes stdout_table check_mark = true ->
    encodes stdout_table cross_mark = true ->
    Forall (fun ch => encodable stdout_table (fst ch) = true
                      /\ encodable stdout_table (snd ch) = true) chapters ->
    exists out', list_loop stdout_table t i chapters out = Done tt out'.
Proof.
  induction chapters as [|[filename title] chapters IH];
    intros i out Hacc Hcheck Hcross Henc.
  - now exists out.
  - inversion Hacc as [|? ? Ha Hacc']; subst.
    inversion Henc as [|? ? [Hf Ht] Henc']; subst. cbn [fst snd] in *.
    cbn [list_loop].
    destruct (t filename) as [|is_file read| |read]; try contradiction;
      (rewrite Encoding.print_line_ok by encodable_parts;
       exact (IH _ _ Hacc' Hcheck Hcross Henc')).
Qed.

Lemma combine_seq_nth {A} (l : list A) (k : nat) (x : A) :
  forall i,
    nth_error l k = Some x ->
    nth_error (combine (List.seq i (length l)) l) k = Some (k + i, x).
Proof.
  revert k. induction l as [|a l IH]; intros k i Hk.
  - destruct k; discriminate.
  - cbn [length List.seq combine].
    destruct k as [|k]; cbn [nth_error] in *.
    + injection Hk as ->. reflexivity.
    + rewrite (IH k (S i) Hk).
      replace (k + S i) with (S k + i) by lia. reflexivity.
Qed.

(** Whenever the listing returns, every chapter path could be checked
    for existence, and one line was printed per chapter of the registry,
    in order, with its ordinal in two columns: it marks with a cross
    exactly the chapters for which the assembler writes the not-found
    notice, and with a check mark every path that exists, readable or
    not.  The listing returns when every path can be checked and the
    standard output can encode the two marks, the titles and the file
    names; a path on which [exists()] raises, or a line that cannot be
    encoded, ends it by an exception. *)
Theorem listing_marks_missing_chapters
        (t : tree) (chapters : list (str * str)) (out : list str) :
  (forall out',
      list_chapters stdout_table t chapters out = Done tt out' ->
      length out' = length out + 1 + length chapters
      /\ Forall (fun ch => t (fst ch) <> NoAccess) chapters
      /\ forall k filename title,
           nth_error chapters k = Some (filename, title) ->
           nth_error out' (length out + 1 + k)
           = Some (py "  " ++ fmt_2d (k + 1) ++ py ". "
                   ++ [match directory_of t filename with
                       | Missing => cross_mark
                       | _ => check_mark
                       end]
                   ++ py " " ++ title ++ py " (" ++ filename ++ py ")"))
  /\ (Forall (fun ch => t (fst ch) <> NoAccess) chapters ->
      encodes stdout_table check_mark = true ->
      encodes stdout_table cross_mark = true ->
      Forall (fun ch => encodable stdout_table (fst ch) = true
                        /\ encodable stdout_table (snd ch) = true)
        chapters ->
      exists out', list_chapters stdout_table t chapters out = Done tt out').
Proof.
  unfold list_chapters.
  rewrite Encoding.print_line_ok by encodable_parts. split.
  - intros out' H. apply list_loop_done in H as (Hacc & ->).
    split; [|split; [exact Hacc|]].
    + rewrite !length_app, length_map, length_combine, length_seq,
        Nat.min_id.
      reflexivity.
    + intros k filename title Hk.
      rewrite nth_error_app2 by (rewrite length_app; cbn [length]; lia).
      rewrite length_app. cbn [length].
      replace (length out + 1 + k - (length out + 1)) with k by lia.
      rewrite nth_error_map.
      match goal with
      | |- option_map ?f _ = _ =>
          transitivity (option_map f (Some (k + 1, (filename, title))));
            [f_equal; now apply combine_seq_nth | reflexivity]
      end.
  - intros Hacc Hcheck Hcross Henc. now apply list_loop_returns.
Qed.

End Reports.

(** The blank second chapter is reported and accepted. *)
Lemma validation_passes_iff_witness :
  encodes utf8 check_mark = true
  /\ encodes utf8 warning_sign = true
  /\ Forall (fun ch => encodable utf8 (fst ch) = true
                       /\ encodable utf8 (snd ch) = true) scenario_chapters
  /\ Forall (fun ch => exists content,
                 scenario_tree (fst ch) = Path true (ReadOk content))
       scenario_chapters
  /\ validate_chapters utf8 (fun _ => []) scenario_tree scenario_chapters []
     = Done true
         [ py "Validating chapters...";
           py "  " ++ [check_mark] ++ py " Valid: Intro (a.md) - 9 chars";
           py "  " ++ [warning_sign] ++ py " Empty: Setup (b.md)";
           [nl] ++ py "Validation passed" ].
Proof.
  assert (Hcheck : encodes utf8 check_mark = true) by reflexivity.
  assert (Hwarn : encodes utf8 warning_sign = true) by reflexivity.
  assert (Henc : Forall (fun ch => encodable utf8 (fst ch) = true
                                   /\ encodable utf8 (snd ch) = true)
                   scenario_chapters)
    by (repeat constructor).
  assert (H : Forall (fun ch => exists content,
                          scenario_tree (fst ch) = Path true (ReadOk content))
                scenario_chapters)
    by (repeat constructor; eexists; reflexivity).
  split; [exact Hcheck|]. split; [exact Hwarn|]. split; [exact Henc|].
  split; [exact H|].
  destruct (proj2 (validation_passes_iff utf8 (fun _ => []) scenario_tree
                     scenario_chapters []) Hcheck Hwarn Henc H)
    as (out' & Hpass).
  etransitivity; [exact Hpass|].
  vm_compute in Hpass. injection Hpass as <-. reflexivity.
Defined.

Lemma validated_book_completes_witness :
  exists out',
    validate_chapters utf8 (fun _ => []) scenario_tree scenario_chapters []
    = Done true out'
    /\ exists sections,
         generate_combined_markdown ascii_lower (directory_of scenario_tree)
           (py "2025-01-01 00:00:00") scenario_chapters
         = Completed
             (front_matter ascii_lower (py "2025-01-01 00:00:00")
                scenario_chapters ++ concat sections)
         /\ length sections = 2.
Proof.
  eexists.
  assert (H : validate_chapters utf8 (fun _ => []) scenario_tree
                scenario_chapters [] = Done true _)
    by (vm_compute; reflexivity).
  split; [exact H|].
  destruct (@validated_book_completes utf8 (fun _ => []) ascii_lower
              scenario_tree (py "2025-01-01 00:00:00") scenario_chapters
              [] _ H)
    as (sections & Eq & Hs).
  exists sections. split; [exact Eq|].
  apply Forall2_length in Hs. rewrite <- Hs. reflexivity.
Defined.

Lemma listing_marks_missing_chapters_witness :
  exists out',
    list_chapters utf8 (fun _ => NoPath) default_chapters [] = Done tt out'
    /\ nth_error default_chapters 10
       = Some (py "10-appendix.md", py "Appendix")
    /\ nth_error out' 11
       = Some (py "  11. " ++ [cross_mark]
               ++ py " Appendix (10-appendix.md)").
Proof.
  eexists.
  assert (H : list_chapters utf8 (fun _ => NoPath) default_chapters []
              = Done tt _) by (vm_compute; reflexivity).
  split; [exact H|]. split; [reflexivity|].
  exact (proj2 (proj2 (proj1 (listing_marks_missing_chapters utf8
                                (fun _ => NoPath) default_chapters [])
                         _ H))
           10 (py "10-appendix.md") (py "Appendix") eq_refl).
Defined.

(** On a standard output that encodes ASCII only, validation of the
    scenario is left by [UnicodeEncodeError]: the check mark of the first
    chapter cannot be printed, nor can the cross of the [except] branch
    that catches the error.  Below a directory that may not be searched,
    it is left by the error of [exists()]. *)
Example validation_raises :
  validate_chapters ascii_only (fun _ => py "codec can't encode")
    scenario_tree scenario_chapters []
  = Exception [py "Validating chapters..."]
  /\ validate_chapters utf8 (fun _ => []) guarded_tree scenario_chapters []
     = Exception [py "Validating chapters..."]
  /\ list_chapters ascii_only scenario_tree scenario_chapters []
     = Exception [py "Available chapters:"]
  /\ list_chapters utf8 guarded_tree scenario_chapters []
     = Exception [py "Available chapters:"].
Proof. repeat split; vm_compute; reflexivity. Qed.

End Validation.

(** ** The HTML book *)

Module Html.

Section Book.

Variable lower : str -> str.
Variable stdout_table : char -> bool.
Variable locale_table : char -> bool.

Lemma html_document_encodable (html : str) :
  encodable locale_table html = true ->
  encodable locale_table (html_before ++ html ++ html_after) = true.
Proof. intro H. encodable_parts. Qed.

(** When the package is there, the assembly completes, the conversion
    returns a text that the encoding of the locale can write, the two
    files can be opened for writing and the temporary one removed, and
    the name of the output file can be printed, the HTML generation
    returns: the temporary markdown file is gone, no other file than the
    two is touched, and the output file holds the converted book inside
    the HTML document.  An output path that names the temporary file,
    under whatever spelling, is the exception: the document written there
    is removed with it. *)
Theorem html_written_temp_removed
        (convert : str -> option str) (dir : directory)
        (timestamp : str) (chapters : list (str * str))
        (output_file : str) (out : list str) (d : disk)
        (book html : str) :
  writable d (file_of d temp_md) = true ->
  removable d (file_of d temp_md) = true ->
  writable d (file_of d output_file) = true ->
  generate_combined_markdown lower dir timestamp chapters = Completed book ->
  convert book = Some html ->
  encodable locale_table html = true ->
  encodable stdout_table output_file = true ->
  exists out' d',
    generate_html lower stdout_table locale_table (Some convert) dir
      timestamp chapters output_file out d = Finished out' d'
    /\ file_of d' = file_of d
    /\ content_at d' (file_of d temp_md) = None
    /\ (file_of d output_file <> file_of d temp_md ->
        content_at d' (file_of d output_file)
        = Some (html_before ++ html ++ html_after))
    /\ (forall q, q <> file_of d temp_md -> q <> file_of d output_file ->
                  content_at d' q = content_at d q).
Proof.
  intros Wtemp Rtemp Wout Hbook Hconv Henc Hprint.
  unfold generate_html, write_combined_markdown.
  rewrite Wtemp, Hbook.
  rewrite Encoding.print_line_ok by encodable_parts.
  cbn [file_of put content_at]. rewrite N.eqb_refl, Hconv.
  unfold write_file. cbn [file_of put writable]. rewrite Wout.
  rewrite html_document_encodable by exact Henc.
  unfold remove_file. cbn [file_of put content_at removable].
  rewrite N.eqb_refl, Rtemp.
  rewrite Encoding.print_line_ok by encodable_parts.
  destruct (N.eqb_spec (file_of d temp_md) (file_of d output_file))
    as [Esame|Eother];
    (eexists; eexists; split; [reflexivity|]);
    cbn [file_of put content_at]; (split; [reflexivity|]);
    rewrite N.eqb_refl; (split; [reflexivity|]); split.
  - intro Hne. congruence.
  - intros q Hq Hq'.
    rewrite !(proj2 (N.eqb_neq _ _)) by assumption. reflexivity.
  - intro Hne. rewrite (proj2 (N.eqb_neq _ _) Hne), N.eqb_refl.
    reflexivity.
  - intros q Hq Hq'.
    rewrite !(proj2 (N.eqb_neq _ _)) by assumption. reflexivity.
Qed.

(** Without the package the HTML generation prints its two lines and
    returns with the files as they were.  When a chapter makes the
    assembler stop, the exception leaves the generation: no HTML is
    written, and the temporary markdown file stays behind with the text
    written before the chapter. *)
Theorem html_not_written
        (dir : directory) (timestamp : str)
        (chapters : list (str * str)) (output_file : str)
        (out : list str) (d : disk) :
  generate_html lower stdout_table locale_table None dir timestamp chapters
    output_file out d
  = Finished
      (out ++ [py "Error: markdown package required for HTML generation";
               py "Install with: pip install markdown"]) d
  /\ forall convert partial,
       writable d (file_of d temp_md) = true ->
       generate_combined_markdown lower dir timestamp chapters
       = Aborted partial ->
       exists d',
         generate_html lower stdout_table locale_table (Some convert) dir
           timestamp chapters output_file out d = Failed out d'
         /\ content_at d' (file_of d temp_md) = Some partial
         /\ forall q, q <> file_of d temp_md ->
                      content_at d' q = content_at d q.
Proof.
  split.
  - unfold generate_html.
    rewrite !Encoding.print_line_ok by encodable_parts.
    now rewrite <- app_assoc.
  - intros convert partial Wtemp Habort.
    unfold generate_html, write_combined_markdown.
    rewrite Wtemp, Habort.
    eexists. split; [reflexivity|]. cbn [content_at put]. split.
    + now rewrite N.eqb_refl.
    + intros q Hq. now rewrite (proj2 (N.eqb_neq _ _) Hq).
Qed.

End Book.

Lemma html_written_temp_removed_witness :
  writable blank_disk (file_of blank_disk temp_md) = true
  /\ removable blank_disk (file_of blank_disk temp_md) = true
  /\ writable blank_disk (file_of blank_disk (py "zctor-book.html")) = true
  /\ encodable utf8 (py "zctor-book.html") = true
  /\ exists book html out' d',
       generate_combined_markdown ascii_lower scenario_dir
         (py "2025-01-01 00:00:00") scenario_chapters = Completed book
       /\ paragraph book = Some html
       /\ encodable utf8 html = true
       /\ generate_html ascii_lower utf8 utf8 (Some paragraph) scenario_dir
            (py "2025-01-01 00:00:00") scenario_chapters
            (py "zctor-book.html") [] blank_disk = Finished out' d'
       /\ content_at d' (file_of blank_disk temp_md) = None
       /\ content_at d' (file_of blank_disk (py "zctor-book.html"))
          = Some (html_before ++ html ++ html_after).
Proof.
  split; [reflexivity|]. split; [reflexivity|]. split; [reflexivity|].
  split; [reflexivity|].
  destruct (generate_combined_markdown ascii_lower scenario_dir
              (py "2025-01-01 00:00:00") scenario_chapters)
    as [book|partial] eqn:Hbook; [|vm_compute in Hbook; discriminate Hbook].
  exists book, (py "<p>" ++ book ++ py "</p>").
  assert (Hconv : paragraph book = Some (py "<p>" ++ book ++ py "</p>"))
    by reflexivity.
  assert (Henc : encodable utf8 (py "<p>" ++ book ++ py "</p>") = true).
  { vm_compute in Hbook. injection Hbook as <-. vm_compute. reflexivity. }
  destruct (@html_written_temp_removed ascii_lower utf8 utf8 paragraph
              scenario_dir (py "2025-01-01 00:00:00") scenario_chapters
              (py "zctor-book.html") [] blank_disk book
              (py "<p>" ++ book ++ py "</p>")
              eq_refl eq_refl eq_refl Hbook Hconv Henc eq_refl)
    as (out' & d' & Hrun & _ & Htemp & Hout & _).
  exists out', d'. split; [reflexivity|]. split; [exact Hconv|].
  split; [exact Henc|]. split; [exact Hrun|].
  split; [exact Htemp|]. apply Hout. vm_compute. discriminate.
Defined.

Lemma html_not_written_witness :
  writable blank_disk (file_of blank_disk temp_md) = true
  /\ exists partial d',
       generate_combined_markdown ascii_lower blocked_dir
         (py "2025-01-01 00:00:00") scenario_chapters = Aborted partial
       /\ generate_html ascii_lower utf8 utf8 (Some paragraph) blocked_dir
            (py "2025-01-01 00:00:00") scenario_chapters
            (py "zctor-book.html") [] blank_disk = Failed [] d'
       /\ content_at d' (file_of blank_disk temp_md) = Some partial
       /\ content_at d' (file_of blank_disk (py "zctor-book.html")) = None.
Proof.
  split; [reflexivity|].
  assert (Habort : exists partial,
             generate_combined_markdown ascii_lower blocked_dir
               (py "2025-01-01 00:00:00") scenario_chapters
             = Aborted partial)
    by (eexists; reflexivity).
  destruct Habort as (partial & Habort). exists partial.
  destruct (proj2 (html_not_written ascii_lower utf8 utf8 blocked_dir
                     (py "2025-01-01 00:00:00") scenario_chapters
                     (py "zctor-book.html") [] blank_disk)
              paragraph partial eq_refl Habort)
    as (d' & Hrun & Htemp & Hother).
  exists d'. split; [exact Habort|]. split; [exact Hrun|].
  split; [exact Htemp|].
  rewrite Hother; [reflexivity|]. vm_compute. discriminate.
Defined.

(** An output path that spells the temporary file otherwise: the HTML
    document is written into the temporary file and removed with it, and
    the generation returns without an output file. *)
Example html_into_temporary_file :
  file_of current_dir_disk (py "./temp_book.md")
  = file_of current_dir_disk temp_md
  /\ match generate_html ascii_lower utf8 utf8 (Some paragraph) scenario_dir
             (py "2025-01-01 00:00:00") scenario_chapters
             (py "./temp_book.md") [] current_dir_disk with
     | Finished out d' =>
         out = [py "Combined markdown book generated: temp_book.md";
                py "HTML book generated: ./temp_book.md"]
         /\ content_at d' (file_of d' (py "./temp_book.md")) = None
     | Failed _ _ => False
     end.
Proof. split; vm_compute; auto. Qed.

End Html.

(** ** The run of the documentation generator *)

Module Run.

Section Docs.
Variable unicode_isalnum : char -> bool.
Variable stdout_table : char -> bool.
Variable locale_table : char -> bool.
Variable docs_path : str -> str.

Lemma say_ok (g : Generator) (line : str) :
  encodable stdout_table line = true ->
  say stdout_table g line
  = Some {| api_docs := api_docs g; console := console g ++ [line] |}.
Proof. intro H. unfold say. now rewrite Encoding.print_line_ok. Qed.

(** A source file that cannot be opened ends the run before anything is
    written: both output files are left as they were. *)
Theorem nothing_written_when_scan_fails
        (files : list SourceFile) (docs_dir : str) (g : Generator)
        (d : disk) :
  Exists (fun f => read_raises f = true) files ->
  generate_docs unicode_isalnum stdout_table locale_table docs_path files
    docs_dir g d
  = (Raises, d).
Proof.
  intro Hbad. unfold generate_docs.
  destruct (say stdout_table g (py "Scanning source files..."));
    [|reflexivity].
  now rewrite (Batch.scan_source_files_raises unicode_isalnum _ Hbad).
Qed.

(** When every source file can be opened, both output paths can be
    written and name two files, the encoding of the locale can write the
    API reference, and the standard output can print the warnings of the
    scan and the three paths, the run returns: the reference file holds
    the API reference of the scanned records, the table-of-contents file
    holds the fixed table, no other file is touched, and the number of
    stored records is reported. *)
Theorem docs_written
        (files : list SourceFile) (docs_dir : str) (g : Generator)
        (d : disk) :
  Forall (fun f => read_raises f = false) files ->
  writable d (file_of d (docs_path (py "05-api-reference.md"))) = true ->
  writable d (file_of d (docs_path (py "table-of-contents.md"))) = true ->
  file_of d (docs_path (py "05-api-reference.md"))
  <> file_of d (docs_path (py "table-of-contents.md")) ->
  (forall scanned,
      scan_source_files unicode_isalnum files
        {| api_docs := api_docs g;
           console := console g ++ [py "Scanning source files..."] |}
      = Returned scanned ->
      encodable locale_table (generate_api_reference scanned) = true) ->
  Forall (fun f => decode_failed f = true ->
                    encodable stdout_table (warning (sf_path f)) = true)
    files ->
  encodable stdout_table docs_dir = true ->
  encodable stdout_table (docs_path (py "05-api-reference.md")) = true ->
  encodable stdout_table (docs_path (py "table-of-contents.md")) = true ->
  exists scanned g' d',
    scan_source_files unicode_isalnum files
      {| api_docs := api_docs g;
         console := console g ++ [py "Scanning source files..."] |}
    = Returned scanned
    /\ generate_docs unicode_isalnum stdout_table locale_table docs_path
         files docs_dir g d
       = (Returned g', d')
    /\ api_docs g' = api_docs scanned
    /\ content_at d' (file_of d (docs_path (py "05-api-reference.md")))
       = Some (generate_api_reference scanned)
    /\ content_at d' (file_of d (docs_path (py "table-of-contents.md")))
       = Some generate_table_of_contents
    /\ (forall q,
          q <> file_of d (docs_path (py "05-api-reference.md")) ->
          q <> file_of d (docs_path (py "table-of-contents.md")) ->
          content_at d' q = content_at d q)
    /\ In (py "Found " ++ str_of_nat (length (api_docs scanned))
           ++ py " source files with documentation") (console g').
Proof.
  intros Hok Wapi Wtoc Hne Henc _ Pdir Papi Ptoc. unfold generate_docs.
  rewrite say_ok by encodable_parts.
  specialize (Henc _ (Batch.scan_source_files_returns unicode_isalnum _ Hok)).
  rewrite (Batch.scan_source_files_returns unicode_isalnum _ Hok) in *.
  rewrite !say_ok by encodable_parts.
  cbn [api_docs console]. unfold write_file.
  rewrite Wapi. unfold generate_api_reference in *. cbn [api_docs] in *.
  rewrite Henc. cbn [file_of put writable]. rewrite Wtoc.
  rewrite (Encoding.encodable_ascii locale_table generate_table_of_contents)
    by (vm_compute; reflexivity).
  eexists. eexists. eexists. split; [reflexivity|].
  split; [reflexivity|]. cbn [api_docs console content_at put].
  split; [reflexivity|]. split; [|split; [|split]].
  - rewrite (proj2 (N.eqb_neq _ _) Hne). now rewrite N.eqb_refl.
  - now rewrite N.eqb_refl.
  - intros q Hq Hq'.
    rewrite !(proj2 (N.eqb_neq _ _)) by assumption. reflexivity.
  - rewrite !in_app_iff. cbn [In]. tauto.
Qed.

(** When the encoding of the locale cannot write the API reference (the
    sources are read as UTF-8, the reference is written in the encoding
    of the locale), the run is left by [UnicodeEncodeError] once the scan
    has returned and printed its warnings: the reference file was opened
    and is left empty, the table of contents is not written, and no other
    file is touched. *)
Theorem reference_not_encodable
        (files : list SourceFile) (docs_dir : str) (g : Generator)
        (d : disk) (scanned : Generator) :
  scan_source_files unicode_isalnum files
    {| api_docs := api_docs g;
       console := console g ++ [py "Scanning source files..."] |}
  = Returned scanned ->
  Forall (fun f => decode_failed f = true ->
                    encodable stdout_table (warning (sf_path f)) = true)
    files ->
  writable d (file_of d (docs_path (py "05-api-reference.md"))) = true ->
  encodable locale_table (generate_api_reference scanned) = false ->
  exists d',
    generate_docs unicode_isalnum stdout_table locale_table docs_path
      files docs_dir g d
    = (Raises, d')
    /\ content_at d' (file_of d (docs_path (py "05-api-reference.md")))
       = Some []
    /\ forall q,
         q <> file_of d (docs_path (py "05-api-reference.md")) ->
         content_at d' q = content_at d q.
Proof.
  intros Hscan _ Wapi Henc. unfold generate_docs.
  rewrite say_ok by encodable_parts. rewrite Hscan.
  rewrite !say_ok by encodable_parts.
  cbn [api_docs console]. unfold write_file.
  rewrite Wapi. unfold generate_api_reference in *. cbn [api_docs] in *.
  rewrite Henc.
  eexists. split; [reflexivity|]. cbn [content_at put]. split.
  - now rewrite N.eqb_refl.
  - intros q Hq. now rewrite (proj2 (N.eqb_neq _ _) Hq).
Qed.

End Docs.

Lemma nothing_written_when_scan_fails_witness :
  Exists (fun f => read_raises f = true) [actor_file; locked_file]
  /\ generate_docs (fun _ => false) utf8 utf8 (fun name => py "docs/" ++ name)
       [actor_file; locked_file] (py "docs") fresh blank_disk
     = (Raises, blank_disk).
Proof.
  assert (H : Exists (fun f => read_raises f = true)
                [actor_file; locked_file])
    by (right; left; reflexivity).
  split; [exact H|].
  exact (nothing_written_when_scan_fails (fun _ => false) utf8 utf8
           (fun name => py "docs/" ++ name) (py "docs") fresh blank_disk H).
Defined.

Lemma docs_written_witness :
  let docs_path := fun name => py "docs/" ++ name in
  let files := [latin1_file; unicode_file] in
  Forall (fun f => read_raises f = false) files
  /\ (forall scanned,
        scan_source_files (fun _ => false) files
          {| api_docs := api_docs fresh;
             console := console fresh ++ [py "Scanning source files..."] |}
        = Returned scanned ->
        encodable utf8 (generate_api_reference scanned) = true)
  /\ Forall (fun f => decode_failed f = true ->
                       encodable utf8 (warning (sf_path f)) = true) files
  /\ exists scanned g' d',
       generate_docs (fun _ => false) utf8 utf8 docs_path files (py "docs")
         fresh blank_disk
       = (Returned g', d')
       /\ content_at d' (file_of blank_disk (py "docs/05-api-reference.md"))
          = Some (generate_api_reference scanned)
       /\ map fst (api_docs scanned) = [py "src/cafe.zig"].
Proof.
  intros docs_path files.
  assert (H : Forall (fun f => read_raises f = false) files)
    by (repeat constructor).
  assert (Henc : forall scanned,
             scan_source_files (fun _ => false) files
               {| api_docs := api_docs fresh;
                  console := console fresh
                             ++ [py "Scanning source files..."] |}
             = Returned scanned ->
             encodable utf8 (generate_api_reference scanned) = true).
  { intros scanned Hscan. vm_compute in Hscan. injection Hscan as <-.
    vm_compute. reflexivity. }
  assert (Hwarn : Forall (fun f => decode_failed f = true ->
                                   encodable utf8 (warning (sf_path f))
                                   = true) files)
    by (repeat constructor).
  split; [exact H|]. split; [exact Henc|]. split; [exact Hwarn|].
  destruct (@docs_written (fun _ => false) utf8 utf8 docs_path files
              (py "docs") fresh blank_disk H eq_refl eq_refl)
    as (scanned & g' & d' & Hscan & Hrun & _ & Hapi & _);
    [vm_compute; discriminate | exact Henc | exact Hwarn | reflexivity
    | reflexivity | reflexivity | ].
  exists scanned, g', d'. split; [exact Hrun|]. split; [exact Hapi|].
  vm_compute in Hscan. injection Hscan as <-. reflexivity.
Defined.

Lemma reference_not_encodable_witness :
  let docs_path := fun name => py "docs/" ++ name in
  exists scanned d',
    scan_source_files (fun _ => false) [unicode_file]
      {| api_docs := api_docs fresh;
         console := console fresh ++ [py "Scanning source files..."] |}
    = Returned scanned
    /\ encodable ascii_only (generate_api_reference scanned) = false
    /\ generate_docs (fun _ => false) utf8 ascii_only docs_path
         [unicode_file] (py "docs") fresh blank_disk
       = (Raises, d')
    /\ content_at d' (file_of blank_disk (py "docs/05-api-reference.md"))
       = Some []
    /\ content_at d' (file_of blank_disk (py "docs/table-of-contents.md"))
       = None.
Proof.
  intro docs_path.
  destruct (scan_source_files (fun _ => false) [unicode_file]
              {| api_docs := api_docs fresh;
                 console := console fresh
                            ++ [py "Scanning source files..."] |})
    as [scanned|] eqn:Hscan; [|vm_compute in Hscan; discriminate Hscan].
  exists scanned.
  assert (Henc : encodable ascii_only (generate_api_reference scanned)
                 = false).
  { vm_compute in Hscan. injection Hscan as <-. vm_compute. reflexivity. }
  assert (Hwarn : Forall (fun f => decode_failed f = true ->
                                   encodable utf8 (warning (sf_path f))
                                   = true) [unicode_file])
    by (repeat constructor; discriminate).
  destruct (@reference_not_encodable (fun _ => false) utf8 ascii_only
              docs_path [unicode_file] (py "docs") fresh blank_disk scanned
              Hscan Hwarn eq_refl Henc)
    as (d' & Hrun & Hapi & Hother).
  exists d'. split; [reflexivity|]. split; [exact Henc|].
  split; [exact Hrun|]. split; [exact Hapi|].
  rewrite Hother; [reflexivity|]. vm_compute. discriminate.
Defined.

End Run.

(** ** Shape of the sections and of a book left unfinished *)

Module Sections.

Lemma section_shape (dir : directory) (i : nat) (chapter : str * str)
      (section : str) :
  is_section dir i chapter section ->
  exists middle,
    section = heading i (snd chapter) ++ middle ++ separator.
Proof.
  unfold is_section. destruct (dir (fst chapter)) as [|content| |].
  - intros ->. exists (py "*Chapter not found: " ++ fst chapter ++ py "*").
    unfold not_found, separator. now rewrite <- !app_assoc.
  - intros ->. now exists (chapter_body content).
  - contradiction.
  - contradiction.
Qed.

(** Every section of an assembled book, of a chapter that was found or
    not, starts with the numbered heading of its chapter and ends with
    the separator. *)
Theorem sections_delimited
        (lower : str -> str) (dir : directory) (timestamp : str)
        (chapters : list (str * str)) (book : str) :
  generate_combined_markdown lower dir timestamp chapters = Completed book ->
  exists sections,
    book = front_matter lower timestamp chapters ++ concat sections
    /\ Forall2
         (fun p section =>
            exists middle,
              section = heading (fst p) (snd (snd p)) ++ middle ++ separator)
         (combine (List.seq 1 (length chapters)) chapters) sections.
Proof.
  unfold generate_combined_markdown. intro Hbook.
  destruct (Assembly.chapters_loop_outcome dir chapters 1
              (front_matter lower timestamp chapters))
    as [(sections & Hs & Eq)|(fn & t & f & _ & _ & Eq)];
    [|congruence].
  exists sections. split; [congruence|].
  eapply Forall2_impl; [|exact Hs].
  intros p section Hsec. cbv beta in Hsec.
  now apply section_shape in Hsec.
Qed.

Lemma sections_delimited_witness :
  exists book,
    generate_combined_markdown ascii_lower scenario_dir
      (py "2025-01-01 00:00:00") scenario_chapters = Completed book
    /\ exists sections,
        book = front_matter ascii_lower (py "2025-01-01 00:00:00")
                 scenario_chapters ++ concat sections
        /\ Forall2
             (fun p section =>
                exists middle,
                  section
                  = heading (fst p) (snd (snd p)) ++ middle ++ separator)
             (combine (List.seq 1 (length scenario_chapters))
                scenario_chapters) sections.
Proof.
  eexists.
  assert (Hbook : generate_combined_markdown ascii_lower scenario_dir
                    (py "2025-01-01 00:00:00") scenario_chapters
                  = Completed _) by (vm_compute; reflexivity).
  split; [exact Hbook|].
  exact (sections_delimited _ _ _ _ Hbook).
Defined.

Lemma chapters_loop_aborted (dir : directory) :
  forall chapters i f partial,
    chapters_loop dir i chapters f = Aborted partial ->
    exists k filename title sections,
      nth_error chapters k = Some (filename, title)
      /\ stops (dir filename) = true
      /\ Forall (fun ch => stops (dir (fst ch)) = false) (firstn k chapters)
      /\ Forall2 (fun p section => is_section dir (fst p) (snd p) section)
           (combine (List.seq i k) (firstn k chapters)) sections
      /\ partial = f ++ concat sections
                   ++ match dir filename with
                      | Unreadable => heading (i + k) title
                      | _ => []
                      end.
Proof.
  induction chapters as [|[filename title] chapters IH];
    intros i f partial H; cbn [chapters_loop] in H; [discriminate|].
  destruct (dir filename) as [|content| |] eqn:E.
  - destruct (IH _ _ _ H) as (k & fn & t & sections & Hk & Hu & Hok & Hs & ->).
    exists (S k), fn, t, (not_found i filename title :: sections).
    cbn [nth_error firstn List.seq combine concat].
    repeat split; auto.
    + constructor; [cbn [fst]; now rewrite E|exact Hok].
    + constructor; [|exact Hs]. unfold is_section. cbn [fst snd].
      now rewrite E.
    + rewrite <- !app_assoc. now rewrite Nat.add_succ_r.
  - destruct (IH _ _ _ H) as (k & fn & t & sections & Hk & Hu & Hok & Hs & ->).
    exists (S k), fn, t,
      ((heading i title ++ chapter_body content ++ separator) :: sections).
    cbn [nth_error firstn List.seq combine concat].
    repeat split; auto.
    + constructor; [cbn [fst]; now rewrite E|exact Hok].
    + constructor; [|exact Hs]. unfold is_section. cbn [fst snd].
      now rewrite E.
    + rewrite <- !app_assoc. now rewrite Nat.add_succ_r.
  - injection H as <-. exists 0, filename, title, [].
    cbn [nth_error firstn List.seq combine concat app].
    rewrite E, Nat.add_0_r. repeat split; auto; constructor.
  - injection H as <-. exists 0, filename, title, [].
    cbn [nth_error firstn List.seq combine concat app].
    rewrite E, app_nil_r. repeat split; auto; constructor.
Qed.

(** An assembly that does not complete was left at the first chapter
    whose path cannot be read or cannot be checked for existence.  What
    was written is the front matter and the sections of the chapters
    before it, followed by the heading of that chapter when its path
    exists and opening or reading it failed, and by nothing more when the
    check for existence itself failed. *)
Theorem unfinished_book
        (lower : str -> str) (dir : directory) (timestamp : str)
        (chapters : list (str * str)) (partial : str) :
  generate_combined_markdown lower dir timestamp chapters = Aborted partial ->
  exists k filename title sections,
    nth_error chapters k = Some (filename, title)
    /\ stops (dir filename) = true
    /\ Forall (fun ch => stops (dir (fst ch)) = false) (firstn k chapters)
    /\ Forall2 (fun p section => is_section dir (fst p) (snd p) section)
         (combine (List.seq 1 k) (firstn k chapters)) sections
    /\ partial = front_matter lower timestamp chapters
                 ++ concat sections
                 ++ match dir filename with
                    | Unreadable => heading (k + 1) title
                    | _ => []
                    end.
Proof.
  unfold generate_combined_markdown. intro H.
  destruct (chapters_loop_aborted _ _ _ _ H)
    as (k & fn & t & sections & Hk & Hu & Hok & Hs & ->).
  exists k, fn, t, sections. rewrite (Nat.add_comm k 1). auto 6.
Qed.

Lemma unfinished_book_witness :
  exists partial,
    generate_combined_markdown ascii_lower blocked_dir
      (py "2025-01-01 00:00:00") scenario_chapters = Aborted partial
    /\ exists k filename title sections,
        nth_error scenario_chapters k = Some (filename, title)
        /\ stops (blocked_dir filename) = true
        /\ Forall (fun ch => stops (blocked_dir (fst ch)) = false)
             (firstn k scenario_chapters)
        /\ Forall2
             (fun p section =>
                is_section blocked_dir (fst p) (snd p) section)
             (combine (List.seq 1 k) (firstn k scenario_chapters)) sections
        /\ partial = front_matter ascii_lower (py "2025-01-01 00:00:00")
                       scenario_chapters
                     ++ concat sections
                     ++ match blocked_dir filename with
                        | Unreadable => heading (k + 1) title
                        | _ => []
                        end.
Proof.
  eexists.
  assert (H : generate_combined_markdown ascii_lower blocked_dir
                (py "2025-01-01 00:00:00") scenario_chapters
              = Aborted _) by (vm_compute; reflexivity).
  split; [exact H|].
  exact (unfinished_book _ _ _ _ H).
Defined.

End Sections.

(** ** Stored comments *)

Module StoredComments.

(** The stored documentation comments are trimmed texts without line
    feed, one per doc-comment line of the text. *)
Theorem doc_comments_trimmed (content : str) :
  Forall (fun e => strip e = e /\ ~ In nl e) (extract_doc_comments content)
  /\ length (extract_doc_comments content)
     = length (filter doc_comment_line (split_nl content)).
Proof.
  unfold extract_doc_comments. rewrite Comments.doc_comments_loop_spec.
  cbn [app]. split; [|apply length_map].
  apply Forall_map. apply Forall_forall. intros line Hline.
  apply filter_In in Hline as [Hline _]. split.
  - unfold doc_text, after_marker. apply strip_idem.
  - apply Documentation.doc_text_no_nl.
    pose proof (split_nl_no_nl content) as H. rewrite Forall_forall in H.
    now apply H.
Qed.

End StoredComments.
